(** * pushDynatraceDeploymentEvent: a model of the Lambda handler

    Shallow embedding of [lambdas/pushDynatraceDeploymentEvent/index.js].
    The handler turns a CodePipeline job, an SNS notification or a direct
    call into one Dynatrace event and posts it.  The embedding keeps the
    JavaScript data as JSON values, the handler's local variables as an
    explicit state, its calls to the outside as a trace of actions, and
    exceptions as a completion that a [try]/[catch] can intercept only when
    it was raised in the same turn of the event loop. *)

From Stdlib Require Import String Ascii List ZArith Bool DecimalString Lia.
Import ListNotations.
Local Open Scope list_scope.
Local Open Scope string_scope.

Set Warnings "-register-all".

(** ** JavaScript values *)

(** What [JSON.parse] and the Lambda runtime hand to the program, plus
    [undefined].  An array carries its elements and the named properties
    that an assignment such as [a["k"] = v] adds to it.  An object keeps its
    properties in insertion order.  Numbers are the integers, which print
    in plain decimal notation: the payloads carry status codes and
    identifiers, and the program looks at a number only to test it for zero
    or to print it. *)
Inductive value : Type :=
| VUndefined
| VNull
| VBool (b : bool)
| VNum (n : Z)
| VStr (s : string)
| VArr (elems : list value) (named : list (string * value))
| VObj (props : list (string * value)).

Inductive jserror : Type :=
| TypeError (detail : string)
| SyntaxError (detail : string).

Inductive result (A : Type) : Type :=
| Ok (a : A)
| Err (e : jserror).
Arguments Ok {A} a.
Arguments Err {A} e.

Class Monad (m : Type -> Type) : Type := {
  ret : forall {A}, A -> m A;
  bind : forall {A B}, m A -> (A -> m B) -> m B
}.

Notation "x <- c ;; k" := (bind c (fun x => k))
  (at level 61, c at next level, right associativity).
Notation "c ;;; k" := (bind c (fun _ => k))
  (at level 61, right associativity).

#[export] Instance result_monad : Monad result := {
  ret := fun A a => Ok a;
  bind := fun A B c k => match c with Ok a => k a | Err e => Err e end
}.

(** [!v] is [negb (truthy v)]. *)
Definition truthy (v : value) : bool :=
  match v with
  | VUndefined | VNull => false
  | VBool b => b
  | VNum n => negb (n =? 0)%Z
  | VStr s => negb (s =? "")
  | VArr _ _ | VObj _ => true
  end.

Fixpoint assoc (k : string) (l : list (string * value)) : option value :=
  match l with
  | [] => None
  | (k', v) :: rest => if k' =? k then Some v else assoc k rest
  end.

(** Assignment to a property: an existing key keeps its place, a new one
    goes last. *)
Fixpoint assoc_set (k : string) (x : value) (l : list (string * value))
  : list (string * value) :=
  match l with
  | [] => [(k, x)]
  | (k', v) :: rest =>
      if k' =? k then (k', x) :: rest else (k', v) :: assoc_set k x rest
  end.

Definition own (l : list (string * value)) (k : string) : value :=
  match assoc k l with Some v => v | None => VUndefined end.

(** [v.k] and [v["k"]] for the data field names of the source (none of them
    is a member of a built-in prototype, so a primitive or an object that
    does not own the key answers [undefined]). *)
Definition get (v : value) (k : string) : result value :=
  match v with
  | VUndefined | VNull =>
      Err (TypeError ("Cannot read property " ++ k ++ " of undefined or null"))
  | VObj props => Ok (own props k)
  | VArr _ named => Ok (own named k)
  | VBool _ | VNum _ | VStr _ => Ok VUndefined
  end.

(** The effect of [v.k = x] on [v] itself.  The file is not in strict mode:
    an assignment to a property of a primitive is dropped silently. *)
Definition store (v : value) (k : string) (x : value) : value :=
  match v with
  | VObj props => VObj (assoc_set k x props)
  | VArr elems named => VArr elems (assoc_set k x named)
  | _ => v
  end.

Definition set (v : value) (k : string) (x : value) : result value :=
  match v with
  | VUndefined | VNull =>
      Err (TypeError ("Cannot set property " ++ k ++ " of undefined or null"))
  | _ => Ok (store v k x)
  end.

Definition render_nat (i : nat) : string :=
  NilZero.string_of_uint (Nat.to_uint i).

Definition render (n : Z) : string :=
  NilZero.string_of_int (Z.to_int n).

(** [v[i]] for a numeric index. *)
Definition get_index (v : value) (i : nat) : result value :=
  match v with
  | VUndefined | VNull =>
      Err (TypeError ("Cannot read property " ++ render_nat i
                      ++ " of undefined or null"))
  | VArr elems _ => Ok (nth i elems VUndefined)
  | VObj props => Ok (own props (render_nat i))
  | VStr s =>
      Ok (match String.get i s with
          | Some c => VStr (String c "")
          | None => VUndefined
          end)
  | VBool _ | VNum _ => Ok VUndefined
  end.

Fixpoint has_key (k : string) (l : list (string * value)) : bool :=
  match l with
  | [] => false
  | (k', _) :: rest => (k' =? k) || has_key k rest
  end.

Definition cannot_convert : jserror :=
  TypeError "Cannot convert object to primitive value".

(** The string a value turns into under [+] with a string, under [==] with a
    string, and inside [Array.prototype.join].  A parsed object has no
    callable member of its own: one that owns a [toString] key shadows
    [Object.prototype.toString] with a non-function, and the conversion
    throws; any other object prints as [[object Object]].  An array prints
    as its elements joined by commas, [null] and [undefined] printing as the
    empty string there. *)
Fixpoint ToString (v : value) : result string :=
  match v with
  | VUndefined => Ok "undefined"
  | VNull => Ok "null"
  | VBool true => Ok "true"
  | VBool false => Ok "false"
  | VNum n => Ok (render n)
  | VStr s => Ok s
  | VObj props =>
      if has_key "toString" props then Err cannot_convert
      else Ok "[object Object]"
  | VArr elems named =>
      if has_key "toString" named then Err cannot_convert
      else if has_key "join" named then Ok "[object Array]"
      else
        let item (x : value) : result string :=
          match x with
          | VUndefined | VNull => Ok ""
          | _ => ToString x
          end in
        (fix join (l : list value) : result string :=
           match l with
           | [] => Ok ""
           | [x] => item x
           | x :: rest =>
               match item x with
               | Ok s =>
                   match join rest with
                   | Ok r => Ok (s ++ "," ++ r)
                   | Err e => Err e
                   end
               | Err e => Err e
               end
           end) elems
  end.

(** [v == lit] for a literal [lit] that is not a numeral (the two event type
    names): a number or a boolean is compared with [ToNumber lit], which is
    [NaN]; [null] and [undefined] equal only each other; an object or an
    array is compared through its string conversion. *)
Definition loose_eq_str (v : value) (lit : string) : result bool :=
  match v with
  | VStr s => Ok (s =? lit)
  | VArr _ _ | VObj _ => s <- ToString v ;; Ok (s =? lit)
  | VUndefined | VNull | VBool _ | VNum _ => Ok false
  end.

Definition not_a_function (m : string) : jserror :=
  TypeError (m ++ " is not a function").

Fixpoint contains (needle s : string) : bool :=
  String.prefix needle s ||
  match s with
  | EmptyString => false
  | String _ rest => contains needle rest
  end.

(** [v.includes(needle)]: substring test on a string, membership test on an
    array. *)
Definition includes (v : value) (needle : string) : result bool :=
  match v with
  | VStr s => Ok (contains needle s)
  | VArr elems _ =>
      Ok (existsb (fun x => match x with
                            | VStr s => s =? needle
                            | _ => false
                            end) elems)
  | VUndefined | VNull =>
      Err (TypeError "Cannot read property includes of undefined or null")
  | _ => Err (not_a_function "includes")
  end.

(** [v.concat(items)], where [items] is an array. *)
Definition concat (v : value) (items : list value) : result value :=
  match v with
  | VArr elems _ => Ok (VArr (elems ++ items)%list [])
  | VStr s => t <- ToString (VArr items []) ;; Ok (VStr (s ++ t))
  | VUndefined | VNull =>
      Err (TypeError "Cannot read property concat of undefined or null")
  | _ => Err (not_a_function "concat")
  end.

(** [s.split(",")] *)
Fixpoint split (sep : ascii) (s : string) : list string :=
  match s with
  | EmptyString => [""]
  | String c rest =>
      if Ascii.eqb c sep then "" :: split sep rest
      else match split sep rest with
           | x :: xs => String c x :: xs
           | [] => [String c ""]
           end
  end.

Definition nl : string := String (ascii_of_nat 10) "".

(** The receiver of [v.m(...)] for a method [m] of strings: a string has
    the method; [v.m] is [undefined] on any other value, and the call
    throws. *)
Definition string_method (m : string) (v : value) : result string :=
  match v with
  | VStr s => Ok s
  | VUndefined | VNull =>
      Err (TypeError ("Cannot read property " ++ m ++ " of undefined or null"))
  | _ => Err (not_a_function m)
  end.

(** ** The world outside the handler *)

(** Modelled from the spec: the job context that [getJobDetails] of the
    pipeline utility module [codepipelineutils] passes to its callback.  The
    module is not among the sources; the spec gives the shape
    [{pipelineName, stage, action, codedeploy?: {deploymentId,
    deploymentGroup, application}}]. *)
Record codedeployDetails : Type := {
  deploymentId : string;
  deploymentGroup : string;
  application : string
}.

(** Modelled from the spec: the second argument of the callback of
    [getJobDetails], of which the handler reads these four fields. *)
Record jobDetails : Type := {
  pipelineName : string;
  stage : string;
  action : string;
  codedeploy : option codedeployDetails
}.

(** What the runtime and the three utility modules ([codepipelineutils],
    [dtapiutils], [monspec]) answer, each with the result type that the
    handler relies on: the clock for the two readings of [Date.now()], an
    error or nothing from [dtApiInit], the token and the tenant URL of the
    environment, an error or the job context from [getJobDetails], an error
    or the file content from [downloadFile], the list of tag rules, and the
    status code and body of the HTTP answer.  A failed lookup passes an
    error to the callback, kept here as its text. *)
Record world : Type := {
  JSON_parse : string -> result value;
  now_start : Z;
  now_end : Z;
  dtApiInit : option string;
  getDtApiToken : value;
  getDtTenantUrl : value;
  getJobDetails : value -> option string * jobDetails;
  downloadFile : value -> value -> value -> option string * string;
  getAllTagRules : value -> value -> list value;
  dtApiPost : string -> value -> value -> Z * string
}.

(** ** Effects *)

(** A message is kept as the pieces the source concatenates. *)
Inductive part : Type :=
| PLit (s : string)
| PJson (v : value)          (* JSON.stringify(v) *)
| PContext                   (* JSON.stringify(context) *)
| PErr (e : jserror).        (* an exception object *)

Definition text : Type := list part.

(** The [context] argument of [reportError] and [reportSuccess]: the Lambda
    context object, or nothing when the caller leaves the argument out. *)
Inductive ctxarg : Type := CtxGiven | CtxUndefined.

Inductive effect : Type :=
| Log (t : text)
| LambdaCallback (err : text)
| PutJobFailure (message : text) (jobId : value) (context : ctxarg)
| PutJobSuccess (message : text) (jobId : value) (context : ctxarg)
| ContextFail (message : text)
| ContextSucceed (message : text)
| GetJobDetails (jobId : value)
| DownloadFile (artifact credentials url : value)
| DtApiPost (url : string) (token : value) (event : value).

(** The variables of the handler that its callbacks and its [catch] share. *)
Record locals : Type := {
  codePipelineJobId : value;
  postedData : value
}.

(** [Throw] is an exception on its way to an enclosing [catch]; [Escaped] is
    one raised inside a callback, after the [try] that registered the
    callback has been left. *)
Inductive completion (A : Type) : Type :=
| Normal (a : A)
| Throw (e : jserror)
| Escaped (e : jserror).
Arguments Normal {A} a.
Arguments Throw {A} e.
Arguments Escaped {A} e.

Definition M (A : Type) : Type :=
  locals -> list effect * locals * completion A.

#[export] Instance M_monad : Monad M := {
  ret := fun A a s => ([], s, Normal a);
  bind := fun A B c k s =>
    match c s with
    | (tr, s', Normal a) =>
        match k a s' with
        | (tr', s'', r) => ((tr ++ tr')%list, s'', r)
        end
    | (tr, s', Throw e) => (tr, s', Throw e)
    | (tr, s', Escaped e) => (tr, s', Escaped e)
    end
}.

Definition emit (a : effect) : M unit := fun s => ([a], s, Normal tt).

Definition throw {A : Type} (e : jserror) : M A := fun s => ([], s, Throw e).

Definition lift {A : Type} (r : result A) : M A :=
  fun s => match r with
           | Ok a => ([], s, Normal a)
           | Err e => ([], s, Throw e)
           end.

Definition read_codePipelineJobId : M value :=
  fun s => ([], s, Normal (codePipelineJobId s)).

Definition read_postedData : M value :=
  fun s => ([], s, Normal (postedData s)).

Definition write_codePipelineJobId (v : value) : M unit :=
  fun s => ([], {| codePipelineJobId := v; postedData := postedData s |},
            Normal tt).

Definition write_postedData (v : value) : M unit :=
  fun s => ([], {| codePipelineJobId := codePipelineJobId s; postedData := v |},
            Normal tt).

(** [try { body } catch (error) { handler error }] *)
Definition try_catch {A : Type} (body : M A) (handler : jserror -> M A) : M A :=
  fun s =>
    match body s with
    | (tr, s', Throw e) =>
        match handler e s' with
        | (tr', s'', r) => ((tr ++ tr')%list, s'', r)
        end
    | r => r
    end.

(** The body of a callback that a utility module runs later: what it throws
    reaches no [catch] of the handler. *)
Definition async {A : Type} (callback : M A) : M A :=
  fun s =>
    match callback s with
    | (tr, s', Throw e) => (tr, s', Escaped e)
    | r => r
    end.

Definition trace {A : Type} (r : list effect * locals * completion A)
  : list effect := fst (fst r).

Definition outcome {A : Type} (r : list effect * locals * completion A)
  : completion A := snd r.

(** ** The program *)

Definition fail_of_undefined : jserror :=
  TypeError "Cannot read property fail of undefined".

(** Lines 20-24. *)
Definition reportError (message : text) (codePipelineJobId : value)
    (context : ctxarg) : M unit :=
  (if truthy codePipelineJobId
   then emit (PutJobFailure message codePipelineJobId context)
   else match context with
        | CtxGiven => emit (ContextFail message)
        | CtxUndefined =>
            throw fail_of_undefined
        end) ;;;
  emit (Log (PLit "Error: " :: message)).

(** Lines 26-30. *)
Definition reportSuccess (message : text) (codePipelineJobId : value)
    (context : ctxarg) : M unit :=
  (if truthy codePipelineJobId
   then emit (PutJobSuccess message codePipelineJobId context)
   else match context with
        | CtxGiven => emit (ContextSucceed message)
        | CtxUndefined =>
            throw (TypeError "Cannot read property succeed of undefined")
        end) ;;;
  emit (Log (PLit "Success: " :: message)).

(** Lines 217-226: the test that tells the no-matching-entities answer apart,
    for a response with status 400. *)
Definition noMatchingEntities (w : world) (response : string) : result bool :=
  if String.prefix "{" response then
    responseObject <- JSON_parse w response ;;
    error <- get responseObject "error" ;;
    if truthy error then
      message <- get error "message" ;;
      includes message "No MEIdentifier do match"
    else Ok false
  else Ok false.

(** The message of line 223. *)
Definition noMatchText (attachRules : value) : text :=
  [PLit ("Failed to push Dynatrace Deployment Event!" ++ nl
         ++ "NO Entities found that match your Tags: + ");
   PJson attachRules;
   PLit (nl ++ nl
         ++ "Double check your tag configuration in monspec or in Dynatrace!")].

(** Lines 211-230: the callback of [dtApiPost]. *)
Definition onPosted (w : world) (postedData codePipelineJobId : value)
    (context : ctxarg) (statuscode : Z) (response : string) : M unit :=
  if (statuscode =? 200)%Z then
    reportSuccess [PLit "Successfully sent event to Dynatrace"]
      codePipelineJobId context
  else
    nomatch <- (if (statuscode =? 400)%Z
                then lift (noMatchingEntities w response)
                else ret false) ;;
    if nomatch : bool then
      attachRules <- lift (get postedData "attachRules") ;;
      reportError (noMatchText attachRules) codePipelineJobId context
    else
      reportError [PLit ("Failed to send event to Dynatrace: " ++ response)]
        codePipelineJobId context.

Definition properties : list string :=
  ["deploymentName"; "deploymentVersion"; "deploymentProject";
   "annotationType"; "annotationDescription"; "source"; "customProperties"].

(** Lines 201-204. *)
Fixpoint copyProperties (postedData event : value) (names : list string)
  : result value :=
  match names with
  | [] => Ok event
  | propName :: rest =>
      v <- get postedData propName ;;
      event <- (if truthy v then set event propName v else Ok event) ;;
      copyProperties postedData event rest
  end.

(** Lines 189-230: the record passed the checks; build the event and post
    it. *)
Definition submit (w : world) (postedData codePipelineJobId : value)
    (context : ctxarg) : M unit :=
  dtTenantURL <- lift (get postedData "dtTenantURL") ;;
  base <- lift (ToString dtTenantURL) ;;
  let dtEventUrl := base ++ "/api/v1/events" in
  source <- lift (get postedData "source") ;;
  eventType <- lift (get postedData "eventType") ;;
  attachRules <- lift (get postedData "attachRules") ;;
  let event :=
    VObj [("start", VStr (render (now_start w)));
          ("end", VStr (render (now_end w)));
          ("source", if truthy source then source
                     else VStr "Dynatrace AWS Lambda");
          ("eventType", eventType);
          ("attachRules", attachRules)] in
  event <- lift (copyProperties postedData event properties) ;;
  emit (Log [PLit ("HTTP POST " ++ dtEventUrl)]) ;;;
  dtApiToken <- lift (get postedData "dtApiToken") ;;
  shown <- lift (ToString dtApiToken) ;;
  emit (Log [PLit ("ApiToken: " ++ shown)]) ;;;
  emit (Log [PJson event]) ;;;
  emit (DtApiPost dtEventUrl dtApiToken event) ;;;
  async (match dtApiPost w dtEventUrl dtApiToken event with
         | (statuscode, response) =>
             onPosted w postedData codePipelineJobId context
               statuscode response
         end).

(** Lines 169-171. *)
Definition announce (postedData : value) : M unit :=
  emit (Log [PLit ("Posted Data" ++ nl)]) ;;;
  emit (Log [PJson postedData]).

(** Lines 174-175: the token and the tenant URL of the environment stand in
    for the ones the record lacks. *)
Definition globalConfiguration (w : world) (postedData : value)
  : result value :=
  given <- get postedData "dtApiToken" ;;
  postedData <- set postedData "dtApiToken"
                  (if truthy given then given else getDtApiToken w) ;;
  given <- get postedData "dtTenantURL" ;;
  set postedData "dtTenantURL"
    (if truthy given then given else getDtTenantUrl w).

(** Lines 168-231.  The six checks call [reportError] with two arguments, so
    its [context] parameter is [undefined] there.  The record is the
    caller's own object; no caller looks at it again once [postToApi] has
    it, and the model hands it over by value. *)
Definition postToApi (w : world) (postedData codePipelineJobId : value)
    (context : ctxarg) : M unit :=
  announce postedData ;;;
  postedData <- lift (globalConfiguration w postedData) ;;
  dtApiToken <- lift (get postedData "dtApiToken") ;;
  if negb (truthy dtApiToken) then
    reportError [PLit "dtApiToken missing"] codePipelineJobId CtxUndefined
  else
  dtTenantURL <- lift (get postedData "dtTenantURL") ;;
  if negb (truthy dtTenantURL) then
    reportError [PLit "dtTenantURL missing"] codePipelineJobId CtxUndefined
  else
  attachRules <- lift (get postedData "attachRules") ;;
  if negb (truthy attachRules) then
    reportError [PLit "attachRules missing"] codePipelineJobId CtxUndefined
  else
  eventType <- lift (get postedData "eventType") ;;
  if negb (truthy eventType) then
    reportError [PLit "eventType missing"] codePipelineJobId CtxUndefined
  else
  annotation <- lift (loose_eq_str eventType "CUSTOM_ANNOTATION") ;;
  missing <- (if annotation : bool
              then annotationType <- lift (get postedData "annotationType") ;;
                   ret (negb (truthy annotationType))
              else ret false) ;;
  if missing : bool then
    reportError [PLit "annotationType missing"] codePipelineJobId CtxUndefined
  else
  eventType <- lift (get postedData "eventType") ;;
  deployment <- lift (loose_eq_str eventType "CUSTOM_DEPLOYMENT") ;;
  missing <- (if deployment : bool
              then deploymentName <- lift (get postedData "deploymentName") ;;
                   ret (negb (truthy deploymentName))
              else ret false) ;;
  if missing : bool then
    reportError [PLit "deploymentName missing"] codePipelineJobId CtxUndefined
  else
  submit w postedData codePipelineJobId context.

(** [job.data.actionConfiguration.configuration.UserParameters] *)
Definition userParameters (job : value) : result value :=
  data <- get job "data" ;;
  actionConfiguration <- get data "actionConfiguration" ;;
  configuration <- get actionConfiguration "configuration" ;;
  get configuration "UserParameters".

(** Lines 64-78: the record and the monspec location that the user
    parameters stand for. *)
Definition parseUserParameters (w : world) (UserParameters : value)
  : result (value * value) :=
  params <- string_method "startsWith" UserParameters ;;
  if String.prefix "{" params then
    postedData <- JSON_parse w params ;;
    Ok (postedData, VNull)
  else
    let userDataConfigs := split "," params in
    let postedData :=
      store (VObj []) "environmentName" (VStr (nth 0 userDataConfigs "")) in
    if (1 <? length userDataConfigs)%nat
       && String.prefix "http" (nth 1 userDataConfigs "")
    then
      Ok (VObj [], VStr (nth 1 userDataConfigs ""))
    else
      Ok (store postedData "userComment"
            (VStr (if (1 <? length userDataConfigs)%nat
                   then nth 1 userDataConfigs ""
                   else params)),
          VNull).

(** [if(!postedData.k) postedData.k = x] *)
Definition setIfFalsy (postedData : value) (k : string) (x : value)
  : result value :=
  current <- get postedData k ;;
  if truthy current then Ok postedData else set postedData k x.

(** [postedData.k1[k2] = x]: the object that [postedData.k1] refers to is
    changed in place. *)
Definition setNested (postedData : value) (k1 k2 : string) (x : value)
  : result value :=
  inner <- get postedData k1 ;;
  inner <- set inner k2 x ;;
  Ok (store postedData k1 inner).

(** Lines 88-91. *)
Definition annotationDefaults (postedData : value) (jobDetails : jobDetails)
  : result value :=
  eventType <- get postedData "eventType" ;;
  annotation <- loose_eq_str eventType "CUSTOM_ANNOTATION" ;;
  if annotation : bool then
    postedData <- setIfFalsy postedData "annotationType"
                    (VStr (pipelineName jobDetails)) ;;
    userComment <- get postedData "userComment" ;;
    if truthy userComment
    then set postedData "annotationDescription" userComment
    else Ok postedData
  else Ok postedData.

(** Lines 92-96. *)
Definition deploymentDefaults (postedData : value) (jobDetails : jobDetails)
    (codePipelineJobId : value) : result value :=
  eventType <- get postedData "eventType" ;;
  deployment <- loose_eq_str eventType "CUSTOM_DEPLOYMENT" ;;
  if deployment : bool then
    userComment <- get postedData "userComment" ;;
    postedData <- setIfFalsy postedData "deploymentName"
                    (if truthy userComment then userComment
                     else VStr (pipelineName jobDetails)) ;;
    postedData <- setIfFalsy postedData "deploymentVersion"
                    (match codedeploy jobDetails with
                     | Some cd => VStr (deploymentId cd)
                     | None => codePipelineJobId
                     end) ;;
    setIfFalsy postedData "deploymentProject"
      (VStr (pipelineName jobDetails))
  else Ok postedData.

(** Lines 100-104: the CodeDeploy details go into whatever
    [postedData.customProperties] is by then. *)
Definition codedeployProperties (postedData : value)
    (jobDetails : jobDetails) : result value :=
  match codedeploy jobDetails with
  | Some cd =>
      postedData <- setNested postedData "customProperties"
                      "CodeDeploy.DeploymentGroup"
                      (VStr (deploymentGroup cd)) ;;
      postedData <- setNested postedData "customProperties"
                      "CodeDeploy.Application" (VStr (application cd)) ;;
      setNested postedData "customProperties"
        "CodeDeploy.DeploymentId" (VStr (deploymentId cd))
  | None => Ok postedData
  end.

(** Lines 85-107: the defaults taken from the job context. *)
Definition normalizeJob (postedData : value) (jobDetails : jobDetails)
    (codePipelineJobId : value) : result value :=
  postedData <- setIfFalsy postedData "eventType"
                  (VStr (match codedeploy jobDetails with
                         | Some _ => "CUSTOM_DEPLOYMENT"
                         | None => "CUSTOM_ANNOTATION"
                         end)) ;;
  postedData <- annotationDefaults postedData jobDetails ;;
  postedData <- deploymentDefaults postedData jobDetails codePipelineJobId ;;
  postedData <- setIfFalsy postedData "customProperties"
                  (VObj [("PipelineName", VStr (pipelineName jobDetails));
                         ("PipelineStage", VStr (stage jobDetails));
                         ("PipelineAction", VStr (action jobDetails))]) ;;
  postedData <- codedeployProperties postedData jobDetails ;;
  setIfFalsy postedData "source" (VStr "AWS CodePipeline").

(** Lines 119-123: the tag rules of the monspec file join the attach
    rules. *)
Definition attachTagRules (postedData : value) (tagRules : list value)
  : result value :=
  postedData <- setIfFalsy postedData "attachRules"
                  (VObj [("tagRule", VArr [] [])]) ;;
  attachRules <- get postedData "attachRules" ;;
  tagRule <- get attachRules "tagRule" ;;
  postedData <- (if truthy tagRule then Ok postedData
                 else setNested postedData "attachRules" "tagRule"
                        (VArr [] [])) ;;
  attachRules <- get postedData "attachRules" ;;
  tagRule <- get attachRules "tagRule" ;;
  joined <- concat tagRule tagRules ;;
  setNested postedData "attachRules" "tagRule" joined.

(** Lines 112-126: the callback of [downloadFile]. *)
Definition onDownloaded (w : world) (job : value) (err : option string)
    (content : string) : M unit :=
  match err with
  | Some e =>
      id <- lift (get job "id") ;;
      emit (PutJobFailure [PLit e] id CtxGiven)
  | None =>
      monspecobject <- lift (JSON_parse w content) ;;
      current <- read_postedData ;;
      environmentName <- lift (get current "environmentName") ;;
      let tagRules := getAllTagRules w monspecobject environmentName in
      updated <- lift (attachTagRules current tagRules) ;;
      write_postedData updated ;;;
      jobId <- read_codePipelineJobId ;;
      postToApi w updated jobId CtxGiven
  end.

(** Lines 82-129: the callback of [getJobDetails]. *)
Definition onJobDetails (w : world) (job monspecurl : value)
    (err : option string) (jobDetails : jobDetails) : M unit :=
  match err with
  | Some e =>
      emit (LambdaCallback
              [PLit ("Cant retrieve job details from CodePipeline: " ++ e)])
  | None =>
      current <- read_postedData ;;
      jobId <- read_codePipelineJobId ;;
      updated <- lift (normalizeJob current jobDetails jobId) ;;
      write_postedData updated ;;;
      data <- lift (get job "data") ;;
      inputArtifacts <- lift (get data "inputArtifacts") ;;
      present <- (if truthy inputArtifacts
                  then first <- lift (get_index inputArtifacts 0) ;;
                       ret (truthy first)
                  else ret false) ;;
      if present : bool then
        artifact <- lift (get_index inputArtifacts 0) ;;
        credentials <- lift (get data "artifactCredentials") ;;
        emit (DownloadFile artifact credentials monspecurl) ;;;
        async (match downloadFile w artifact credentials monspecurl with
               | (err, content) => onDownloaded w job err content
               end)
      else
        postToApi w updated jobId CtxGiven
  end.

(** Lines 54-130: the invocation comes from CodePipeline. *)
Definition fromCodePipeline (w : world) (job : value) : M unit :=
  id <- lift (get job "id") ;;
  write_codePipelineJobId id ;;;
  shown <- lift (ToString id) ;;
  emit (Log [PLit ("Invoked from CodePipeline with JobId: " ++ shown)]) ;;;
  UserParameters <- lift (userParameters job) ;;
  parsed <- lift (parseUserParameters w UserParameters) ;;
  write_postedData (fst parsed) ;;;
  emit (GetJobDetails id) ;;;
  async (match getJobDetails w id with
         | (err, jobDetails) =>
             onJobDetails w job (snd parsed) err jobDetails
         end).

(** Lines 131-151: an SNS notification is parsed and logged, nothing
    else. *)
Definition fromSns (w : world) (record : value) : M unit :=
  Sns <- lift (get record "Sns") ;;
  Message <- lift (get Sns "Message") ;;
  text <- lift (string_method "startsWith" Message) ;;
  if String.prefix "{" text then
    notificationData <- lift (JSON_parse w text) ;;
    emit (Log [PLit text]) ;;;
    deployment <- lift (get notificationData "deploymentId") ;;
    (if truthy deployment
     then status <- lift (get notificationData "status") ;; ret tt
     else ret tt)
  else ret tt.

(** Lines 54, 131 and 152-154: what kind of invocation the event is.  A
    CodePipeline job wins over SNS records, and anything else is taken as a
    direct call, whose record is [event.eventBody] or the event itself. *)
Inductive invocation : Type :=
| PipelineJob (job : value)
| AsyncNotification (record : value)
| DirectCall (body : value).

Definition classify (event : value) : result invocation :=
  job <- get event "CodePipeline.job" ;;
  if truthy job then Ok (PipelineJob job)
  else
    Records <- get event "Records" ;;
    record <- (if truthy Records then get_index Records 0 else Ok Records) ;;
    if truthy record then Ok (AsyncNotification record)
    else
      eventBody <- get event "eventBody" ;;
      Ok (DirectCall (if truthy eventBody then eventBody else event)).

(** Lines 33-166. *)
Definition handler (w : world) (event : value) : M unit :=
  async
    (match dtApiInit w with
     | Some err => throw (not_a_function "console")
     | None =>
         write_codePipelineJobId VNull ;;;
         write_postedData VNull ;;;
         emit (Log [PLit ("Event Data" ++ nl)]) ;;;
         emit (Log [PJson event]) ;;;
         emit (Log [PLit ("Context Object" ++ nl)]) ;;;
         emit (Log [PContext]) ;;;
         try_catch
           (shape <- lift (classify event) ;;
            match shape with
            | PipelineJob job => fromCodePipeline w job
            | AsyncNotification record => fromSns w record
            | DirectCall body =>
                write_postedData body ;;;
                jobId <- read_codePipelineJobId ;;
                postToApi w body jobId CtxGiven
            end)
           (fun error =>
              emit (Log [PLit "ERROR LOG: "; PErr error]) ;;;
              jobId <- read_codePipelineJobId ;;
              reportError [PErr error] jobId CtxGiven)
     end).

Definition start : locals :=
  {| codePipelineJobId := VUndefined; postedData := VUndefined |}.

(** * Vocabulary of the properties *)

(** Whether the conversion to a string goes through. *)
Definition convertible (v : value) : bool :=
  match ToString v with Ok _ => true | Err _ => false end.

(** The event type after line 85: the given one, or the default that the
    job context decides. *)
Definition eventTypeOf (props : list (string * value)) (jd : jobDetails)
  : value :=
  if truthy (own props "eventType") then own props "eventType"
  else VStr (match codedeploy jd with
             | Some _ => "CUSTOM_DEPLOYMENT"
             | None => "CUSTOM_ANNOTATION"
             end).

(** Lines 100-104 seen from the value of [customProperties]. *)
Definition withCodedeploy (jd : jobDetails) (customProperties : value)
  : value :=
  match codedeploy jd with
  | Some cd =>
      store
        (store
           (store customProperties "CodeDeploy.DeploymentGroup"
              (VStr (deploymentGroup cd)))
           "CodeDeploy.Application" (VStr (application cd)))
        "CodeDeploy.DeploymentId" (VStr (deploymentId cd))
  | None => customProperties
  end.



(** The keys under which lines 101-103 file the CodeDeploy details. *)
Definition codedeployKeys : list string :=
  ["CodeDeploy.DeploymentGroup"; "CodeDeploy.Application";
   "CodeDeploy.DeploymentId"].

(** The value of a field of a record, [undefined] where there is none. *)
Definition field (r : value) (k : string) : value :=
  match get r k with Ok y => y | Err _ => VUndefined end.

(** A field is missing when what the record has for it is falsy. *)
Definition missing (r : value) (k : string) : bool :=
  negb (truthy (field r k)).

(** The order of validation in the words of the specification: four fields
    that every record needs, then the one that its event type asks for. *)
Definition unconditional : list string :=
  ["dtApiToken"; "dtTenantURL"; "attachRules"; "eventType"].

(** The field that the event type makes mandatory. *)
Definition conditional (r : value) : result (list string) :=
  annotation <- loose_eq_str (field r "eventType") "CUSTOM_ANNOTATION" ;;
  deployment <- loose_eq_str (field r "eventType") "CUSTOM_DEPLOYMENT" ;;
  Ok ((if annotation : bool then ["annotationType"] else [])
      ++ (if deployment : bool then ["deploymentName"] else []))%list.

(** The first mandatory field, in that order, that the record misses. *)
Definition firstMissing (r : value) : result (option string) :=
  match find (missing r) unconditional with
  | Some k => Ok (Some k)
  | None => fields <- conditional r ;; Ok (find (missing r) fields)
  end.

(** A call of the Dynatrace API. *)
Definition isPost (a : effect) : bool :=
  match a with DtApiPost _ _ _ => true | _ => false end.

(** A request to CodePipeline: the job details or an artifact. *)
Definition isLookup (a : effect) : bool :=
  match a with GetJobDetails _ | DownloadFile _ _ _ => true | _ => false end.

(** Neither a call of the Dynatrace API nor a lookup. *)
Definition quiet (a : effect) : bool := negb (isPost a || isLookup a).

(** A lookup that the world answers with an error. *)
Definition failedLookup (w : world) (a : effect) : bool :=
  match a with
  | GetJobDetails jobId =>
      match fst (getJobDetails w jobId) with Some _ => true | None => false end
  | DownloadFile artifact credentials url =>
      match fst (downloadFile w artifact credentials url) with
      | Some _ => true
      | None => false
      end
  | _ => false
  end.

(** The three ways in which the program tells its caller of a failure: the
    Lambda callback with an error, the job failure of CodePipeline, and
    [context.fail]. *)
Definition isFailureReport (a : effect) : bool :=
  match a with
  | LambdaCallback _ | PutJobFailure _ _ _ | ContextFail _ => true
  | _ => false
  end.

(** A call of the Dynatrace API carries the attach rules of the record, and
    they are set. *)
Definition attached (postedData : value) (a : effect) : Prop :=
  match a with
  | DtApiPost _ _ event =>
      exists attachRules,
        get postedData "attachRules" = Ok attachRules /\
        truthy attachRules = true /\
        get event "attachRules" = Ok attachRules
  | _ => True
  end.

(** A call of the Dynatrace API carries attach rules that are set. *)
Definition carriesRules (a : effect) : Prop :=
  match a with
  | DtApiPost _ _ event =>
      exists attachRules,
        get event "attachRules" = Ok attachRules /\
        truthy attachRules = true
  | _ => True
  end.

(** An array with at least one element. *)
Definition listed (v : value) : bool :=
  match v with VArr (_ :: _) _ => true | _ => false end.

(** Attach rules in the sense of the data model: at least one tag rule or
    one entity id. *)
Definition nonEmptyRules (attachRules : value) : bool :=
  listed (field attachRules "tagRule")
  || listed (field attachRules "entityIds").

(** [sat m s Q]: the run of [m] from the locals [s] has a trace, final
    locals and a completion that [Q] accepts. *)
Definition sat {A : Type} (m : M A) (s : locals)
    (Q : list effect -> locals -> completion A -> Prop) : Prop :=
  match m s with (tr, s', r) => Q tr s' r end.

(** * Sample data *)

Definition sampleDetails : jobDetails :=
  {| pipelineName := "HelloWorld"; stage := "Production";
     action := "PushEvent"; codedeploy := None |}.

Definition sampleDeployment : jobDetails :=
  {| pipelineName := "HelloWorld"; stage := "Production";
     action := "PushEvent";
     codedeploy := Some {| deploymentId := "d-96V3B7QKP";
                           deploymentGroup := "Production";
                           application := "HelloWorld" |} |}.

(** [JSON.parse] as far as the sample runs need it: they submit two texts,
    the empty object and a lone opening brace. *)
Definition parseSample (text : string) : result value :=
  if text =? "{}" then Ok (VObj [])
  else Err (SyntaxError "Unexpected end of JSON input").

Definition sampleWorld : world :=
  {| JSON_parse := parseSample;
     now_start := 1516349230000;
     now_end := 1516349230001;
     dtApiInit := None;
     getDtApiToken := VStr "token";
     getDtTenantUrl := VStr "https://tenant.example.com";
     getJobDetails := fun _ => (None, sampleDetails);
     downloadFile := fun _ _ _ => (None, "{");
     getAllTagRules := fun _ _ => [];
     dtApiPost := fun _ _ _ => (400%Z, "{") |}.

(** The same world with no token and no tenant URL in the environment. *)
Definition unconfigured : world :=
  {| JSON_parse := JSON_parse sampleWorld;
     now_start := now_start sampleWorld;
     now_end := now_end sampleWorld;
     dtApiInit := None;
     getDtApiToken := VUndefined;
     getDtTenantUrl := VUndefined;
     getJobDetails := getJobDetails sampleWorld;
     downloadFile := downloadFile sampleWorld;
     getAllTagRules := getAllTagRules sampleWorld;
     dtApiPost := dtApiPost sampleWorld |}.

Definition bareAnnotation : value :=
  VObj [("eventType", VStr "CUSTOM_ANNOTATION")].

Definition taggedRecord : list (string * value) :=
  [("customProperties", VObj [("team", VStr "payments")])].

Definition commentedRecord : list (string * value) :=
  [("annotationDescription", VStr "Release 42");
   ("userComment", VStr "Deployed successfully")].



(** A record whose attach rules are what lines 121-123 build when the
    monspec file has no tag rule. *)
Definition emptyRules : value :=
  VObj [("attachRules", VObj [("tagRule", VArr [] [])]);
        ("eventType", VStr "CUSTOM_DEPLOYMENT");
        ("deploymentName", VStr "HelloWorld")].

Definition emptyRulesEvent : value :=
  VObj [("start", VStr "1516349230000");
        ("end", VStr "1516349230001");
        ("source", VStr "Dynatrace AWS Lambda");
        ("eventType", VStr "CUSTOM_DEPLOYMENT");
        ("attachRules", VObj [("tagRule", VArr [] [])]);
        ("deploymentName", VStr "HelloWorld")].

(** The sample world, but CodePipeline refuses the job details. *)
Definition failingLookup : world :=
  {| JSON_parse := JSON_parse sampleWorld;
     now_start := now_start sampleWorld;
     now_end := now_end sampleWorld;
     dtApiInit := None;
     getDtApiToken := getDtApiToken sampleWorld;
     getDtTenantUrl := getDtTenantUrl sampleWorld;
     getJobDetails := fun _ => (Some "AccessDeniedException", sampleDetails);
     downloadFile := downloadFile sampleWorld;
     getAllTagRules := getAllTagRules sampleWorld;
     dtApiPost := dtApiPost sampleWorld |}.

(** The sample world, but the artifact cannot be downloaded. *)
Definition failingDownload : world :=
  {| JSON_parse := JSON_parse sampleWorld;
     now_start := now_start sampleWorld;
     now_end := now_end sampleWorld;
     dtApiInit := None;
     getDtApiToken := getDtApiToken sampleWorld;
     getDtTenantUrl := getDtTenantUrl sampleWorld;
     getJobDetails := getJobDetails sampleWorld;
     downloadFile := fun _ _ _ => (Some "NoSuchKey", EmptyString);
     getAllTagRules := getAllTagRules sampleWorld;
     dtApiPost := dtApiPost sampleWorld |}.

Definition serviceRule : value :=
  VObj [("meTypes", VArr [VStr "SERVICE"] []);
        ("tags", VArr [VObj [("context", VStr "CONTEXTLESS");
                             ("key", VStr "DeploymentGroup");
                             ("value", VStr "Production")]] [])].

(** A world in which everything works.  Its [getAllTagRules] answers with
    one rule and, after it, the environment name it was asked about, so
    that the name shows in the posted event. *)
Definition deliveringWorld : world :=
  {| JSON_parse := parseSample;
     now_start := 1516349230000;
     now_end := 1516349230001;
     dtApiInit := None;
     getDtApiToken := VStr "token";
     getDtTenantUrl := VStr "https://tenant.example.com";
     getJobDetails := fun _ => (None, sampleDeployment);
     downloadFile := fun _ _ _ => (None, "{}");
     getAllTagRules := fun _ environmentName => [serviceRule; environmentName];
     dtApiPost := fun _ _ _ => (200%Z, EmptyString) |}.

(** The same world, but the monspec file has no tag rule for any
    environment. *)
Definition rulelessWorld : world :=
  {| JSON_parse := JSON_parse deliveringWorld;
     now_start := now_start deliveringWorld;
     now_end := now_end deliveringWorld;
     dtApiInit := None;
     getDtApiToken := getDtApiToken deliveringWorld;
     getDtTenantUrl := getDtTenantUrl deliveringWorld;
     getJobDetails := getJobDetails deliveringWorld;
     downloadFile := downloadFile deliveringWorld;
     getAllTagRules := fun _ _ => [];
     dtApiPost := dtApiPost deliveringWorld |}.

Definition artifact : value := VObj [("name", VStr "MonSpec")].

Definition isLog (a : effect) : bool :=
  match a with Log _ => true | _ => false end.

(** What a run does besides logging. *)
Definition calls (tr : list effect) : list effect :=
  filter (fun a => negb (isLog a)) tr.

(** The tag rules of the events that a run posts. *)
Definition postedTagRules (tr : list effect) : list value :=
  flat_map (fun a => match a with
                     | DtApiPost _ _ event =>
                         [field (field event "attachRules") "tagRule"]
                     | _ => []
                     end) tr.

Definition pipelineEvent (UserParameters : string)
    (inputArtifacts : list value) : value :=
  VObj [("CodePipeline.job",
         VObj [("id", VStr "job-1");
               ("data",
                VObj [("actionConfiguration",
                       VObj [("configuration",
                              VObj [("UserParameters",
                                     VStr UserParameters)])]);
                      ("inputArtifacts", VArr inputArtifacts []);
                      ("artifactCredentials", VObj [])])])].

(** * Vocabulary of the further properties *)

(** How many actions of a run are of a kind. *)
Definition count (p : effect -> bool) (tr : list effect) : nat :=
  length (filter p tr).

(** An answer to the caller, whichever way it goes: the Lambda callback, a
    verdict on the CodePipeline job, or a call of the context. *)
Definition isReport (a : effect) : bool :=
  match a with
  | LambdaCallback _ | PutJobFailure _ _ _ | PutJobSuccess _ _ _
  | ContextFail _ | ContextSucceed _ => true
  | _ => false
  end.

Definition isSuccessReport (a : effect) : bool :=
  match a with
  | PutJobSuccess _ _ _ | ContextSucceed _ => true
  | _ => false
  end.

(** A call of the Dynatrace API that the world answers with status 200. *)
Definition accepted (w : world) (a : effect) : bool :=
  match a with
  | DtApiPost url token event => (fst (dtApiPost w url token event) =? 200)%Z
  | _ => false
  end.

Definition isCallback (a : effect) : bool :=
  match a with LambdaCallback _ => true | _ => false end.

Definition isContextFail (a : effect) : bool :=
  match a with ContextFail _ => true | _ => false end.

(** [context.fail] or [context.succeed]. *)
Definition usesContext (a : effect) : bool :=
  match a with ContextFail _ | ContextSucceed _ => true | _ => false end.

(** A call of the module [codepipelineutils]. *)
Definition touchesCodePipeline (a : effect) : bool :=
  match a with
  | GetJobDetails _ | DownloadFile _ _ _
  | PutJobFailure _ _ _ | PutJobSuccess _ _ _ => true
  | _ => false
  end.

(** What [postToApi] may do for a given job id: log, call the API, and
    answer CodePipeline when the job id is set, the context when it is
    not. *)
Definition postEffect (codePipelineJobId : value) (a : effect) : bool :=
  match a with
  | Log _ | DtApiPost _ _ _ => true
  | PutJobFailure _ jobId _ | PutJobSuccess _ jobId _ =>
      truthy codePipelineJobId
  | ContextFail _ | ContextSucceed _ => negb (truthy codePipelineJobId)
  | _ => false
  end.

(** A call of the Lambda callback tells of a request for job details that
    CodePipeline refused. *)
Definition refusal (w : world) (tr : list effect) (m : text) : Prop :=
  exists jobId e,
    In (GetJobDetails jobId) tr
    /\ fst (getJobDetails w jobId) = Some e
    /\ m = [PLit ("Cant retrieve job details from CodePipeline: " ++ e)].

(** [given || fallback] *)
Definition effective (given fallback : value) : value :=
  if truthy given then given else fallback.

(** The keys that line 191 gives every event. *)
Definition baseFields : list string :=
  ["start"; "end"; "source"; "eventType"; "attachRules"].

(** The event of lines 191-197 before the optional properties join it. *)
Definition baseEvent (w : world) (r : value) : value :=
  VObj [("start", VStr (render (now_start w)));
        ("end", VStr (render (now_end w)));
        ("source", effective (field r "source") (VStr "Dynatrace AWS Lambda"));
        ("eventType", field r "eventType");
        ("attachRules", field r "attachRules")].

(** A call of the Dynatrace API is made for the record with the token and
    the tenant URL filled in, goes to the events endpoint of its tenant with
    its token, and carries the base event with the optional properties
    copied into it. *)
Definition posted (w : world) (postedData : value) (a : effect) : Prop :=
  match a with
  | DtApiPost url token event =>
      exists r base,
        globalConfiguration w postedData = Ok r /\
        truthy (field r "dtApiToken") = true /\
        truthy (field r "dtTenantURL") = true /\
        ToString (field r "dtTenantURL") = Ok base /\
        url = base ++ "/api/v1/events" /\
        token = field r "dtApiToken" /\
        copyProperties r (baseEvent w r) properties = Ok event
  | _ => True
  end.

(** The tag rules that a record brings along, when lines 121-123 can extend
    them: none when there are no attach rules or no [tagRule] in them, the
    elements of [tagRule] when it is an array. *)
Definition existingRules (attachRules : value) : option (list value) :=
  match attachRules with
  | VObj _ | VArr _ _ =>
      match field attachRules "tagRule" with
      | VArr old _ => Some old
      | tagRule => if truthy tagRule then None else Some []
      end
  | _ => if truthy attachRules then None else Some []
  end.

(** The values that have a method [includes]. *)
Definition searchable (v : value) : bool :=
  match v with VStr _ | VArr _ _ => true | _ => false end.

Fixpoint commaFree (s : string) : bool :=
  match s with
  | EmptyString => true
  | String c rest => negb (Ascii.eqb c ",") && commaFree rest
  end.

(** The monspec location that line 112 may pass to [downloadFile]: none, or
    a text that starts with [http]. *)
Definition monspecLocation (url : value) : bool :=
  match url with
  | VNull => true
  | VStr text => String.prefix "http" text
  | _ => false
  end.

(** A download is asked for an artifact that is there, from a monspec
    location of this kind. *)
Definition properDownload (a : effect) : bool :=
  match a with
  | DownloadFile artifact _ url => truthy artifact && monspecLocation url
  | _ => true
  end.

(** A request that is answered in a callback: a lookup or a call of the
    Dynatrace API. *)
Definition isRequest (a : effect) : bool := isLookup a || isPost a.

(** The defaults of line 99. *)
Definition pipelineProperties (jd : jobDetails) : value :=
  VObj [("PipelineName", VStr (pipelineName jd));
        ("PipelineStage", VStr (stage jd));
        ("PipelineAction", VStr (action jd))].

(** * Further sample data *)

(** The sample world, but the API client cannot be set up. *)
Definition uninitialised : world :=
  {| JSON_parse := JSON_parse sampleWorld;
     now_start := now_start sampleWorld;
     now_end := now_end sampleWorld;
     dtApiInit := Some "no credentials";
     getDtApiToken := getDtApiToken sampleWorld;
     getDtTenantUrl := getDtTenantUrl sampleWorld;
     getJobDetails := getJobDetails sampleWorld;
     downloadFile := downloadFile sampleWorld;
     getAllTagRules := getAllTagRules sampleWorld;
     dtApiPost := dtApiPost sampleWorld |}.

Definition quote : string := String (ascii_of_nat 34) EmptyString.

(** The JSON text of an object whose only entry is an [error] that is the
    string [Bad Request]. *)
Definition badRequest : string :=
  "{" ++ quote ++ "error" ++ quote ++ ":" ++ quote ++ "Bad Request" ++ quote
  ++ "}".

(** [JSON.parse] on that text and on the two of [parseSample]. *)
Definition parseAnswer (text : string) : result value :=
  if text =? badRequest then Ok (VObj [("error", VStr "Bad Request")])
  else parseSample text.

(** A world whose Dynatrace API answers every event with that text and
    status 400. *)
Definition terseWorld : world :=
  {| JSON_parse := parseAnswer;
     now_start := now_start sampleWorld;
     now_end := now_end sampleWorld;
     dtApiInit := None;
     getDtApiToken := getDtApiToken sampleWorld;
     getDtTenantUrl := getDtTenantUrl sampleWorld;
     getJobDetails := getJobDetails sampleWorld;
     downloadFile := downloadFile sampleWorld;
     getAllTagRules := getAllTagRules sampleWorld;
     dtApiPost := fun _ _ _ => (400%Z, badRequest) |}.

(** An SNS event with one record, whose message is the empty object. *)
Definition notificationEvent : value :=
  VObj [("Records",
         VArr [VObj [("Sns", VObj [("Message", VStr "{}")])]] [])].

(** A CodePipeline event whose job has an id and nothing else. *)
Definition bareJobEvent : value :=
  VObj [("CodePipeline.job", VObj [("id", VStr "job-1")])].

Definition hostRule : value :=
  VObj [("meTypes", VArr [VStr "HOST"] []);
        ("tags", VArr [VObj [("context", VStr "CONTEXTLESS");
                             ("key", VStr "Environment");
                             ("value", VStr "Production")]] [])].

(** A record that brings an entity id and a tag rule of its own. *)
Definition ruledRecord : list (string * value) :=
  [("attachRules",
    VObj [("entityIds", VArr [VStr "SERVICE-1"] []);
          ("tagRule", VArr [serviceRule] [])])].

(** The record of [emptyRules] with a token and a tenant URL of its own. *)
Definition ownTenantRecord : value :=
  VObj [("attachRules", VObj [("tagRule", VArr [] [])]);
        ("eventType", VStr "CUSTOM_DEPLOYMENT");
        ("deploymentName", VStr "HelloWorld");
        ("dtApiToken", VStr "own-token");
        ("dtTenantURL", VStr "https://other.example.com")].

(** What normalization makes of [commentedRecord] for a job without
    CodeDeploy details. *)
Definition annotatedRecord : list (string * value) :=
  [("annotationDescription", VStr "Deployed successfully");
   ("userComment", VStr "Deployed successfully");
   ("eventType", VStr "CUSTOM_ANNOTATION");
   ("annotationType", VStr "HelloWorld");
   ("customProperties",
    VObj [("PipelineName", VStr "HelloWorld");
          ("PipelineStage", VStr "Production");
          ("PipelineAction", VStr "PushEvent")]);
   ("source", VStr "AWS CodePipeline")].

(** * Properties *)

(** ** Reading a property after a write *)

Lemma assoc_set_same (k : string) (x : value) (l : list (string * value)) :
  assoc k (assoc_set k x l) = Some x.
Proof.
  induction l as [|[k' v] rest IH]; simpl.
  - now rewrite String.eqb_refl.
  - destruct (k' =? k) eqn:E; simpl; rewrite E; auto.
Qed.

Lemma assoc_set_other (k k' : string) (x : value) (l : list (string * value)) :
  (k =? k') = false -> assoc k' (assoc_set k x l) = assoc k' l.
Proof.
  intros D. induction l as [|[k0 v] rest IH]; simpl.
  - now rewrite D.
  - destruct (k0 =? k) eqn:E; simpl.
    + apply String.eqb_eq in E. subst k0. now rewrite D.
    + now rewrite IH.
Qed.

Lemma get_store_other (v : value) (k k' : string) (x : value) :
  (k =? k') = false -> get (store v k x) k' = get v k'.
Proof.
  intros D. destruct v; simpl; auto; unfold own;
    now rewrite (assoc_set_other _ _ _ _ D).
Qed.

(** A property that reads as a truthy value sits in an object or an array,
    where a write to it takes effect. *)
Lemma get_store_same (v : value) (k : string) (x y : value) :
  get v k = Ok y -> truthy y = true -> get (store v k x) k = Ok x.
Proof.
  destruct v; simpl; intros G T; try discriminate;
    try (injection G as <-; discriminate T);
    unfold own; now rewrite assoc_set_same.
Qed.

Lemma set_ok (v v' : value) (k : string) (x : value) :
  set v k x = Ok v' -> v' = store v k x.
Proof. destruct v; simpl; intros H; try discriminate; now injection H. Qed.

Lemma truthy_store (v : value) (k : string) (x : value) :
  truthy (store v k x) = truthy v.
Proof. now destruct v. Qed.

Lemma set_truthy (v : value) (k : string) (x : value) :
  truthy v = true -> set v k x = Ok (store v k x).
Proof. now destruct v. Qed.

(** Case analysis on the first step of a computation that returned. *)
Ltac bind_ok H :=
  simpl in H;
  match type of H with
  | match ?c with Ok _ => _ | Err _ => _ end = Ok _ =>
      let E := fresh "E" in
      destruct c eqn:E; [ | discriminate H ]
  end.

Lemma setIfFalsy_keeps (v v' : value) (k0 k : string) (x y : value) :
  setIfFalsy v k0 x = Ok v' ->
  get v k = Ok y ->
  (k0 =? k) = false \/ truthy y = true ->
  get v' k = Ok y.
Proof.
  unfold setIfFalsy. intros H G C. bind_ok H.
  destruct (truthy a) eqn:T.
  - now injection H as <-.
  - apply set_ok in H. subst v'. destruct C as [D|Ty].
    + now rewrite (get_store_other _ _ _ _ D).
    + destruct (k0 =? k) eqn:D.
      * apply String.eqb_eq in D. subst k0. congruence.
      * now rewrite (get_store_other _ _ _ _ D).
Qed.

Lemma set_keeps (v v' : value) (k0 k : string) (x y : value) :
  set v k0 x = Ok v' ->
  get v k = Ok y ->
  (k0 =? k) = false ->
  get v' k = Ok y.
Proof.
  intros H G D. apply set_ok in H. subst v'.
  now rewrite (get_store_other _ _ _ _ D).
Qed.

Lemma setNested_keeps (v v' : value) (k1 k2 k : string) (x y : value) :
  setNested v k1 k2 x = Ok v' ->
  get v k = Ok y ->
  (k1 =? k) = false ->
  get v' k = Ok y.
Proof.
  unfold setNested. intros H G D. bind_ok H. bind_ok H.
  injection H as <-. now rewrite (get_store_other _ _ _ _ D).
Qed.

Lemma setNested_writes (v v' : value) (k1 k2 : string) (x y : value) :
  setNested v k1 k2 x = Ok v' ->
  get v k1 = Ok y ->
  truthy y = true ->
  get v' k1 = Ok (store y k2 x).
Proof.
  unfold setNested. intros H G T. rewrite G in H. simpl in H.
  rewrite (set_truthy _ k2 x T) in H. injection H as <-.
  exact (get_store_same _ _ _ _ G T).
Qed.

(** ** The defaults of a pipeline job leave other fields alone *)

Lemma annotationDefaults_keeps (pd pd' : value) (jd : jobDetails)
    (k : string) (y : value) :
  annotationDefaults pd jd = Ok pd' ->
  get pd k = Ok y ->
  ("annotationDescription" =? k) = false ->
  ("annotationType" =? k) = false \/ truthy y = true ->
  get pd' k = Ok y.
Proof.
  unfold annotationDefaults. intros H G D C.
  bind_ok H. bind_ok H. destruct a0.
  - bind_ok H. bind_ok H.
    pose proof (setIfFalsy_keeps _ _ _ _ _ _ E1 G C) as G1.
    destruct (truthy a1).
    + exact (set_keeps _ _ _ _ _ _ H G1 D).
    + now injection H as <-.
  - now injection H as <-.
Qed.

Lemma deploymentDefaults_keeps (pd pd' : value) (jd : jobDetails)
    (jid : value) (k : string) (y : value) :
  deploymentDefaults pd jd jid = Ok pd' ->
  get pd k = Ok y ->
  truthy y = true \/
  (("deploymentName" =? k) = false /\ ("deploymentVersion" =? k) = false
   /\ ("deploymentProject" =? k) = false) ->
  get pd' k = Ok y.
Proof.
  unfold deploymentDefaults. intros H G C.
  bind_ok H. bind_ok H. destruct a0.
  - bind_ok H. bind_ok H. bind_ok H.
    assert (G1 : get a1 k = Ok y)
      by (apply (setIfFalsy_keeps _ _ _ _ _ _ E2 G); tauto).
    assert (G2 : get a2 k = Ok y)
      by (apply (setIfFalsy_keeps _ _ _ _ _ _ E3 G1); tauto).
    apply (setIfFalsy_keeps _ _ _ _ _ _ H G2); tauto.
  - now injection H as <-.
Qed.

Lemma codedeployProperties_keeps (pd pd' : value) (jd : jobDetails)
    (k : string) (y : value) :
  codedeployProperties pd jd = Ok pd' ->
  get pd k = Ok y ->
  ("customProperties" =? k) = false ->
  get pd' k = Ok y.
Proof.
  unfold codedeployProperties. intros H G D.
  destruct (codedeploy jd) as [cd|].
  - bind_ok H. bind_ok H.
    pose proof (setNested_keeps _ _ _ _ _ _ _ E G D) as G1.
    pose proof (setNested_keeps _ _ _ _ _ _ _ E0 G1 D) as G2.
    exact (setNested_keeps _ _ _ _ _ _ _ H G2 D).
  - now injection H as <-.
Qed.


(** ** Normalization of an object returns *)

Lemma falsy_convertible (v : value) :
  truthy v = false -> convertible v = true.
Proof. destruct v as [| |[|]| | | |]; simpl; intros T; auto; discriminate. Qed.

Lemma loose_eq_str_convertible (v : value) (lit : string) :
  convertible v = true -> exists b, loose_eq_str v lit = Ok b.
Proof.
  unfold convertible, loose_eq_str. intros C.
  destruct v; try (eexists; reflexivity);
    destruct (ToString _); try discriminate; eexists; reflexivity.
Qed.

Lemma setIfFalsy_object (p : list (string * value)) (k : string) (x : value) :
  setIfFalsy (VObj p) k x
  = Ok (VObj (if truthy (own p k) then p else assoc_set k x p)).
Proof. unfold setIfFalsy. simpl. now destruct (truthy (own p k)). Qed.

Lemma setNested_object (p : list (string * value)) (k1 k2 : string)
    (x : value) :
  truthy (own p k1) = true ->
  setNested (VObj p) k1 k2 x
  = Ok (VObj (assoc_set k1 (store (own p k1) k2 x) p)).
Proof.
  intros T. unfold setNested. simpl. now rewrite (set_truthy _ k2 x T).
Qed.

Lemma own_assoc_set_same (p : list (string * value)) (k : string) (x : value) :
  own (assoc_set k x p) k = x.
Proof. unfold own. now rewrite assoc_set_same. Qed.

Lemma annotationDefaults_object (p : list (string * value)) (jd : jobDetails) :
  convertible (own p "eventType") = true ->
  exists p', annotationDefaults (VObj p) jd = Ok (VObj p').
Proof.
  intros C. unfold annotationDefaults. simpl.
  destruct (loose_eq_str_convertible _ "CUSTOM_ANNOTATION" C) as [b ->].
  destruct b; [ | eexists; reflexivity ].
  rewrite setIfFalsy_object. simpl.
  match goal with |- context [truthy (own ?q "userComment")] =>
    destruct (truthy (own q "userComment")) end; eexists; reflexivity.
Qed.

Lemma deploymentDefaults_object (p : list (string * value)) (jd : jobDetails)
    (jid : value) :
  convertible (own p "eventType") = true ->
  exists p', deploymentDefaults (VObj p) jd jid = Ok (VObj p').
Proof.
  intros C. unfold deploymentDefaults. simpl.
  destruct (loose_eq_str_convertible _ "CUSTOM_DEPLOYMENT" C) as [b ->].
  destruct b; [ | eexists; reflexivity ].
  rewrite setIfFalsy_object. simpl.
  rewrite setIfFalsy_object. simpl.
  rewrite setIfFalsy_object. eexists; reflexivity.
Qed.

Lemma codedeployProperties_object (p : list (string * value))
    (jd : jobDetails) :
  truthy (own p "customProperties") = true ->
  exists p', codedeployProperties (VObj p) jd = Ok (VObj p').
Proof.
  intros T. unfold codedeployProperties.
  destruct (codedeploy jd) as [cd|]; [ | eexists; reflexivity ].
  rewrite (setNested_object _ _ _ _ T). simpl.
  rewrite setNested_object
    by (rewrite own_assoc_set_same, truthy_store; exact T). simpl.
  rewrite setNested_object
    by (rewrite own_assoc_set_same, truthy_store, own_assoc_set_same,
          truthy_store; exact T).
  eexists; reflexivity.
Qed.

Lemma normalizeJob_returns (props : list (string * value)) (jd : jobDetails)
    (jid : value) :
  convertible (own props "eventType") = true ->
  exists props', normalizeJob (VObj props) jd jid = Ok (VObj props').
Proof.
  intros C. unfold normalizeJob.
  rewrite setIfFalsy_object. simpl.
  set (p1 := if truthy (own props "eventType") then props else _).
  assert (C1 : convertible (own p1 "eventType") = true).
  { subst p1. destruct (truthy (own props "eventType")); [exact C|].
    now rewrite own_assoc_set_same. }
  destruct (annotationDefaults_object p1 jd C1) as [p2 E2].
  rewrite E2. simpl.
  assert (C2 : convertible (own p2 "eventType") = true).
  { assert (G : get (VObj p2) "eventType" = Ok (own p1 "eventType"))
      by (apply (annotationDefaults_keeps _ _ _ _ _ E2); auto).
    simpl in G. injection G as ->. exact C1. }
  destruct (deploymentDefaults_object p2 jd jid C2) as [p3 E3].
  rewrite E3. simpl. rewrite setIfFalsy_object. simpl.
  set (p4 := if truthy (own p3 "customProperties") then p3 else _).
  assert (T4 : truthy (own p4 "customProperties") = true).
  { subst p4. destruct (truthy (own p3 "customProperties")) eqn:T; [exact T|].
    now rewrite own_assoc_set_same. }
  destruct (codedeployProperties_object p4 jd T4) as [p5 E5].
  rewrite E5. simpl. rewrite setIfFalsy_object. eexists; reflexivity.
Qed.

Lemma loose_eq_str_returns (v : value) (lit : string) (b : bool) :
  loose_eq_str v lit = Ok b -> convertible v = true.
Proof.
  unfold loose_eq_str, convertible. destruct v as [| |[|]| | | |]; auto;
    unfold bind, result_monad;
    match goal with |- context [ToString ?x] => destruct (ToString x) end;
    auto; discriminate.
Qed.

(** Normalization of an object returns in no other case. *)
Lemma normalizeJob_needs_convertible (props : list (string * value))
    (jd : jobDetails) (jid pd' : value) :
  normalizeJob (VObj props) jd jid = Ok pd' ->
  convertible (own props "eventType") = true.
Proof.
  unfold normalizeJob. intros H. bind_ok H. bind_ok H.
  rewrite setIfFalsy_object in E. injection E as <-.
  unfold annotationDefaults in E0. simpl in E0. bind_ok E0.
  apply loose_eq_str_returns in E.
  destruct (truthy (own props "eventType")) eqn:T; [exact E|].
  now apply falsy_convertible.
Qed.

(** ** What normalization does to single fields *)

Lemma codedeployProperties_writes (pd pd' : value) (jd : jobDetails)
    (cp : value) :
  codedeployProperties pd jd = Ok pd' ->
  get pd "customProperties" = Ok cp ->
  truthy cp = true ->
  get pd' "customProperties" = Ok (withCodedeploy jd cp).
Proof.
  unfold codedeployProperties, withCodedeploy. intros H G T.
  destruct (codedeploy jd) as [cd|].
  - bind_ok H. bind_ok H.
    pose proof (setNested_writes _ _ _ _ _ _ E G T) as G1.
    pose proof (setNested_writes _ _ _ _ _ _ E0 G1
                  (eq_trans (truthy_store _ _ _) T)) as G2.
    refine (setNested_writes _ _ _ _ _ _ H G2 _).
    now rewrite !truthy_store.
  - now injection H as <-.
Qed.

Lemma normalizeJob_customProperties (pd pd' : value) (jd : jobDetails)
    (jid cp : value) :
  normalizeJob pd jd jid = Ok pd' ->
  get pd "customProperties" = Ok cp ->
  truthy cp = true ->
  get pd' "customProperties" = Ok (withCodedeploy jd cp).
Proof.
  unfold normalizeJob. intros H G T.
  bind_ok H. bind_ok H. bind_ok H. bind_ok H. bind_ok H.
  pose proof (setIfFalsy_keeps _ _ _ _ _ _ E G (or_intror T)) as G1.
  pose proof (annotationDefaults_keeps _ _ _ _ _ E0 G1 eq_refl
                (or_intror T)) as G2.
  pose proof (deploymentDefaults_keeps _ _ _ _ _ _ E1 G2 (or_introl T)) as G3.
  pose proof (setIfFalsy_keeps _ _ _ _ _ _ E2 G3 (or_intror T)) as G4.
  pose proof (codedeployProperties_writes _ _ _ _ E3 G4 T) as G5.
  refine (setIfFalsy_keeps _ _ _ _ _ _ H G5 (or_introl eq_refl)).
Qed.

Lemma normalizeJob_eventType (props : list (string * value)) (pd' : value)
    (jd : jobDetails) (jid : value) :
  normalizeJob (VObj props) jd jid = Ok pd' ->
  get pd' "eventType" = Ok (eventTypeOf props jd).
Proof.
  unfold normalizeJob. intros H.
  bind_ok H. bind_ok H. bind_ok H. bind_ok H. bind_ok H.
  assert (G1 : get a "eventType" = Ok (eventTypeOf props jd)).
  { rewrite setIfFalsy_object in E. injection E as <-. unfold eventTypeOf.
    simpl. destruct (truthy (own props "eventType")); [reflexivity|].
    now rewrite own_assoc_set_same. }
  pose proof (annotationDefaults_keeps _ _ _ _ _ E0 G1 eq_refl
                (or_introl eq_refl)) as G2.
  assert (G3 : get a1 "eventType" = Ok (eventTypeOf props jd))
    by (apply (deploymentDefaults_keeps _ _ _ _ _ _ E1 G2); right; auto).
  pose proof (setIfFalsy_keeps _ _ _ _ _ _ E2 G3 (or_introl eq_refl)) as G4.
  pose proof (codedeployProperties_keeps _ _ _ _ _ E3 G4 eq_refl) as G5.
  exact (setIfFalsy_keeps _ _ _ _ _ _ H G5 (or_introl eq_refl)).
Qed.



Lemma deploymentDefaults_version (p : list (string * value)) (pd' : value)
    (jd : jobDetails) (jid : value) :
  deploymentDefaults (VObj p) jd jid = Ok pd' ->
  own p "eventType" = VStr "CUSTOM_DEPLOYMENT" ->
  truthy (own p "deploymentVersion") = false ->
  get pd' "deploymentVersion"
  = Ok (match codedeploy jd with
        | Some cd => VStr (deploymentId cd)
        | None => jid
        end).
Proof.
  unfold deploymentDefaults. intros H Ge T.
  simpl in H. rewrite Ge in H. simpl in H.
  rewrite setIfFalsy_object in H. simpl in H.
  rewrite setIfFalsy_object in H. simpl in H.
  match type of H with
  | context [truthy (own ?q "deploymentVersion")] =>
      assert (T1 : truthy (own q "deploymentVersion") = false)
  end.
  { destruct (truthy (own p "deploymentName")); [exact T|].
    unfold own. now rewrite assoc_set_other by reflexivity. }
  rewrite T1 in H.
  apply (setIfFalsy_keeps _ _ _ _ _ _ H); [ | left; reflexivity ].
  simpl. now rewrite own_assoc_set_same.
Qed.

(** ** User parameters *)

Lemma parseUserParameters_url (w : world) (params seg1 seg2 : string)
    (rest : list string) :
  String.prefix "{" params = false ->
  split "," params = seg1 :: seg2 :: rest ->
  String.prefix "http" seg2 = true ->
  parseUserParameters w (VStr params) = Ok (VObj [], VStr seg2).
Proof.
  intros J S U. unfold parseUserParameters. simpl.
  rewrite J, S. simpl. now rewrite U.
Qed.

(** ** Claims about normalization *)

(** C9.  User parameters [Production,Deployed successfully] and a job
    context without CodeDeploy details: the normalized record has event type
    CUSTOM_ANNOTATION, the comment as annotation description, and the
    pipeline name as annotation type. *)
Theorem scenario_production_comment (w : world) (name stg act : string)
    (jid : value) :
  exists pd pd',
    parseUserParameters w (VStr "Production,Deployed successfully")
    = Ok (pd, VNull) /\
    normalizeJob pd {| pipelineName := name; stage := stg; action := act;
                       codedeploy := None |} jid = Ok pd' /\
    get pd' "eventType" = Ok (VStr "CUSTOM_ANNOTATION") /\
    get pd' "annotationDescription" = Ok (VStr "Deployed successfully") /\
    get pd' "annotationType" = Ok (VStr name).
Proof. do 2 eexists. repeat split; reflexivity. Qed.

(** C7.  A pipeline job whose event type, given or defaulted, is
    CUSTOM_DEPLOYMENT and whose record sets no deployment version: the
    version becomes the CodeDeploy deployment id when the job context has
    CodeDeploy details, and the CodePipeline job id otherwise. *)
Theorem deploymentVersion_default (props : list (string * value))
    (jd : jobDetails) (jid : value) :
  eventTypeOf props jd = VStr "CUSTOM_DEPLOYMENT" ->
  truthy (own props "deploymentVersion") = false ->
  exists pd',
    normalizeJob (VObj props) jd jid = Ok pd' /\
    get pd' "deploymentVersion"
    = Ok (match codedeploy jd with
          | Some cd => VStr (deploymentId cd)
          | None => jid
          end).
Proof.
  intros Et T.
  assert (C : convertible (own props "eventType") = true).
  { unfold eventTypeOf in Et.
    destruct (truthy (own props "eventType")) eqn:Tt.
    - now rewrite Et.
    - now apply falsy_convertible. }
  destruct (normalizeJob_returns props jd jid C) as [props' R].
  exists (VObj props'). split; [exact R|].
  unfold normalizeJob in R.
  bind_ok R. bind_ok R. bind_ok R. bind_ok R. bind_ok R.
  rewrite setIfFalsy_object in E. injection E as <-.
  match type of E0 with annotationDefaults (VObj ?q) _ = _ =>
    assert (Ge : own q "eventType" = VStr "CUSTOM_DEPLOYMENT");
    [ | assert (Tq : truthy (own q "deploymentVersion") = false) ]
  end.
  { unfold eventTypeOf in Et.
    destruct (truthy (own props "eventType")); [exact Et|].
    rewrite own_assoc_set_same. exact Et. }
  { destruct (truthy (own props "eventType")); [exact T|].
    unfold own. now rewrite assoc_set_other by reflexivity. }
  unfold annotationDefaults in E0. simpl in E0. rewrite Ge in E0.
  simpl in E0. injection E0 as <-.
  pose proof (deploymentDefaults_version _ _ _ _ E1 Ge Tq) as G1.
  pose proof (setIfFalsy_keeps _ _ _ _ _ _ E2 G1 (or_introl eq_refl)) as G2.
  pose proof (codedeployProperties_keeps _ _ _ _ _ E3 G2 eq_refl) as G3.
  exact (setIfFalsy_keeps _ _ _ _ _ _ R G3 (or_introl eq_refl)).
Qed.

Lemma deploymentVersion_default_witness :
  eventTypeOf [("eventType", VStr "CUSTOM_DEPLOYMENT")] sampleDetails
  = VStr "CUSTOM_DEPLOYMENT"
  /\ truthy (own [("eventType", VStr "CUSTOM_DEPLOYMENT")]
               "deploymentVersion") = false
  /\ exists pd',
    normalizeJob (VObj [("eventType", VStr "CUSTOM_DEPLOYMENT")])
      sampleDetails (VStr "job-1") = Ok pd' /\
    get pd' "deploymentVersion" = Ok (VStr "job-1").
Proof.
  split; [reflexivity|]. split; [reflexivity|].
  exact (deploymentVersion_default
           [("eventType", VStr "CUSTOM_DEPLOYMENT")] sampleDetails
           (VStr "job-1") eq_refl eq_refl).
Defined.

(** C4, where the code departs from it.  A comma-separated parameter
    string whose second segment starts with [http]: the second segment is
    kept as the monspec location and no user comment is recorded, but the
    record is started afresh on line 73, so the environment name that line
    70 took from the first segment is gone. *)
Theorem url_parameters_drop_environmentName (w : world)
    (params seg1 seg2 : string) (rest : list string) :
  String.prefix "{" params = false ->
  split "," params = seg1 :: seg2 :: rest ->
  String.prefix "http" seg2 = true ->
  exists pd,
    parseUserParameters w (VStr params) = Ok (pd, VStr seg2) /\
    get pd "userComment" = Ok VUndefined /\
    get pd "environmentName" = Ok VUndefined.
Proof.
  intros J S U. exists (VObj []). split.
  - exact (parseUserParameters_url w params seg1 seg2 rest J S U).
  - split; reflexivity.
Qed.

Lemma url_parameters_drop_environmentName_witness :
  String.prefix "{" "Production,http://example.com/monspec.json" = false
  /\ split "," "Production,http://example.com/monspec.json"
     = ["Production"; "http://example.com/monspec.json"]
  /\ String.prefix "http" "http://example.com/monspec.json" = true
  /\ exists pd,
       parseUserParameters sampleWorld
         (VStr "Production,http://example.com/monspec.json")
       = Ok (pd, VStr "http://example.com/monspec.json") /\
       get pd "userComment" = Ok VUndefined /\
       get pd "environmentName" = Ok VUndefined.
Proof.
  repeat (split; [reflexivity|]).
  exact (url_parameters_drop_environmentName sampleWorld
           "Production,http://example.com/monspec.json"
           "Production" "http://example.com/monspec.json" []
           eq_refl eq_refl eq_refl).
Defined.

(** ** The mandatory fields *)

Lemma globalConfiguration_get (w : world) (pd r : value) (k : string) :
  globalConfiguration w pd = Ok r -> get r k = Ok (field r k).
Proof.
  unfold globalConfiguration, field. intros H.
  bind_ok H. bind_ok H. bind_ok H. apply set_ok in H. subst r.
  apply set_ok in E0. subst a0.
  destruct pd; simpl in *; try discriminate; reflexivity.
Qed.

Lemma loose_eq_str_exclusive (v : value) :
  loose_eq_str v "CUSTOM_ANNOTATION" = Ok true ->
  loose_eq_str v "CUSTOM_DEPLOYMENT" = Ok false.
Proof.
  unfold loose_eq_str. destruct v; try discriminate.
  - intros H. injection H as H. apply String.eqb_eq in H. now subst s.
  - unfold bind, result_monad.
    destruct (ToString (VArr elems named)); [ | discriminate ].
    intros H. injection H as H. apply String.eqb_eq in H. now subst a.
  - unfold bind, result_monad.
    destruct (ToString (VObj props)); [ | discriminate ].
    intros H. injection H as H. apply String.eqb_eq in H. now subst a.
Qed.

Lemma postToApi_missing (w : world) (pd r jid : value) (ctx : ctxarg)
    (s : locals) (k : string) :
  globalConfiguration w pd = Ok r ->
  firstMissing r = Ok (Some k) ->
  postToApi w pd jid ctx s
  = (announce pd ;;; reportError [PLit (k ++ " missing")] jid CtxUndefined) s.
Proof.
  intros Hc Hm. unfold postToApi, announce. simpl. rewrite Hc. simpl.
  rewrite !(globalConfiguration_get w pd r _ Hc). simpl.
  unfold firstMissing, unconditional, find, missing in Hm.
  destruct (truthy (field r "dtApiToken")); simpl in *;
    [ | injection Hm as <-; unfold reportError; simpl; destruct (truthy jid); reflexivity ].
  destruct (truthy (field r "dtTenantURL")); simpl in *;
    [ | injection Hm as <-; unfold reportError; simpl; destruct (truthy jid); reflexivity ].
  destruct (truthy (field r "attachRules")); simpl in *;
    [ | injection Hm as <-; unfold reportError; simpl; destruct (truthy jid); reflexivity ].
  destruct (truthy (field r "eventType")); simpl in *;
    [ | injection Hm as <-; unfold reportError; simpl; destruct (truthy jid); reflexivity ].
  unfold conditional in Hm. simpl in Hm.
  destruct (loose_eq_str (field r "eventType") "CUSTOM_ANNOTATION")
    as [a|] eqn:Ea; [ | discriminate ].
  destruct (loose_eq_str (field r "eventType") "CUSTOM_DEPLOYMENT")
    as [d|] eqn:Ed; [ | discriminate ].
  simpl. destruct a.
  - rewrite (loose_eq_str_exclusive _ Ea) in Ed. injection Ed as <-.
    simpl in Hm. simpl.
    destruct (truthy (field r "annotationType")); simpl in *;
      [ discriminate | ].
    injection Hm as <-. unfold reportError; simpl; destruct (truthy jid); reflexivity.
  - simpl. destruct d; simpl in Hm; [ | discriminate ].
    destruct (truthy (field r "deploymentName")); simpl in *;
      [ discriminate | ].
    injection Hm as <-. unfold reportError; simpl; destruct (truthy jid); reflexivity.
Qed.

(** And a record that misses none of them goes on to be posted. *)
Lemma postToApi_passes (w : world) (pd r jid : value) (ctx : ctxarg)
    (s : locals) :
  globalConfiguration w pd = Ok r ->
  firstMissing r = Ok None ->
  postToApi w pd jid ctx s = (announce pd ;;; submit w r jid ctx) s.
Proof.
  intros Hc Hm. unfold postToApi, announce.
  cbn -[submit globalConfiguration]. rewrite Hc. cbn -[submit globalConfiguration].
  rewrite !(globalConfiguration_get w pd r _ Hc). cbn -[submit globalConfiguration].
  unfold firstMissing, unconditional, find, missing in Hm.
  destruct (truthy (field r "dtApiToken")); simpl in Hm; [ | discriminate ].
  destruct (truthy (field r "dtTenantURL")); simpl in Hm; [ | discriminate ].
  destruct (truthy (field r "attachRules")); simpl in Hm; [ | discriminate ].
  destruct (truthy (field r "eventType")); simpl in Hm; [ | discriminate ].
  unfold conditional in Hm. simpl in Hm.
  destruct (loose_eq_str (field r "eventType") "CUSTOM_ANNOTATION")
    as [a|] eqn:Ea; [ | discriminate ].
  destruct (loose_eq_str (field r "eventType") "CUSTOM_DEPLOYMENT")
    as [d|] eqn:Ed; [ | discriminate ].
  cbn -[submit globalConfiguration].
  destruct a, d; simpl in Hm; cbn -[submit globalConfiguration];
    repeat match type of Hm with
           | context [truthy ?v] => destruct (truthy v); simpl in Hm
           end;
    try discriminate; cbn -[submit globalConfiguration];
    destruct (submit w r jid ctx s) as [[tr s'] c]; reflexivity.
Qed.

Lemma no_post_after_report (pd jid : value) (msg : text) (s : locals)
    (url : string) (tok ev : value) :
  ~ In (DtApiPost url tok ev)
       (trace ((announce pd ;;; reportError msg jid CtxUndefined) s)).
Proof.
  unfold announce, reportError. simpl.
  destruct (truthy jid); simpl; intuition discriminate.
Qed.

(** ** What becomes of a missing field *)

(** When neither the record nor the environment has a token, the token is
    missing after lines 174-175 too. *)
Lemma globalConfiguration_missing_token (w : world) (pd r : value) :
  globalConfiguration w pd = Ok r ->
  missing pd "dtApiToken" = true ->
  truthy (getDtApiToken w) = false ->
  missing r "dtApiToken" = true.
Proof.
  unfold globalConfiguration, missing, field. intros H Mp Ne.
  bind_ok H. bind_ok H. bind_ok H. apply set_ok in H, E0. subst.
  rewrite get_store_other by reflexivity.
  apply negb_true_iff in Mp. rewrite Mp.
  apply negb_true_iff.
  destruct pd; simpl in *; try discriminate; try reflexivity;
    unfold own; now rewrite assoc_set_same.
Qed.

(** The TypeError of line 22 is thrown inside the [try] of the handler when
    the call is a direct one: the [catch] of line 159 reports that TypeError
    through [context.fail], and the message that names the missing field
    appears nowhere. *)
Lemma direct_call_reports_TypeError (w : world) (event body r : value)
    (s : locals) (k : string) :
  dtApiInit w = None ->
  classify event = Ok (DirectCall body) ->
  globalConfiguration w body = Ok r ->
  firstMissing r = Ok (Some k) ->
  trace (handler w event s)
  = [Log [PLit ("Event Data" ++ nl)]; Log [PJson event];
     Log [PLit ("Context Object" ++ nl)]; Log [PContext];
     Log [PLit ("Posted Data" ++ nl)]; Log [PJson body];
     Log [PLit "ERROR LOG: "; PErr fail_of_undefined];
     ContextFail [PErr fail_of_undefined];
     Log [PLit "Error: "; PErr fail_of_undefined]]
  /\ outcome (handler w event s) = Normal tt.
Proof.
  intros I D C F.
  unfold handler, trace, outcome, async, try_catch. rewrite I.
  cbn -[postToApi classify]. rewrite D. cbn -[postToApi].
  rewrite (postToApi_missing w _ r VNull CtxGiven _ k C F).
  split; reflexivity.
Qed.

(** ** Claims about validation *)

(** C1, where the code departs from it.  After the token and the tenant URL
    of the environment have been filled in, [postToApi] looks for a missing
    (falsy) field in the order dtApiToken, dtTenantURL, attachRules,
    eventType, then annotationType for CUSTOM_ANNOTATION or deploymentName
    for CUSTOM_DEPLOYMENT, stops at the first one, and never calls the
    Dynatrace API.  The error that names this field ought to be reported to
    the caller.  It is when the CodePipeline job id is set: the run is the
    two log lines, one job failure with the message of the first missing
    field, and the log line of [reportError].  It is not when the job id is
    not set, as in every direct call: [reportError] was given no context,
    line 22 throws a TypeError before anything is reported, and what the
    direct caller gets through [context.fail] is that TypeError.  A record
    that lacks both dtApiToken and attachRules after lines 174-175 gets the
    dtApiToken message; so does a submitted record that lacks dtApiToken
    when the environment has no token either. *)
Theorem validation_order (w : world) (pd r jid : value) (ctx : ctxarg)
    (s : locals) (k : string) :
  globalConfiguration w pd = Ok r ->
  firstMissing r = Ok (Some k) ->
  postToApi w pd jid ctx s
  = (if truthy jid
     then ([Log [PLit ("Posted Data" ++ nl)]; Log [PJson pd];
            PutJobFailure [PLit (k ++ " missing")] jid CtxUndefined;
            Log [PLit "Error: "; PLit (k ++ " missing")]],
           s, Normal tt)
     else ([Log [PLit ("Posted Data" ++ nl)]; Log [PJson pd]],
           s, Throw fail_of_undefined))
  /\ (forall url tok ev,
        ~ In (DtApiPost url tok ev) (trace (postToApi w pd jid ctx s)))
  /\ (forall event s0,
        dtApiInit w = None ->
        classify event = Ok (DirectCall pd) ->
        filter isFailureReport (trace (handler w event s0))
        = [ContextFail [PErr fail_of_undefined]])
  /\ (missing r "dtApiToken" = true -> missing r "attachRules" = true ->
      k = "dtApiToken")
  /\ (missing pd "dtApiToken" = true -> truthy (getDtApiToken w) = false ->
      k = "dtApiToken").
Proof.
  intros Hc Hm. pose proof (postToApi_missing w pd r jid ctx s k Hc Hm) as E.
  assert (First : missing r "dtApiToken" = true -> k = "dtApiToken").
  { intros Mt. unfold firstMissing, unconditional, find in Hm.
    rewrite Mt in Hm. now injection Hm as <-. }
  split; [ | split; [ | split; [ | split ] ] ].
  - rewrite E. unfold announce, reportError. simpl.
    destruct (truthy jid); reflexivity.
  - intros url tok ev. rewrite E. apply no_post_after_report.
  - intros event s0 I D.
    destruct (direct_call_reports_TypeError w event pd r s0 k I D Hc Hm)
      as [-> _].
    reflexivity.
  - intros Mt _. exact (First Mt).
  - intros Mp Ne.
    exact (First (globalConfiguration_missing_token w pd r Hc Mp Ne)).
Qed.

Lemma validation_order_witness :
  globalConfiguration sampleWorld bareAnnotation
  = Ok (VObj [("eventType", VStr "CUSTOM_ANNOTATION");
              ("dtApiToken", VStr "token");
              ("dtTenantURL", VStr "https://tenant.example.com")])
  /\ firstMissing (VObj [("eventType", VStr "CUSTOM_ANNOTATION");
                         ("dtApiToken", VStr "token");
                         ("dtTenantURL", VStr "https://tenant.example.com")])
     = Ok (Some "attachRules")
  /\ (postToApi sampleWorld bareAnnotation VNull CtxGiven start
      = ([Log [PLit ("Posted Data" ++ nl)]; Log [PJson bareAnnotation]],
         start, Throw fail_of_undefined)
      /\ (forall url tok ev,
            ~ In (DtApiPost url tok ev)
                 (trace (postToApi sampleWorld bareAnnotation VNull CtxGiven
                           start)))
      /\ (forall event s0,
            dtApiInit sampleWorld = None ->
            classify event = Ok (DirectCall bareAnnotation) ->
            filter isFailureReport (trace (handler sampleWorld event s0))
            = [ContextFail [PErr fail_of_undefined]])
      /\ (missing (VObj [("eventType", VStr "CUSTOM_ANNOTATION");
                         ("dtApiToken", VStr "token");
                         ("dtTenantURL", VStr "https://tenant.example.com")])
            "dtApiToken" = true ->
          missing (VObj [("eventType", VStr "CUSTOM_ANNOTATION");
                         ("dtApiToken", VStr "token");
                         ("dtTenantURL", VStr "https://tenant.example.com")])
            "attachRules" = true ->
          "attachRules" = "dtApiToken")
      /\ (missing bareAnnotation "dtApiToken" = true ->
          truthy (getDtApiToken sampleWorld) = false ->
          "attachRules" = "dtApiToken")).
Proof.
  split; [reflexivity|]. split; [reflexivity|].
  exact (validation_order sampleWorld bareAnnotation _ VNull CtxGiven start
           "attachRules" eq_refl eq_refl).
Defined.

(** ** What a direct caller sees of a validation failure *)

(** C10.  Each validation failure of [postToApi] calls [reportError]
    without the context argument, whatever context [postToApi] itself was
    given.  When the invocation does not come from CodePipeline (the job id
    is null, or otherwise falsy), [reportError] goes for [context.fail] on
    an undefined context: a TypeError is thrown and [context.fail] is not
    called.  In a direct call the only thing that ever reaches
    [context.fail] is that TypeError, passed on by the [catch] of the
    handler. *)
Theorem validation_failure_without_context (w : world) (pd r jid : value)
    (ctx : ctxarg) (s : locals) (k : string) :
  globalConfiguration w pd = Ok r ->
  firstMissing r = Ok (Some k) ->
  postToApi w pd jid ctx s
  = (announce pd ;;; reportError [PLit (k ++ " missing")] jid CtxUndefined) s
  /\ (truthy jid = false ->
      outcome (postToApi w pd jid ctx s) = Throw fail_of_undefined
      /\ forall m, ~ In (ContextFail m) (trace (postToApi w pd jid ctx s)))
  /\ (forall event s0 m,
        dtApiInit w = None ->
        classify event = Ok (DirectCall pd) ->
        In (ContextFail m) (trace (handler w event s0)) ->
        m = [PErr fail_of_undefined]).
Proof.
  intros Hc Hm. pose proof (postToApi_missing w pd r jid ctx s k Hc Hm) as E.
  split; [exact E|]. split.
  - intros F. rewrite E.
    unfold announce, reportError. simpl. rewrite F. simpl. split.
    + reflexivity.
    + intros m. intuition discriminate.
  - intros event s0 m I D.
    destruct (direct_call_reports_TypeError w event pd r s0 k I D Hc Hm)
      as [-> _].
    simpl. intros [H|[H|[H|[H|[H|[H|[H|[H|[H|[]]]]]]]]]];
      try discriminate H.
    now injection H as <-.
Qed.

Lemma validation_failure_without_context_witness :
  globalConfiguration sampleWorld bareAnnotation
  = Ok (VObj [("eventType", VStr "CUSTOM_ANNOTATION");
              ("dtApiToken", VStr "token");
              ("dtTenantURL", VStr "https://tenant.example.com")])
  /\ firstMissing (VObj [("eventType", VStr "CUSTOM_ANNOTATION");
                         ("dtApiToken", VStr "token");
                         ("dtTenantURL", VStr "https://tenant.example.com")])
     = Ok (Some "attachRules")
  /\ (postToApi sampleWorld bareAnnotation VNull CtxGiven start
      = (announce bareAnnotation ;;;
         reportError [PLit ("attachRules" ++ " missing")] VNull
           CtxUndefined) start
      /\ (truthy VNull = false ->
          outcome (postToApi sampleWorld bareAnnotation VNull CtxGiven start)
          = Throw fail_of_undefined
          /\ forall m,
               ~ In (ContextFail m)
                    (trace (postToApi sampleWorld bareAnnotation VNull
                              CtxGiven start)))
      /\ (forall event s0 m,
            dtApiInit sampleWorld = None ->
            classify event = Ok (DirectCall bareAnnotation) ->
            In (ContextFail m) (trace (handler sampleWorld event s0)) ->
            m = [PErr fail_of_undefined])).
Proof.
  split; [reflexivity|]. split; [reflexivity|].
  exact (validation_failure_without_context sampleWorld bareAnnotation _
           VNull CtxGiven start "attachRules" eq_refl eq_refl).
Defined.

(** ** Claims about supplied fields *)

Lemma withCodedeploy_other (jd : jobDetails) (cp : value) (k : string) :
  forallb (fun k0 => negb (k0 =? k)) codedeployKeys = true ->
  get (withCodedeploy jd cp) k = get cp k.
Proof.
  unfold withCodedeploy. simpl. intros D.
  repeat (apply andb_prop in D; destruct D as [?D D]).
  destruct (codedeploy jd); [ | reflexivity ].
  rewrite !get_store_other; auto using negb_true_iff;
    now apply negb_true_iff.
Qed.

Lemma withCodedeploy_keys (jd : jobDetails) (cd : codedeployDetails)
    (m : list (string * value)) :
  codedeploy jd = Some cd ->
  get (withCodedeploy jd (VObj m)) "CodeDeploy.DeploymentGroup"
  = Ok (VStr (deploymentGroup cd))
  /\ get (withCodedeploy jd (VObj m)) "CodeDeploy.Application"
     = Ok (VStr (application cd))
  /\ get (withCodedeploy jd (VObj m)) "CodeDeploy.DeploymentId"
     = Ok (VStr (deploymentId cd)).
Proof.
  intros E. unfold withCodedeploy. rewrite E. simpl. unfold own.
  repeat split.
  - rewrite !assoc_set_other by reflexivity. now rewrite assoc_set_same.
  - rewrite assoc_set_other by reflexivity. now rewrite assoc_set_same.
  - now rewrite assoc_set_same.
Qed.

(** C3, as the code has it.  When the caller supplied custom properties,
    normalization never puts the pipeline name, stage and action into them.
    Without CodeDeploy details in the job context they stay as they are;
    with CodeDeploy details the three CodeDeploy keys are written into the
    caller's mapping, and every other entry stays as it is. *)
Theorem customProperties_supplied (props : list (string * value))
    (jd : jobDetails) (jid : value) :
  truthy (own props "customProperties") = true ->
  convertible (own props "eventType") = true ->
  exists pd' cp',
    normalizeJob (VObj props) jd jid = Ok pd' /\
    get pd' "customProperties" = Ok cp' /\
    (codedeploy jd = None -> cp' = own props "customProperties") /\
    (forall k, forallb (fun k0 => negb (k0 =? k)) codedeployKeys = true ->
               get cp' k = get (own props "customProperties") k) /\
    (forall cd m, codedeploy jd = Some cd ->
                  own props "customProperties" = VObj m ->
                  get cp' "CodeDeploy.DeploymentGroup"
                  = Ok (VStr (deploymentGroup cd))
                  /\ get cp' "CodeDeploy.Application"
                     = Ok (VStr (application cd))
                  /\ get cp' "CodeDeploy.DeploymentId"
                     = Ok (VStr (deploymentId cd))).
Proof.
  intros T C. destruct (normalizeJob_returns props jd jid C) as [props' R].
  exists (VObj props'), (withCodedeploy jd (own props "customProperties")).
  split; [exact R|]. split.
  - exact (normalizeJob_customProperties _ _ _ _ _ R eq_refl T).
  - split; [ | split ].
    + intros N. unfold withCodedeploy. now rewrite N.
    + intros k D. now apply withCodedeploy_other.
    + intros cd m E ->. now apply withCodedeploy_keys.
Qed.

Lemma customProperties_supplied_witness :
  truthy (own taggedRecord "customProperties") = true
  /\ convertible (own taggedRecord "eventType") = true
  /\ exists pd' cp',
       normalizeJob (VObj taggedRecord) sampleDeployment (VStr "job-1")
       = Ok pd' /\
       get pd' "customProperties" = Ok cp' /\
       (codedeploy sampleDeployment = None ->
        cp' = own taggedRecord "customProperties") /\
       (forall k, forallb (fun k0 => negb (k0 =? k)) codedeployKeys = true ->
                  get cp' k = get (own taggedRecord "customProperties") k) /\
       (forall cd m, codedeploy sampleDeployment = Some cd ->
                     own taggedRecord "customProperties" = VObj m ->
                     get cp' "CodeDeploy.DeploymentGroup"
                     = Ok (VStr (deploymentGroup cd))
                     /\ get cp' "CodeDeploy.Application"
                        = Ok (VStr (application cd))
                     /\ get cp' "CodeDeploy.DeploymentId"
                        = Ok (VStr (deploymentId cd))).
Proof.
  split; [reflexivity|]. split; [reflexivity|].
  exact (customProperties_supplied taggedRecord sampleDeployment
           (VStr "job-1") eq_refl eq_refl).
Defined.

(** C3 as stated fails: with CodeDeploy details in the job context, the
    custom properties that the caller supplied come out with three more
    keys. *)
Lemma customProperties_supplied_changed :
  own taggedRecord "customProperties" = VObj [("team", VStr "payments")]
  /\ exists pd',
       normalizeJob (VObj taggedRecord) sampleDeployment (VStr "job-1")
       = Ok pd' /\
       get pd' "customProperties"
       = Ok (VObj [("team", VStr "payments");
                   ("CodeDeploy.DeploymentGroup", VStr "Production");
                   ("CodeDeploy.Application", VStr "HelloWorld");
                   ("CodeDeploy.DeploymentId", VStr "d-96V3B7QKP")]) /\
       get pd' "customProperties"
       <> Ok (own taggedRecord "customProperties").
Proof.
  split; [reflexivity|]. eexists. split; [reflexivity|].
  split; [reflexivity | discriminate].
Qed.





(** ** The answer of the Dynatrace API *)

Lemma onPosted_success (w : world) (pd jid : value) (ctx : ctxarg)
    (response : string) (s : locals) :
  onPosted w pd jid ctx 200 response s
  = reportSuccess [PLit "Successfully sent event to Dynatrace"] jid ctx s.
Proof. reflexivity. Qed.

Lemma ret_bind_M {A B : Type} (a : A) (k : A -> M B) (s : locals) :
  (x <- ret a ;; k x) s = k a s.
Proof. simpl. now destruct (k a s) as [[tr s'] r]. Qed.

Lemma lift_bind_M {A B : Type} (a : A) (k : A -> M B) (s : locals) :
  (x <- lift (Ok a) ;; k x) s = k a s.
Proof. simpl. now destruct (k a s) as [[tr s'] r]. Qed.

Lemma onPosted_other_status (w : world) (pd jid : value) (ctx : ctxarg)
    (statuscode : Z) (response : string) (s : locals) :
  statuscode <> 200%Z -> statuscode <> 400%Z ->
  onPosted w pd jid ctx statuscode response s
  = reportError [PLit ("Failed to send event to Dynatrace: " ++ response)]
      jid ctx s.
Proof.
  intros N2 N4. unfold onPosted.
  apply Z.eqb_neq in N2. apply Z.eqb_neq in N4. rewrite N2, N4.
  now rewrite ret_bind_M.
Qed.

Lemma onPosted_plain_body (w : world) (pd jid : value) (ctx : ctxarg)
    (response : string) (s : locals) :
  String.prefix "{" response = false ->
  onPosted w pd jid ctx 400 response s
  = reportError [PLit ("Failed to send event to Dynatrace: " ++ response)]
      jid ctx s.
Proof.
  intros P. unfold onPosted, noMatchingEntities. rewrite P.
  change (400 =? 200)%Z with false. change (400 =? 400)%Z with true.
  cbv iota. now rewrite lift_bind_M.
Qed.

Lemma onPosted_no_matching_entities (w : world) (pd jid : value)
    (ctx : ctxarg) (response message : string)
    (responseObject error attachRules : value) (s : locals) :
  String.prefix "{" response = true ->
  JSON_parse w response = Ok responseObject ->
  get responseObject "error" = Ok error ->
  truthy error = true ->
  get error "message" = Ok (VStr message) ->
  contains "No MEIdentifier do match" message = true ->
  get pd "attachRules" = Ok attachRules ->
  onPosted w pd jid ctx 400 response s
  = reportError (noMatchText attachRules) jid ctx s.
Proof.
  intros P J E T G C A. unfold onPosted, noMatchingEntities.
  rewrite P, J. cbn [bind result_monad]. rewrite E. cbn [bind result_monad].
  rewrite T, G. cbn [bind result_monad includes]. rewrite C.
  change (400 =? 200)%Z with false. change (400 =? 400)%Z with true.
  cbv iota. rewrite lift_bind_M. cbv iota. rewrite A.
  now rewrite lift_bind_M.
Qed.

(** ** Claim about the classification of the answer *)

(** C2, where the code departs from it.  A 400 answer whose body starts
    with a brace but is not JSON ought to end in the generic failure that
    carries the body.  Instead [JSON.parse] throws inside the callback,
    nothing catches it, and the callback reports neither success nor
    failure. *)
Theorem unparsable_body_not_reported (w : world) (pd jid : value)
    (ctx : ctxarg) (response : string) (e : jserror) (s : locals) :
  String.prefix "{" response = true ->
  JSON_parse w response = Err e ->
  async (onPosted w pd jid ctx 400 response) s = ([], s, Escaped e).
Proof.
  intros P J. unfold async, onPosted, noMatchingEntities.
  rewrite P, J. reflexivity.
Qed.

Lemma unparsable_body_not_reported_witness :
  String.prefix "{" "{" = true
  /\ JSON_parse sampleWorld "{"
     = Err (SyntaxError "Unexpected end of JSON input")
  /\ async (onPosted sampleWorld bareAnnotation (VStr "job-1") CtxGiven
              400 "{") start
     = ([], start, Escaped (SyntaxError "Unexpected end of JSON input")).
Proof.
  split; [reflexivity|]. split; [reflexivity|].
  exact (unparsable_body_not_reported sampleWorld bareAnnotation
           (VStr "job-1") CtxGiven "{" _ start eq_refl eq_refl).
Defined.

(** ** A logic for runs *)

Lemma sat_ret {A : Type} (a : A) (s : locals)
    (Q : list effect -> locals -> completion A -> Prop) :
  Q [] s (Normal a) -> sat (ret a) s Q.
Proof. exact (fun H => H). Qed.

Lemma sat_emit (a : effect) (s : locals)
    (Q : list effect -> locals -> completion unit -> Prop) :
  Q [a] s (Normal tt) -> sat (emit a) s Q.
Proof. exact (fun H => H). Qed.

Lemma sat_throw {A : Type} (e : jserror) (s : locals)
    (Q : list effect -> locals -> completion A -> Prop) :
  Q [] s (Throw e) -> sat (throw e) s Q.
Proof. exact (fun H => H). Qed.

Lemma sat_lift {A : Type} (r : result A) (s : locals)
    (Q : list effect -> locals -> completion A -> Prop) :
  (forall a, r = Ok a -> Q [] s (Normal a)) ->
  (forall e, r = Err e -> Q [] s (Throw e)) ->
  sat (lift r) s Q.
Proof. unfold sat, lift. destruct r; auto. Qed.

Lemma sat_bind {A B : Type} (c : M A) (k : A -> M B) (s : locals)
    (Q : list effect -> locals -> completion B -> Prop) :
  sat c s (fun tr s' r =>
             match r with
             | Normal a =>
                 sat (k a) s' (fun tr' s'' r' => Q (tr ++ tr')%list s'' r')
             | Throw e => Q tr s' (Throw e)
             | Escaped e => Q tr s' (Escaped e)
             end) ->
  sat (bind c k) s Q.
Proof.
  unfold sat. simpl. destruct (c s) as [[tr s'] [a|e|e]]; auto.
  destruct (k a s') as [[tr' s''] r']. auto.
Qed.

Lemma sat_async {A : Type} (m : M A) (s : locals)
    (Q : list effect -> locals -> completion A -> Prop) :
  sat m s (fun tr s' r =>
             Q tr s' (match r with Throw e => Escaped e | _ => r end)) ->
  sat (async m) s Q.
Proof. unfold sat, async. destruct (m s) as [[tr s'] [a|e|e]]; auto. Qed.

Lemma sat_try_catch {A : Type} (body : M A) (h : jserror -> M A)
    (s : locals) (Q : list effect -> locals -> completion A -> Prop) :
  sat body s (fun tr s' r =>
                match r with
                | Throw e =>
                    sat (h e) s'
                      (fun tr' s'' r' => Q (tr ++ tr')%list s'' r')
                | _ => Q tr s' r
                end) ->
  sat (try_catch body h) s Q.
Proof.
  unfold sat, try_catch. destruct (body s) as [[tr s'] [a|e|e]]; auto.
  destruct (h e s') as [[tr' s''] r']. auto.
Qed.

Lemma sat_read_postedData (s : locals)
    (Q : list effect -> locals -> completion value -> Prop) :
  Q [] s (Normal (postedData s)) -> sat read_postedData s Q.
Proof. exact (fun H => H). Qed.

Lemma sat_read_codePipelineJobId (s : locals)
    (Q : list effect -> locals -> completion value -> Prop) :
  Q [] s (Normal (codePipelineJobId s)) -> sat read_codePipelineJobId s Q.
Proof. exact (fun H => H). Qed.

Lemma sat_write_postedData (v : value) (s : locals)
    (Q : list effect -> locals -> completion unit -> Prop) :
  Q [] {| codePipelineJobId := codePipelineJobId s; postedData := v |}
    (Normal tt) ->
  sat (write_postedData v) s Q.
Proof. exact (fun H => H). Qed.

Lemma sat_write_codePipelineJobId (v : value) (s : locals)
    (Q : list effect -> locals -> completion unit -> Prop) :
  Q [] {| codePipelineJobId := v; postedData := postedData s |}
    (Normal tt) ->
  sat (write_codePipelineJobId v) s Q.
Proof. exact (fun H => H). Qed.

Lemma sat_consequence {A : Type} (m : M A) (s : locals)
    (Q Q' : list effect -> locals -> completion A -> Prop) :
  sat m s Q -> (forall tr s' r, Q tr s' r -> Q' tr s' r) -> sat m s Q'.
Proof. unfold sat. destruct (m s) as [[tr s'] r]. auto. Qed.

Lemma sat_run {A : Type} (m : M A) (s : locals)
    (Q : list effect -> locals -> completion A -> Prop) :
  sat m s Q -> Q (trace (m s)) (snd (fst (m s))) (outcome (m s)).
Proof. unfold sat, trace, outcome. now destruct (m s) as [[tr s'] r]. Qed.

(** Follow the program text, one rule per construct, keeping what each test
    and each lookup found. *)
Ltac walk :=
  repeat first
    [ apply sat_bind
    | apply sat_emit
    | apply sat_ret
    | apply sat_throw
    | apply sat_async
    | apply sat_try_catch
    | apply sat_read_postedData
    | apply sat_read_codePipelineJobId
    | apply sat_write_postedData
    | apply sat_write_codePipelineJobId
    | apply sat_lift; [ intros ? ? | intros ? ? ]
    | match goal with
      | |- sat (if ?b then _ else _) _ _ => destruct b eqn:?
      | |- sat (match ?x with (_, _) => _ end) _ _ => destruct x eqn:?
      | |- sat (match ?x with Some _ => _ | None => _ end) _ _ =>
          destruct x eqn:?
      | |- sat (match ?x with CtxGiven => _ | CtxUndefined => _ end) _ _ =>
          destruct x
      | |- sat (match ?x with PipelineJob _ => _ | _ => _ end) _ _ =>
          destruct x
      end
    | progress cbv beta iota ].

(** Use what is known of a procedure at its call. *)
Ltac call L :=
  eapply sat_consequence;
  [ apply L; try assumption | cbv beta; intros ? ? ? ? ].

Lemma onPosted_quiet (w : world) (pd jid : value) (ctx : ctxarg)
    (statuscode : Z) (response : string) (s : locals) :
  sat (onPosted w pd jid ctx statuscode response) s
    (fun tr _ _ => forallb quiet tr = true).
Proof. unfold onPosted, reportSuccess, reportError. walk; reflexivity. Qed.

Lemma quiet_attached (pd : value) (tr : list effect) :
  forallb quiet tr = true -> Forall (attached pd) tr.
Proof.
  intros H. apply Forall_forall. intros a I.
  rewrite forallb_forall in H. specialize (H a I). now destruct a.
Qed.

Lemma quiet_no_lookup (tr : list effect) :
  forallb quiet tr = true -> existsb isLookup tr = false.
Proof.
  induction tr as [|a tr IH]; simpl; auto. intros H.
  apply andb_prop in H. destruct H as [Ha Ht]. rewrite (IH Ht).
  destruct a; auto; discriminate.
Qed.

Lemma no_lookup_no_failure (w : world) (tr : list effect) :
  existsb isLookup tr = false -> existsb (failedLookup w) tr = false.
Proof.
  induction tr as [|a tr IH]; simpl; auto. intros H.
  apply orb_false_iff in H. destruct H as [Ha Ht].
  rewrite (IH Ht). destruct a; auto; discriminate.
Qed.

Lemma get_truthy (v : value) (k : string) (e : jserror) :
  truthy v = true -> get v k <> Err e.
Proof. destruct v; simpl; intros T; discriminate. Qed.

Lemma copyProperties_keeps (pd : value) (names : list string) (k : string)
    (y : value) :
  forallb (fun n => negb (n =? k)) names = true ->
  forall ev ev', copyProperties pd ev names = Ok ev' ->
  get ev k = Ok y -> get ev' k = Ok y.
Proof.
  induction names as [|n names IH]; simpl; intros D ev ev' H G.
  - now injection H as <-.
  - apply andb_prop in D. destruct D as [D1 D2].
    apply negb_true_iff in D1.
    bind_ok H. bind_ok H. apply (IH D2 _ _ H).
    destruct (truthy a).
    + exact (set_keeps _ _ _ _ _ _ E0 G D1).
    + now injection E0 as <-.
Qed.

Lemma globalConfiguration_keeps (w : world) (pd r : value) (k : string) :
  globalConfiguration w pd = Ok r ->
  ("dtApiToken" =? k) = false -> ("dtTenantURL" =? k) = false ->
  get r k = get pd k.
Proof.
  unfold globalConfiguration. intros H D1 D2.
  bind_ok H. bind_ok H. bind_ok H. apply set_ok in H, E0. subst.
  now rewrite !get_store_other.
Qed.

Lemma postToApi_attached (w : world) (pd jid : value) (ctx : ctxarg)
    (s : locals) :
  sat (postToApi w pd jid ctx) s (fun tr _ _ => Forall (attached pd) tr).
Proof.
  unfold postToApi. walk; try (simpl; repeat constructor; fail).
  all: call onPosted_quiet; simpl; repeat constructor;
    [ | now apply quiet_attached ].
  all: match goal with
       | Hc : globalConfiguration _ _ = Ok ?r,
         Ha : get ?r "attachRules" = Ok ?ar,
         Ht : negb (truthy ?ar) = false,
         Hp : copyProperties _ _ _ = Ok _ |- _ =>
           exists ar; split;
           [ rewrite <- (globalConfiguration_keeps _ _ _ "attachRules" Hc
                           eq_refl eq_refl); exact Ha
           | split;
             [ now apply negb_false_iff
             | apply (copyProperties_keeps r properties "attachRules" ar
                        eq_refl _ _ Hp); cbn; congruence ] ]
       end.
Qed.

Lemma postToApi_no_lookup (w : world) (pd jid : value) (ctx : ctxarg)
    (s : locals) :
  sat (postToApi w pd jid ctx) s (fun tr _ _ => existsb isLookup tr = false).
Proof.
  unfold postToApi. walk; try reflexivity.
  all: call onPosted_quiet; simpl; now apply quiet_no_lookup.
Qed.

(** ** Claim about the attach rules of a posted event *)

(** C6, as the code has it.  Whenever [postToApi] calls the Dynatrace API,
    the attach rules of the record are set (truthy), and the posted event
    carries them.  Nothing looks inside them. *)
Theorem posted_attachRules_present (w : world) (pd jid : value)
    (ctx : ctxarg) (s : locals) (url : string) (tok ev : value) :
  In (DtApiPost url tok ev) (trace (postToApi w pd jid ctx s)) ->
  exists attachRules,
    get pd "attachRules" = Ok attachRules /\
    truthy attachRules = true /\
    get ev "attachRules" = Ok attachRules.
Proof.
  intros I.
  pose proof (sat_run _ _ _ (postToApi_attached w pd jid ctx s)) as F.
  cbv beta in F. rewrite Forall_forall in F. exact (F _ I).
Qed.

Lemma posted_attachRules_present_witness :
  In (DtApiPost "https://tenant.example.com/api/v1/events" (VStr "token")
        emptyRulesEvent)
     (trace (postToApi sampleWorld emptyRules VNull CtxGiven start))
  /\ exists attachRules,
       get emptyRules "attachRules" = Ok attachRules /\
       truthy attachRules = true /\
       get emptyRulesEvent "attachRules" = Ok attachRules.
Proof.
  assert (I : In (DtApiPost "https://tenant.example.com/api/v1/events"
                    (VStr "token") emptyRulesEvent)
                 (trace (postToApi sampleWorld emptyRules VNull CtxGiven
                           start)))
    by (vm_compute; tauto).
  split; [exact I|].
  exact (posted_attachRules_present sampleWorld emptyRules VNull CtxGiven
           start _ _ _ I).
Defined.

(** C6 as stated fails: a record whose attach rules hold an empty list of
    tag rules passes the checks and is posted as it is. *)
Lemma posted_with_empty_attachRules :
  In (DtApiPost "https://tenant.example.com/api/v1/events" (VStr "token")
        emptyRulesEvent)
     (trace (postToApi sampleWorld emptyRules VNull CtxGiven start))
  /\ get emptyRulesEvent "attachRules"
     = Ok (VObj [("tagRule", VArr [] [])])
  /\ nonEmptyRules (VObj [("tagRule", VArr [] [])]) = false.
Proof.
  split; [ vm_compute; tauto | split; reflexivity ].
Qed.

(** The same holds of every call of the API in a run of the handler,
    whichever way the record came. *)
Lemma postToApi_carries (w : world) (pd jid : value) (ctx : ctxarg)
    (s : locals) :
  sat (postToApi w pd jid ctx) s (fun tr _ _ => Forall carriesRules tr).
Proof.
  call postToApi_attached.
  match goal with H : Forall _ ?tr |- _ =>
    revert H; apply Forall_impl end.
  intros [] A; simpl in *; auto.
  destruct A as [ar [_ [T G]]]. now exists ar.
Qed.

Local Opaque postToApi.

Ltac carried :=
  simpl;
  repeat match goal with
         | |- Forall _ (_ :: _) => apply Forall_cons; [ exact I | ]
         | |- Forall _ (_ ++ _)%list => apply Forall_app; split
         | |- Forall _ [] => apply Forall_nil
         end; auto.

Lemma handler_carries (w : world) (event : value) (s : locals) :
  sat (handler w event) s (fun tr _ _ => Forall carriesRules tr).
Proof.
  unfold handler. walk; try (carried; fail).
  - unfold onJobDetails. walk; try (carried; fail).
    + unfold onDownloaded. walk; try (carried; fail).
      call postToApi_carries.
      match goal with r : completion unit |- _ => destruct r end; carried.
    + call postToApi_carries.
      match goal with r : completion unit |- _ => destruct r end; carried.
    + call postToApi_carries.
      match goal with r : completion unit |- _ => destruct r end; carried.
  - call postToApi_carries.
    match goal with r : completion unit |- _ => destruct r end;
      walk; carried.
Qed.

Local Transparent postToApi.

Lemma handler_posts_present_attachRules (w : world) (event : value)
    (s : locals) (url : string) (tok ev : value) :
  In (DtApiPost url tok ev) (trace (handler w event s)) ->
  exists attachRules,
    get ev "attachRules" = Ok attachRules /\ truthy attachRules = true.
Proof.
  intros I.
  pose proof (sat_run _ _ _ (handler_carries w event s)) as F.
  cbv beta in F. rewrite Forall_forall in F. exact (F _ I).
Qed.

(** ** Claim about failed lookups *)

Local Opaque postToApi.

Lemma onDownloaded_aborted (w : world) (job : value) (err : option string)
    (content : string) (s : locals) :
  truthy job = true ->
  sat (onDownloaded w job err content) s
    (fun tr _ _ =>
       existsb isLookup tr = false /\
       (err <> None ->
        existsb isFailureReport tr = true /\ existsb isPost tr = false)).
Proof.
  intros T. unfold onDownloaded. destruct err as [e|]; walk;
    try (simpl; split; [reflexivity | intros N; try congruence; auto]; fail).
  - match goal with H : get job "id" = Err _ |- _ =>
      now apply (get_truthy _ _ _ T) in H end.
  - call postToApi_no_lookup. simpl. split; [assumption | congruence].
Qed.

Lemma onJobDetails_aborted (w : world) (job url : value)
    (err : option string) (jd : jobDetails) (s : locals) :
  truthy job = true ->
  sat (onJobDetails w job url err jd) s
    (fun tr _ _ =>
       match err with
       | Some _ => existsb isFailureReport tr = true
                   /\ existsb isPost tr = false
                   /\ existsb isLookup tr = false
       | None =>
           existsb (failedLookup w) tr = true ->
           existsb isFailureReport tr = true /\ existsb isPost tr = false
       end).
Proof.
  intros T. unfold onJobDetails. destruct err as [e|]; walk;
    try (simpl; auto; fail); try (simpl; discriminate).
  - call onDownloaded_aborted. simpl.
    match goal with H : downloadFile _ _ _ _ = _ |- _ => rewrite H end.
    simpl.
    match goal with H : _ /\ _ |- _ => destruct H as [L F] end.
    rewrite (no_lookup_no_failure w _ L).
    match goal with
    | |- context [match ?o with Some _ => _ | None => _ end] =>
        destruct o; simpl; [ intros _; apply F; discriminate | discriminate ]
    end.
  - call postToApi_no_lookup. simpl.
    match goal with H : existsb isLookup _ = false |- _ =>
      rewrite (no_lookup_no_failure w _ H) end.
    discriminate.
  - call postToApi_no_lookup. simpl.
    match goal with H : existsb isLookup _ = false |- _ =>
      rewrite (no_lookup_no_failure w _ H) end.
    discriminate.
Qed.

Lemma classify_PipelineJob (event job : value) :
  classify event = Ok (PipelineJob job) -> truthy job = true.
Proof.
  unfold classify. intros H. bind_ok H.
  destruct (truthy a) eqn:T; [ now injection H as <- | ].
  bind_ok H. bind_ok H. destruct (truthy a1); [ discriminate | ].
  bind_ok H. discriminate.
Qed.

Lemma handler_aborted (w : world) (event : value) (s : locals) :
  sat (handler w event) s
    (fun tr _ _ =>
       existsb (failedLookup w) tr = true ->
       existsb isFailureReport tr = true /\ existsb isPost tr = false).
Proof.
  unfold handler. walk.
  all: try (simpl; discriminate).
  - match goal with H : classify _ = Ok (PipelineJob ?job) |- _ =>
      pose proof (classify_PipelineJob _ _ H) as T end.
    call onJobDetails_aborted.
    match goal with H : getJobDetails _ _ = _ |- _ => rename H into G end.
    match goal with H : match ?o with Some _ => _ | None => _ end |- _ =>
      rename H into J end.
    destruct r; simpl; rewrite G; simpl;
      (destruct o; simpl;
       [ intros _; destruct J as [R [P L]]; auto | exact J ]).
  - call postToApi_no_lookup.
    match goal with H : existsb isLookup _ = false |- _ =>
      pose proof (no_lookup_no_failure w _ H) as N end.
    destruct r; walk; rewrite ?existsb_app; simpl;
      rewrite ?existsb_app; simpl; rewrite N; simpl; discriminate.
Qed.

Local Transparent postToApi.

(** C8.  When the run of the handler asks CodePipeline for the job details
    or for the artifact and gets an error back, the run reports a failure
    (through the Lambda callback or as a job failure) and never calls the
    Dynatrace API. *)
Theorem lookup_failure_aborts (w : world) (event : value) (s : locals) :
  existsb (failedLookup w) (trace (handler w event s)) = true ->
  existsb isFailureReport (trace (handler w event s)) = true
  /\ existsb isPost (trace (handler w event s)) = false.
Proof.
  exact (sat_run _ _ _ (handler_aborted w event s)).
Qed.

Lemma lookup_failure_aborts_witness :
  existsb (failedLookup failingLookup)
    (trace (handler failingLookup
              (pipelineEvent "Production,Deployed successfully" []) start))
  = true
  /\ (existsb isFailureReport
        (trace (handler failingLookup
                  (pipelineEvent "Production,Deployed successfully" [])
                  start)) = true
      /\ existsb isPost
           (trace (handler failingLookup
                     (pipelineEvent "Production,Deployed successfully" [])
                     start)) = false).
Proof.
  split; [reflexivity|].
  exact (lookup_failure_aborts failingLookup
           (pipelineEvent "Production,Deployed successfully" []) start
           eq_refl).
Defined.

(** ** Sample runs *)

(** The scenario of C9 through the whole handler: without an input artifact
    the normalized record has no attach rules, and the job fails on the
    third check. *)
Example run_comment_without_artifact :
  calls (trace (handler sampleWorld
                  (pipelineEvent "Production,Deployed successfully" [])
                  start))
  = [GetJobDetails (VStr "job-1");
     PutJobFailure [PLit "attachRules missing"] (VStr "job-1") CtxUndefined].
Proof. reflexivity. Qed.

(** What counts as missing is decided after lines 174-175: the empty
    record lacks both a token and attach rules, the environment supplies the
    token and the tenant URL, and the job fails on the attach rules. *)
Example run_empty_record_in_configured_environment :
  missing (VObj []) "dtApiToken" = true
  /\ missing (VObj []) "attachRules" = true
  /\ calls (trace (postToApi sampleWorld (VObj []) (VStr "job-1") CtxGiven
                     start))
     = [PutJobFailure [PLit "attachRules missing"] (VStr "job-1")
          CtxUndefined].
Proof. repeat split; reflexivity. Qed.

(** With an artifact and CodeDeploy details the event is a deployment, it
    carries the tag rules of the monspec file for the environment of the
    first segment, and the job succeeds. *)
Example run_comment_with_artifact :
  calls (trace (handler deliveringWorld
                  (pipelineEvent "Production,Deployed successfully"
                     [artifact])
                  start))
  = [GetJobDetails (VStr "job-1");
     DownloadFile artifact (VObj []) VNull;
     DtApiPost "https://tenant.example.com/api/v1/events" (VStr "token")
       (VObj [("start", VStr "1516349230000");
              ("end", VStr "1516349230001");
              ("source", VStr "AWS CodePipeline");
              ("eventType", VStr "CUSTOM_DEPLOYMENT");
              ("attachRules",
               VObj [("tagRule",
                      VArr [serviceRule; VStr "Production"] [])]);
              ("deploymentName", VStr "Deployed successfully");
              ("deploymentVersion", VStr "d-96V3B7QKP");
              ("deploymentProject", VStr "HelloWorld");
              ("customProperties",
               VObj [("PipelineName", VStr "HelloWorld");
                     ("PipelineStage", VStr "Production");
                     ("PipelineAction", VStr "PushEvent");
                     ("CodeDeploy.DeploymentGroup", VStr "Production");
                     ("CodeDeploy.Application", VStr "HelloWorld");
                     ("CodeDeploy.DeploymentId", VStr "d-96V3B7QKP")])]);
     PutJobSuccess [PLit "Successfully sent event to Dynatrace"]
       (VStr "job-1") CtxGiven].
Proof. reflexivity. Qed.

(** The failing input of C4 through the whole handler: the monspec location
    reaches [downloadFile], but [getAllTagRules] is asked about an
    undefined environment. *)
Example run_url_with_artifact :
  let tr := trace (handler deliveringWorld
                     (pipelineEvent
                        "Production,http://example.com/monspec.json"
                        [artifact])
                     start) in
  In (DownloadFile artifact (VObj [])
        (VStr "http://example.com/monspec.json")) tr
  /\ postedTagRules tr = [VArr [serviceRule; VUndefined] []].
Proof. split; [ vm_compute; tauto | reflexivity ]. Qed.

(** The input of the C6 counterexample as a pipeline job produces it: the
    monspec file yields no rule, lines 121-123 leave an empty list of tag
    rules behind, and the event is posted with it. *)
Example run_artifact_without_rules :
  let tr := trace (handler rulelessWorld
                     (pipelineEvent "Production,Deployed successfully"
                        [artifact])
                     start) in
  postedTagRules tr = [VArr [] []]
  /\ In (PutJobSuccess [PLit "Successfully sent event to Dynatrace"]
           (VStr "job-1") CtxGiven) tr.
Proof. split; [ reflexivity | vm_compute; tauto ]. Qed.

Example run_failing_download :
  calls (trace (handler failingDownload
                  (pipelineEvent "Production,Deployed successfully"
                     [artifact])
                  start))
  = [GetJobDetails (VStr "job-1");
     DownloadFile artifact (VObj []) VNull;
     PutJobFailure [PLit "NoSuchKey"] (VStr "job-1") CtxGiven].
Proof. reflexivity. Qed.

(** A direct call with a complete deployment record: the posted event has
    no annotation type, and the caller is told of the success. *)
Example run_direct_deployment :
  calls (trace (handler deliveringWorld
                  (VObj [("eventType", VStr "CUSTOM_DEPLOYMENT");
                         ("deploymentName", VStr "svc-a");
                         ("attachRules",
                          VObj [("tagRule", VArr [serviceRule] [])])])
                  start))
  = [DtApiPost "https://tenant.example.com/api/v1/events" (VStr "token")
       (VObj [("start", VStr "1516349230000");
              ("end", VStr "1516349230001");
              ("source", VStr "Dynatrace AWS Lambda");
              ("eventType", VStr "CUSTOM_DEPLOYMENT");
              ("attachRules", VObj [("tagRule", VArr [serviceRule] [])]);
              ("deploymentName", VStr "svc-a")]);
     ContextSucceed [PLit "Successfully sent event to Dynatrace"]].
Proof. reflexivity. Qed.

(** The C2 input through the whole of [postToApi]: the event is posted, the
    answer is never classified. *)
Example run_unparsable_answer :
  calls (trace (postToApi sampleWorld emptyRules (VStr "job-1") CtxGiven
                  start))
  = [DtApiPost "https://tenant.example.com/api/v1/events" (VStr "token")
       emptyRulesEvent]
  /\ outcome (postToApi sampleWorld emptyRules (VStr "job-1") CtxGiven start)
     = Escaped (SyntaxError "Unexpected end of JSON input").
Proof. split; reflexivity. Qed.

(** * Further properties of the handler *)

(** ** Initialisation *)

(** X1.  When the set-up of the API client fails, the handler does nothing
    that anyone can see: line 38 calls [console], which is no function, the
    TypeError leaves the callback uncaught, and the Lambda callback of line
    39 is never called. *)
Theorem init_failure_unreported (w : world) (event : value) (s : locals)
    (err : string) :
  dtApiInit w = Some err ->
  handler w event s = ([], s, Escaped (not_a_function "console")).
Proof. intros I. unfold handler, async. now rewrite I. Qed.

Lemma init_failure_unreported_witness :
  dtApiInit uninitialised = Some "no credentials"
  /\ handler uninitialised bareAnnotation start
     = ([], start, Escaped (not_a_function "console")).
Proof.
  split; [reflexivity|].
  exact (init_failure_unreported uninitialised bareAnnotation start
           "no credentials" eq_refl).
Defined.

(** ** Comma-separated user parameters *)

Lemma split_commaFree (a : string) :
  commaFree a = true -> split "," a = [a].
Proof.
  induction a as [|c a IH]; simpl; [reflexivity|].
  intros H. apply andb_prop in H. destruct H as [Hc Ha].
  apply negb_true_iff in Hc. rewrite Hc, (IH Ha). reflexivity.
Qed.

Lemma split_segment (a rest : string) :
  commaFree a = true ->
  split "," (a ++ String "," rest) = a :: split "," rest.
Proof.
  induction a as [|c a IH]; simpl; [reflexivity|].
  intros H. apply andb_prop in H. destruct H as [Hc Ha].
  apply negb_true_iff in Hc. rewrite Hc, (IH Ha). reflexivity.
Qed.

Lemma append_empty (a : string) : a ++ "" = a.
Proof. induction a as [|c a IH]; simpl; congruence. Qed.

Lemma prefix_brace_app (a rest : string) :
  String.prefix "{" a = false ->
  String.prefix "{" (a ++ String "," rest) = false.
Proof.
  destruct a as [|c a]; cbn -[ascii_dec]; [reflexivity|].
  destruct (ascii_dec "{" c); [ destruct a; discriminate | reflexivity ].
Qed.

(** X3.  User parameters that are no JSON and have a comma: the first
    segment is the environment name and the second segment, when it does not
    start with [http], is the user comment.  Whatever follows a second comma
    is dropped, so a comment that contains a comma is cut there. *)
Theorem comment_is_second_segment (w : world) (a b tail : string) :
  commaFree a = true -> commaFree b = true ->
  String.prefix "{" a = false ->
  String.prefix "http" b = false ->
  tail = "" \/ (exists t, tail = String "," t) ->
  parseUserParameters w (VStr (a ++ "," ++ b ++ tail))
  = Ok (VObj [("environmentName", VStr a); ("userComment", VStr b)], VNull).
Proof.
  intros Ca Cb Ja Hb T. unfold parseUserParameters.
  cbn [string_method bind result_monad].
  change ("," ++ b ++ tail) with (String "," (b ++ tail)).
  rewrite (prefix_brace_app _ _ Ja), (split_segment _ _ Ca).
  assert (S : exists more, split "," (b ++ tail) = b :: more).
  { destruct T as [->|[t ->]].
    - rewrite append_empty. exists []. now apply split_commaFree.
    - eexists. now apply split_segment. }
  destruct S as [more ->]. cbn [nth length Nat.ltb Nat.leb].
  rewrite Hb. reflexivity.
Qed.

Lemma comment_is_second_segment_witness :
  commaFree "Production" = true
  /\ commaFree "Deployed" = true
  /\ String.prefix "{" "Production" = false
  /\ String.prefix "http" "Deployed" = false
  /\ (", at last" = "" \/ exists t, ", at last" = String "," t)
  /\ parseUserParameters sampleWorld
       (VStr ("Production" ++ "," ++ "Deployed" ++ ", at last"))
     = Ok (VObj [("environmentName", VStr "Production");
                 ("userComment", VStr "Deployed")], VNull).
Proof.
  assert (T : ", at last" = "" \/ exists t, ", at last" = String "," t)
    by (right; exists " at last"; reflexivity).
  split; [reflexivity|]. split; [reflexivity|]. split; [reflexivity|].
  split; [reflexivity|]. split; [exact T|].
  exact (comment_is_second_segment sampleWorld "Production" "Deployed"
           ", at last" eq_refl eq_refl eq_refl eq_refl T).
Defined.

(** X2.  User parameters that are no JSON and have no comma, the empty
    string among them, become both the environment name and the user
    comment, and no monspec location is recorded. *)
Theorem lone_parameter_is_name_and_comment (w : world) (p : string) :
  commaFree p = true ->
  String.prefix "{" p = false ->
  parseUserParameters w (VStr p)
  = Ok (VObj [("environmentName", VStr p); ("userComment", VStr p)], VNull).
Proof.
  intros C J. unfold parseUserParameters.
  cbn [string_method bind result_monad].
  rewrite J, (split_commaFree _ C). reflexivity.
Qed.

Lemma lone_parameter_is_name_and_comment_witness :
  commaFree "Production" = true
  /\ String.prefix "{" "Production" = false
  /\ parseUserParameters sampleWorld (VStr "Production")
     = Ok (VObj [("environmentName", VStr "Production");
                 ("userComment", VStr "Production")], VNull).
Proof.
  split; [reflexivity|]. split; [reflexivity|].
  exact (lone_parameter_is_name_and_comment sampleWorld "Production"
           eq_refl eq_refl).
Defined.

(** ** The tag rules of the monspec file *)

Lemma own_assoc_set_other (p : list (string * value)) (k k' : string)
    (x : value) :
  (k =? k') = false -> own (assoc_set k x p) k' = own p k'.
Proof. intros D. unfold own. now rewrite (assoc_set_other _ _ _ _ D). Qed.

Lemma field_store_same (v : value) (k : string) (x : value) :
  match v with VObj _ | VArr _ _ => True | _ => False end ->
  field (store v k x) k = x.
Proof.
  destruct v; simpl; try tauto; intros _; unfold field; simpl;
    now rewrite own_assoc_set_same.
Qed.

Lemma field_store_other (v : value) (k k' : string) (x : value) :
  (k =? k') = false -> field (store v k x) k' = field v k'.
Proof. intros D. unfold field. now rewrite (get_store_other _ _ _ _ D). Qed.

Lemma neq_eqb (k k' : string) : k' <> k -> (k =? k') = false.
Proof. intros N. apply String.eqb_neq. congruence. Qed.

(** X4.  Lines 121-123 on an object whose attach rules are absent, or are
    an object whose [tagRule] is absent or an array: the step returns, the
    tag rules of the monspec file come after the ones the record had, every
    other entry of the attach rules (the entity ids, say) stays as it was,
    and so does every other field of the record. *)
Theorem tag_rules_appended (props : list (string * value))
    (tagRules old : list value) :
  existingRules (own props "attachRules") = Some old ->
  exists pd',
    attachTagRules (VObj props) tagRules = Ok pd' /\
    field (field pd' "attachRules") "tagRule"
    = VArr (old ++ tagRules) [] /\
    (forall k, k <> "tagRule" ->
       field (field pd' "attachRules") k
       = field (own props "attachRules") k) /\
    (forall k, k <> "attachRules" -> get pd' k = get (VObj props) k).
Proof.
  intros E. unfold attachTagRules. rewrite setIfFalsy_object.
  cbn [bind result_monad get].
  destruct (truthy (own props "attachRules")) eqn:T.
  - (* the record has attach rules *)
    set (ar := own props "attachRules") in *.
    assert (O : match ar with VObj _ | VArr _ _ => True | _ => False end).
    { destruct ar; simpl in *; try exact I; rewrite ?T in E; discriminate. }
    assert (G : get ar "tagRule" = Ok (field ar "tagRule"))
      by (destruct ar; simpl in O; try tauto; reflexivity).
    rewrite G. cbn [bind result_monad].
    destruct (truthy (field ar "tagRule")) eqn:Tt.
    + (* and they have tag rules *)
      cbn [bind result_monad get]. fold ar. rewrite G.
      cbn [bind result_monad].
      assert (A : exists named, field ar "tagRule" = VArr old named).
      { unfold existingRules in E.
        destruct ar; simpl in O; try tauto;
          destruct (field _ "tagRule"); simpl in *;
          try discriminate; try (rewrite Tt in E; discriminate);
          injection E as <-; eexists; reflexivity. }
      destruct A as [named A]. rewrite A. cbn [concat bind result_monad].
      rewrite (setNested_object _ _ _ _ T). fold ar.
      eexists. split; [reflexivity|]. split; [ | split ].
      * unfold field at 2. cbn [get]. rewrite own_assoc_set_same.
        now apply field_store_same.
      * intros k N. unfold field at 2. cbn [get].
        rewrite own_assoc_set_same.
        now rewrite (field_store_other _ _ _ _ (neq_eqb _ _ N)).
      * intros k N. cbn [get].
        now rewrite (own_assoc_set_other _ _ _ _ (neq_eqb _ _ N)).
    + (* but no tag rules *)
      assert (A : old = []).
      { unfold existingRules in E.
        destruct ar; simpl in O; try tauto;
          destruct (field _ "tagRule"); simpl in *;
          try discriminate; try (rewrite Tt in E); congruence. }
      subst old.
      rewrite (setNested_object _ _ _ _ T). fold ar.
      cbn [bind result_monad get]. rewrite own_assoc_set_same.
      assert (G1 : get (store ar "tagRule" (VArr [] [])) "tagRule"
                   = Ok (VArr [] [])).
      { destruct ar; simpl in O; try tauto; simpl;
          now rewrite own_assoc_set_same. }
      rewrite G1. cbn [bind result_monad concat app].
      rewrite setNested_object
        by (rewrite own_assoc_set_same, truthy_store; exact T).
      rewrite own_assoc_set_same.
      eexists. split; [reflexivity|]. split; [ | split ].
      * unfold field at 2. cbn [get]. rewrite own_assoc_set_same.
        apply field_store_same. destruct ar; simpl in O; try tauto; exact I.
      * intros k N. unfold field at 2. cbn [get].
        rewrite own_assoc_set_same.
        now rewrite !(field_store_other _ _ _ _ (neq_eqb _ _ N)).
      * intros k N. cbn [get].
        now rewrite !(own_assoc_set_other _ _ _ _ (neq_eqb _ _ N)).
  - (* the record has no attach rules *)
    assert (A : old = []).
    { unfold existingRules in E.
      destruct (own props "attachRules"); simpl in *;
        try discriminate; try (rewrite T in E); congruence. }
    subst old. rewrite own_assoc_set_same.
    cbn [get own assoc String.eqb Ascii.eqb Bool.eqb bind result_monad truthy].
    rewrite own_assoc_set_same.
    cbn [get own assoc String.eqb Ascii.eqb Bool.eqb bind result_monad
         concat app].
    rewrite setNested_object by (now rewrite own_assoc_set_same).
    rewrite own_assoc_set_same.
    eexists. split; [reflexivity|]. split; [ | split ].
    + unfold field at 2. cbn [get]. now rewrite own_assoc_set_same.
    + intros k N. unfold field at 2. cbn [get].
      rewrite own_assoc_set_same.
      rewrite (field_store_other _ _ _ _ (neq_eqb _ _ N)).
      unfold field at 1. cbn [get]. unfold own at 1. cbn [assoc].
      rewrite (neq_eqb _ _ N).
      destruct (own props "attachRules"); simpl in T; try discriminate;
        reflexivity.
    + intros k N. cbn [get].
      now rewrite !(own_assoc_set_other _ _ _ _ (neq_eqb _ _ N)).
Qed.

Lemma tag_rules_appended_witness :
  existingRules (own ruledRecord "attachRules") = Some [serviceRule]
  /\ exists pd',
       attachTagRules (VObj ruledRecord) [hostRule] = Ok pd' /\
       field (field pd' "attachRules") "tagRule"
       = VArr ([serviceRule] ++ [hostRule]) [] /\
       (forall k, k <> "tagRule" ->
          field (field pd' "attachRules") k
          = field (own ruledRecord "attachRules") k) /\
       (forall k, k <> "attachRules" ->
          get pd' k = get (VObj ruledRecord) k).
Proof.
  split; [reflexivity|].
  exact (tag_rules_appended ruledRecord [hostRule] [serviceRule] eq_refl).
Defined.

(** ** The event that is posted *)

Ltac fields :=
  repeat match goal with
         | H : get ?r ?k = Ok ?x |- _ =>
             is_var x;
             let F := fresh in
             assert (F : x = field r k) by (unfold field; now rewrite H);
             subst x
         end.

Lemma postToApi_posted (w : world) (pd jid : value) (ctx : ctxarg)
    (s : locals) :
  sat (postToApi w pd jid ctx) s (fun tr _ _ => Forall (posted w pd) tr).
Proof.
  unfold postToApi. walk; try (simpl; repeat constructor; fail).
  all: call onPosted_quiet; simpl; repeat constructor;
    [ | match goal with H : forallb quiet ?tr = true |- _ =>
          apply Forall_forall; intros x Ix;
          rewrite forallb_forall in H; specialize (H x Ix); now destruct x
        end ].
  all: fields.
  all: match goal with
       | Hc : globalConfiguration _ _ = Ok ?r,
         Hs : ToString (field ?r "dtTenantURL") = Ok ?b |- _ =>
           exists r, b
       end.
  all: repeat match goal with
              | H : negb _ = false |- _ => apply negb_false_iff in H
              end.
  all: repeat split; try assumption; try reflexivity.
Qed.

Lemma posted_event (w : world) (pd jid : value) (ctx : ctxarg) (s : locals)
    (url : string) (tok ev : value) :
  In (DtApiPost url tok ev) (trace (postToApi w pd jid ctx s)) ->
  posted w pd (DtApiPost url tok ev).
Proof.
  intros I.
  pose proof (sat_run _ _ _ (postToApi_posted w pd jid ctx s)) as F.
  cbv beta in F. rewrite Forall_forall in F. exact (F _ I).
Qed.

Lemma globalConfiguration_token (w : world) (pd r : value) :
  globalConfiguration w pd = Ok r ->
  truthy (field r "dtApiToken") = true ->
  field r "dtApiToken" = effective (field pd "dtApiToken") (getDtApiToken w).
Proof.
  unfold globalConfiguration. intros H T.
  bind_ok H. bind_ok H. bind_ok H. apply set_ok in H, E0. subst.
  unfold field in *. rewrite get_store_other in * by reflexivity.
  rewrite E. unfold effective.
  destruct pd; simpl in *; try discriminate;
    injection E as <-; unfold own; now rewrite assoc_set_same.
Qed.

Lemma globalConfiguration_tenant (w : world) (pd r : value) :
  globalConfiguration w pd = Ok r ->
  truthy (field r "dtTenantURL") = true ->
  field r "dtTenantURL"
  = effective (field pd "dtTenantURL") (getDtTenantUrl w).
Proof.
  unfold globalConfiguration. intros H T.
  bind_ok H. bind_ok H. bind_ok H. apply set_ok in H, E0. subst.
  rewrite get_store_other in E1 by reflexivity.
  unfold field in *. rewrite E1. unfold effective.
  destruct pd; simpl in *; try discriminate;
    injection E1 as <-; unfold own; now rewrite assoc_set_same.
Qed.

(** X5.  Every call of the Dynatrace API that [postToApi] makes goes to
    the events endpoint of the tenant URL of the record, or of the
    environment when the record has none, with the token of the record, or
    of the environment when the record has none.  Nothing is done about a
    slash at the end of the tenant URL. *)
Theorem posted_to_own_tenant (w : world) (pd jid : value) (ctx : ctxarg)
    (s : locals) (url : string) (tok ev : value) :
  In (DtApiPost url tok ev) (trace (postToApi w pd jid ctx s)) ->
  tok = effective (field pd "dtApiToken") (getDtApiToken w)
  /\ exists base,
       ToString (effective (field pd "dtTenantURL") (getDtTenantUrl w))
       = Ok base
       /\ url = base ++ "/api/v1/events".
Proof.
  intros I. destruct (posted_event _ _ _ _ _ _ _ _ I)
    as [r [base [Hc [Tt [Tu [Hs [Hu [Hk _]]]]]]]].
  rewrite (globalConfiguration_tenant _ _ _ Hc Tu) in Hs.
  rewrite (globalConfiguration_token _ _ _ Hc Tt) in Hk.
  split; [exact Hk|]. now exists base.
Qed.

Lemma posted_to_own_tenant_witness :
  In (DtApiPost "https://other.example.com/api/v1/events" (VStr "own-token")
        emptyRulesEvent)
     (trace (postToApi sampleWorld ownTenantRecord VNull CtxGiven start))
  /\ (VStr "own-token"
      = effective (field ownTenantRecord "dtApiToken")
          (getDtApiToken sampleWorld)
      /\ exists base,
           ToString (effective (field ownTenantRecord "dtTenantURL")
                       (getDtTenantUrl sampleWorld)) = Ok base
           /\ "https://other.example.com/api/v1/events"
              = base ++ "/api/v1/events").
Proof.
  assert (I : In (DtApiPost "https://other.example.com/api/v1/events"
                    (VStr "own-token") emptyRulesEvent)
                 (trace (postToApi sampleWorld ownTenantRecord VNull CtxGiven
                           start)))
    by (vm_compute; tauto).
  split; [exact I|].
  exact (posted_to_own_tenant sampleWorld ownTenantRecord VNull CtxGiven
           start _ _ _ I).
Defined.

Lemma copyProperties_get (pd : value) (names : list string) :
  forall (ev : list (string * value)) (ev' : value) (k : string),
  copyProperties pd (VObj ev) names = Ok ev' ->
  get ev' k
  = Ok (if existsb (String.eqb k) names && truthy (field pd k)
        then field pd k else own ev k).
Proof.
  induction names as [|n names IH]; intros ev ev' k H.
  - simpl in H. now injection H as <-.
  - simpl in H. bind_ok H. bind_ok H.
    assert (F : a = field pd n) by (unfold field; now rewrite E).
    subst a.
    assert (S : a0 = VObj (if truthy (field pd n)
                           then assoc_set n (field pd n) ev else ev)).
    { destruct (truthy (field pd n)); simpl in E0; now injection E0 as <-. }
    subst a0. rewrite (IH _ _ k H). f_equal. simpl.
    destruct (k =? n) eqn:D.
    + apply String.eqb_eq in D. subst k. simpl.
      destruct (truthy (field pd n)) eqn:T; rewrite ?andb_true_r, ?andb_false_r.
      * rewrite own_assoc_set_same. now destruct (existsb _ names).
      * reflexivity.
    + simpl. destruct (truthy (field pd n)); [ | reflexivity ].
      rewrite own_assoc_set_other; [reflexivity|].
      now rewrite String.eqb_sym.
Qed.

Lemma globalConfiguration_field (w : world) (pd r : value) (k : string) :
  globalConfiguration w pd = Ok r ->
  ("dtApiToken" =? k) = false -> ("dtTenantURL" =? k) = false ->
  field r k = field pd k.
Proof.
  intros H D1 D2. unfold field.
  now rewrite (globalConfiguration_keeps _ _ _ _ H D1 D2).
Qed.

(** X6.  The event of every call of the Dynatrace API: its start and end
    are the two readings of the clock, printed; its event type and attach
    rules are those of the record; its source is that of the record, or
    [Dynatrace AWS Lambda] when the record has none; and each of the other
    six optional properties is that of the record when it is set (truthy)
    and is absent otherwise. *)
Theorem posted_event_fields (w : world) (pd jid : value) (ctx : ctxarg)
    (s : locals) (url : string) (tok ev : value) :
  In (DtApiPost url tok ev) (trace (postToApi w pd jid ctx s)) ->
  get ev "start" = Ok (VStr (render (now_start w)))
  /\ get ev "end" = Ok (VStr (render (now_end w)))
  /\ get ev "eventType" = Ok (field pd "eventType")
  /\ get ev "attachRules" = Ok (field pd "attachRules")
  /\ get ev "source"
     = Ok (effective (field pd "source") (VStr "Dynatrace AWS Lambda"))
  /\ forall k, In k properties -> k <> "source" ->
       get ev k = Ok (effective (field pd k) VUndefined).
Proof.
  intros I. destruct (posted_event _ _ _ _ _ _ _ _ I)
    as [r [base [Hc [_ [_ [_ [_ [_ Hp]]]]]]]].
  unfold baseEvent in Hp.
  pose proof (fun k => copyProperties_get _ _ _ _ k Hp) as G.
  pose proof (fun k => globalConfiguration_field w pd r k Hc) as F.
  repeat split.
  - now rewrite G.
  - now rewrite G.
  - rewrite G. cbn -[field]. now rewrite F.
  - rewrite G. cbn -[field]. now rewrite F.
  - rewrite G. cbn -[field]. rewrite (F "source" eq_refl eq_refl).
    unfold effective. now destruct (truthy (field pd "source")).
  - intros k K N. rewrite G. unfold effective.
    simpl in K.
    destruct K as [<-|[<-|[<-|[<-|[<-|[<-|[<-|[]]]]]]]];
      try (now elim N);
      cbn -[field]; rewrite F by reflexivity;
      now destruct (truthy (field pd _)).
Qed.

Lemma posted_event_fields_witness :
  In (DtApiPost "https://tenant.example.com/api/v1/events" (VStr "token")
        emptyRulesEvent)
     (trace (postToApi sampleWorld emptyRules VNull CtxGiven start))
  /\ (get emptyRulesEvent "start" = Ok (VStr (render (now_start sampleWorld)))
      /\ get emptyRulesEvent "end" = Ok (VStr (render (now_end sampleWorld)))
      /\ get emptyRulesEvent "eventType" = Ok (field emptyRules "eventType")
      /\ get emptyRulesEvent "attachRules"
         = Ok (field emptyRules "attachRules")
      /\ get emptyRulesEvent "source"
         = Ok (effective (field emptyRules "source")
                 (VStr "Dynatrace AWS Lambda"))
      /\ forall k, In k properties -> k <> "source" ->
           get emptyRulesEvent k
           = Ok (effective (field emptyRules k) VUndefined)).
Proof.
  assert (I : In (DtApiPost "https://tenant.example.com/api/v1/events"
                    (VStr "token") emptyRulesEvent)
                 (trace (postToApi sampleWorld emptyRules VNull CtxGiven
                           start)))
    by (vm_compute; tauto).
  split; [exact I|].
  exact (posted_event_fields sampleWorld emptyRules VNull CtxGiven start
           _ _ _ I).
Defined.

(** X7.  The event of a call of the Dynatrace API has no key besides the
    five of line 191 and the seven optional properties: the token, the
    tenant URL, the user comment and the environment name of the record
    never travel in the body. *)
Theorem posted_event_has_no_other_key (w : world) (pd jid : value)
    (ctx : ctxarg) (s : locals) (url : string) (tok ev : value) (k : string) :
  In (DtApiPost url tok ev) (trace (postToApi w pd jid ctx s)) ->
  ~ In k (baseFields ++ properties) ->
  get ev k = Ok VUndefined.
Proof.
  intros I N. destruct (posted_event _ _ _ _ _ _ _ _ I)
    as [r [base [Hc [_ [_ [_ [_ [_ Hp]]]]]]]].
  unfold baseEvent in Hp. rewrite (copyProperties_get _ _ _ _ k Hp).
  assert (D : forall n, In n (baseFields ++ properties) -> (k =? n) = false).
  { intros n K. apply String.eqb_neq. intros ->. now apply N. }
  assert (D' : forall n, In n (baseFields ++ properties) -> (n =? k) = false).
  { intros n K. rewrite String.eqb_sym. now apply D. }
  unfold properties. cbn [existsb].
  rewrite !D by (simpl; tauto). cbn [orb andb].
  unfold own. cbn [assoc].
  rewrite !D' by (simpl; tauto). reflexivity.
Qed.

Lemma posted_event_has_no_other_key_witness :
  In (DtApiPost "https://other.example.com/api/v1/events" (VStr "own-token")
        emptyRulesEvent)
     (trace (postToApi sampleWorld ownTenantRecord (VStr "job-1") CtxGiven
               start))
  /\ ~ In "dtApiToken" (baseFields ++ properties)
  /\ get emptyRulesEvent "dtApiToken" = Ok VUndefined.
Proof.
  assert (I : In (DtApiPost "https://other.example.com/api/v1/events"
                    (VStr "own-token") emptyRulesEvent)
                 (trace (postToApi sampleWorld ownTenantRecord (VStr "job-1")
                           CtxGiven start)))
    by (vm_compute; tauto).
  assert (N : ~ In "dtApiToken" (baseFields ++ properties))
    by (simpl; intuition discriminate).
  split; [exact I|]. split; [exact N|].
  exact (posted_event_has_no_other_key sampleWorld ownTenantRecord
           (VStr "job-1") CtxGiven start _ _ _ "dtApiToken" I N).
Defined.

(** ** An answer that has no message *)

(** X8.  A 400 answer whose body is JSON with an [error] that is set but
    whose [message] is neither a string nor an array (an error given as a
    plain string, an error object with a code only): line 222 calls
    [includes] on it and throws, nothing catches the exception inside the
    callback, and neither a failure nor a success is reported. *)
Theorem answer_without_message_not_reported (w : world) (pd jid : value)
    (ctx : ctxarg) (response : string) (responseObject error message : value)
    (s : locals) :
  String.prefix "{" response = true ->
  JSON_parse w response = Ok responseObject ->
  get responseObject "error" = Ok error ->
  truthy error = true ->
  get error "message" = Ok message ->
  searchable message = false ->
  exists e, async (onPosted w pd jid ctx 400 response) s = ([], s, Escaped e).
Proof.
  intros P J E T G N.
  assert (X : exists e, includes message "No MEIdentifier do match" = Err e)
    by (destruct message; try discriminate N; eexists; reflexivity).
  destruct X as [e X]. exists e.
  unfold async, onPosted, noMatchingEntities.
  rewrite P, J. cbn [bind result_monad]. rewrite E. cbn [bind result_monad].
  rewrite T, G. cbn [bind result_monad]. rewrite X. reflexivity.
Qed.

Lemma answer_without_message_not_reported_witness :
  String.prefix "{" badRequest = true
  /\ JSON_parse terseWorld badRequest
     = Ok (VObj [("error", VStr "Bad Request")])
  /\ get (VObj [("error", VStr "Bad Request")]) "error"
     = Ok (VStr "Bad Request")
  /\ truthy (VStr "Bad Request") = true
  /\ get (VStr "Bad Request") "message" = Ok VUndefined
  /\ searchable VUndefined = false
  /\ exists e,
       async (onPosted terseWorld emptyRules (VStr "job-1") CtxGiven 400
                badRequest) start
       = ([], start, Escaped e).
Proof.
  split; [reflexivity|]. split; [reflexivity|]. split; [reflexivity|].
  split; [reflexivity|]. split; [reflexivity|]. split; [reflexivity|].
  exact (answer_without_message_not_reported terseWorld emptyRules
           (VStr "job-1") CtxGiven badRequest
           (VObj [("error", VStr "Bad Request")]) (VStr "Bad Request")
           VUndefined start eq_refl eq_refl eq_refl eq_refl eq_refl eq_refl).
Defined.

(** ** The stages of normalization *)

Lemma normalizeJob_stages (props : list (string * value)) (jd : jobDetails)
    (jid : value) :
  convertible (own props "eventType") = true ->
  exists p1 p2 p3 p4 p5 p6,
    setIfFalsy (VObj props) "eventType"
      (VStr (match codedeploy jd with
             | Some _ => "CUSTOM_DEPLOYMENT"
             | None => "CUSTOM_ANNOTATION"
             end)) = Ok (VObj p1) /\
    annotationDefaults (VObj p1) jd = Ok (VObj p2) /\
    deploymentDefaults (VObj p2) jd jid = Ok (VObj p3) /\
    setIfFalsy (VObj p3) "customProperties" (pipelineProperties jd)
    = Ok (VObj p4) /\
    codedeployProperties (VObj p4) jd = Ok (VObj p5) /\
    setIfFalsy (VObj p5) "source" (VStr "AWS CodePipeline") = Ok (VObj p6) /\
    normalizeJob (VObj props) jd jid = Ok (VObj p6).
Proof.
  intros C. unfold normalizeJob.
  rewrite setIfFalsy_object. cbn [bind result_monad].
  set (p1 := if truthy (own props "eventType") then props else _).
  assert (C1 : convertible (own p1 "eventType") = true).
  { subst p1. destruct (truthy (own props "eventType")); [exact C|].
    now rewrite own_assoc_set_same. }
  destruct (annotationDefaults_object p1 jd C1) as [p2 E2].
  rewrite E2. cbn [bind result_monad].
  assert (C2 : convertible (own p2 "eventType") = true).
  { assert (G : get (VObj p2) "eventType" = Ok (own p1 "eventType"))
      by (apply (annotationDefaults_keeps _ _ _ _ _ E2); auto).
    simpl in G. injection G as ->. exact C1. }
  destruct (deploymentDefaults_object p2 jd jid C2) as [p3 E3].
  rewrite E3. cbn [bind result_monad].
  fold (pipelineProperties jd). rewrite setIfFalsy_object.
  cbn [bind result_monad].
  set (p4 := if truthy (own p3 "customProperties") then p3 else _).
  assert (T4 : truthy (own p4 "customProperties") = true).
  { subst p4. destruct (truthy (own p3 "customProperties")) eqn:T; [exact T|].
    now rewrite own_assoc_set_same. }
  destruct (codedeployProperties_object p4 jd T4) as [p5 E5].
  rewrite E5. cbn [bind result_monad]. rewrite setIfFalsy_object.
  exists p1, p2, p3, p4, p5. eexists.
  repeat split;
    first [ assumption | apply setIfFalsy_object | reflexivity ].
Qed.

Lemma setIfFalsy_writes (p : list (string * value)) (k : string)
    (x v' : value) :
  setIfFalsy (VObj p) k x = Ok v' ->
  get v' k = Ok (effective (own p k) x).
Proof.
  rewrite setIfFalsy_object. intros H. injection H as <-.
  unfold effective. destruct (truthy (own p k)); simpl; [reflexivity|].
  now rewrite own_assoc_set_same.
Qed.

(** X9.  Normalization of an object returns, and in its result the
    source is that of the input, or [AWS CodePipeline] when the input has
    none; custom properties that the input does not set become the pipeline
    name, stage and action of the job context, with the three CodeDeploy
    keys after them when the job context has CodeDeploy details. *)
Theorem pipeline_defaults (props : list (string * value)) (jd : jobDetails)
    (jid : value) :
  convertible (own props "eventType") = true ->
  exists pd',
    normalizeJob (VObj props) jd jid = Ok pd' /\
    get pd' "source"
    = Ok (effective (own props "source") (VStr "AWS CodePipeline")) /\
    (truthy (own props "customProperties") = false ->
     get pd' "customProperties"
     = Ok (withCodedeploy jd (pipelineProperties jd))).
Proof.
  intros C.
  destruct (normalizeJob_stages props jd jid C)
    as [p1 [p2 [p3 [p4 [p5 [p6 [S1 [S2 [S3 [S4 [S5 [S6 N]]]]]]]]]]]].
  exists (VObj p6). split; [exact N|]. split.
  - assert (G1 : get (VObj p1) "source" = Ok (own props "source"))
      by (apply (setIfFalsy_keeps _ _ _ _ _ _ S1); [reflexivity | now left]).
    pose proof (annotationDefaults_keeps _ _ _ _ _ S2 G1 eq_refl
                  (or_introl eq_refl)) as G2.
    assert (G3 : get (VObj p3) "source" = Ok (own props "source"))
      by (apply (deploymentDefaults_keeps _ _ _ _ _ _ S3 G2); right; auto).
    pose proof (setIfFalsy_keeps _ _ _ _ _ _ S4 G3 (or_introl eq_refl)) as G4.
    pose proof (codedeployProperties_keeps _ _ _ _ _ S5 G4 eq_refl) as G5.
    simpl in G5. injection G5 as G5. rewrite <- G5.
    exact (setIfFalsy_writes _ _ _ _ S6).
  - intros T.
    assert (G1 : get (VObj p1) "customProperties"
                 = Ok (own props "customProperties"))
      by (apply (setIfFalsy_keeps _ _ _ _ _ _ S1); [reflexivity | now left]).
    pose proof (annotationDefaults_keeps _ _ _ _ _ S2 G1 eq_refl
                  (or_introl eq_refl)) as G2.
    assert (G3 : get (VObj p3) "customProperties"
                 = Ok (own props "customProperties"))
      by (apply (deploymentDefaults_keeps _ _ _ _ _ _ S3 G2); right; auto).
    pose proof (setIfFalsy_writes _ _ _ _ S4) as G4.
    simpl in G3. injection G3 as G3. rewrite G3 in G4.
    unfold effective in G4. rewrite T in G4.
    pose proof (codedeployProperties_writes _ _ _ _ S5 G4 eq_refl) as G5.
    exact (setIfFalsy_keeps _ _ _ _ _ _ S6 G5 (or_introl eq_refl)).
Qed.

Lemma pipeline_defaults_witness :
  convertible (own commentedRecord "eventType") = true
  /\ exists pd',
       normalizeJob (VObj commentedRecord) sampleDeployment (VStr "job-1")
       = Ok pd' /\
       get pd' "source"
       = Ok (effective (own commentedRecord "source")
               (VStr "AWS CodePipeline")) /\
       (truthy (own commentedRecord "customProperties") = false ->
        get pd' "customProperties"
        = Ok (withCodedeploy sampleDeployment
                (pipelineProperties sampleDeployment))).
Proof.
  split; [reflexivity|].
  exact (pipeline_defaults commentedRecord sampleDeployment (VStr "job-1")
           eq_refl).
Defined.

Lemma stage_eventType (props p1 : list (string * value)) (jd : jobDetails) :
  setIfFalsy (VObj props) "eventType"
    (VStr (match codedeploy jd with
           | Some _ => "CUSTOM_DEPLOYMENT"
           | None => "CUSTOM_ANNOTATION"
           end)) = Ok (VObj p1) ->
  own p1 "eventType" = eventTypeOf props jd
  /\ forall k, ("eventType" =? k) = false -> own p1 k = own props k.
Proof.
  intros S1. split.
  - pose proof (setIfFalsy_writes _ _ _ _ S1) as G. simpl in G.
    now injection G as ->.
  - intros k D.
    assert (G : get (VObj p1) k = Ok (own props k))
      by (apply (setIfFalsy_keeps _ _ _ _ _ _ S1); [reflexivity | now left]).
    simpl in G. now injection G.
Qed.

Lemma setIfFalsy_shape (p : list (string * value)) (k : string)
    (x v' : value) :
  setIfFalsy (VObj p) k x = Ok v' ->
  exists q,
    v' = VObj q /\ own q k = effective (own p k) x
    /\ forall k', (k =? k') = false -> own q k' = own p k'.
Proof.
  rewrite setIfFalsy_object. intros H. injection H as <-.
  eexists. split; [reflexivity|]. unfold effective.
  destruct (truthy (own p k)); split; auto.
  - now rewrite own_assoc_set_same.
  - intros k' D. now apply own_assoc_set_other.
Qed.

(** X10.  A pipeline job whose event type, given or defaulted, is
    CUSTOM_DEPLOYMENT: normalization returns, the deployment name is that of
    the input, or else the user comment, or else the pipeline name, and the
    deployment project is that of the input or else the pipeline name. *)
Theorem deployment_defaults (props : list (string * value))
    (jd : jobDetails) (jid : value) :
  eventTypeOf props jd = VStr "CUSTOM_DEPLOYMENT" ->
  exists pd',
    normalizeJob (VObj props) jd jid = Ok pd' /\
    get pd' "deploymentName"
    = Ok (effective (own props "deploymentName")
            (effective (own props "userComment")
               (VStr (pipelineName jd)))) /\
    get pd' "deploymentProject"
    = Ok (effective (own props "deploymentProject")
            (VStr (pipelineName jd))).
Proof.
  intros Et.
  assert (C : convertible (own props "eventType") = true).
  { unfold eventTypeOf in Et.
    destruct (truthy (own props "eventType")) eqn:Tt.
    - now rewrite Et.
    - now apply falsy_convertible. }
  destruct (normalizeJob_stages props jd jid C)
    as [p1 [p2 [p3 [p4 [p5 [p6 [S1 [S2 [S3 [S4 [S5 [S6 N]]]]]]]]]]]].
  exists (VObj p6). split; [exact N|].
  destruct (stage_eventType _ _ _ S1) as [Ge K1]. rewrite Et in Ge.
  unfold annotationDefaults in S2. cbn [get bind result_monad] in S2.
  rewrite Ge in S2. cbn in S2. injection S2 as <-.
  unfold deploymentDefaults in S3. cbn [get bind result_monad] in S3.
  rewrite Ge in S3. cbn [loose_eq_str String.eqb Ascii.eqb Bool.eqb] in S3.
  cbn [bind result_monad] in S3.
  rewrite (K1 "userComment" eq_refl) in S3.
  bind_ok S3. bind_ok S3.
  destruct (setIfFalsy_shape _ _ _ _ E) as [q1 [-> [N1 K2]]].
  destruct (setIfFalsy_shape _ _ _ _ E0) as [q2 [-> [_ K3]]].
  destruct (setIfFalsy_shape _ _ _ _ S3) as [q3 [Q3 [P3 K4]]].
  injection Q3 as ->.
  assert (F : forall k y, (("customProperties" =? k) = false) ->
                (("source" =? k) = false) ->
                own q3 k = y -> get (VObj p6) k = Ok y).
  { intros k y D1 D2 <-.
    assert (G3 : get (VObj q3) k = Ok (own q3 k)) by reflexivity.
    pose proof (setIfFalsy_keeps _ _ _ _ _ _ S4 G3 (or_introl D1)) as G4.
    pose proof (codedeployProperties_keeps _ _ _ _ _ S5 G4 D1) as G5.
    exact (setIfFalsy_keeps _ _ _ _ _ _ S6 G5 (or_introl D2)). }
  split; apply F; try reflexivity.
  - rewrite (K4 "deploymentName" eq_refl), (K3 "deploymentName" eq_refl), N1.
    rewrite (K1 "deploymentName" eq_refl). unfold effective.
    reflexivity.
  - rewrite P3, (K3 "deploymentProject" eq_refl),
      (K2 "deploymentProject" eq_refl).
    now rewrite (K1 "deploymentProject" eq_refl).
Qed.

Lemma deployment_defaults_witness :
  eventTypeOf commentedRecord sampleDeployment = VStr "CUSTOM_DEPLOYMENT"
  /\ exists pd',
       normalizeJob (VObj commentedRecord) sampleDeployment (VStr "job-1")
       = Ok pd' /\
       get pd' "deploymentName"
       = Ok (effective (own commentedRecord "deploymentName")
               (effective (own commentedRecord "userComment")
                  (VStr (pipelineName sampleDeployment)))) /\
       get pd' "deploymentProject"
       = Ok (effective (own commentedRecord "deploymentProject")
               (VStr (pipelineName sampleDeployment))).
Proof.
  split; [reflexivity|].
  exact (deployment_defaults commentedRecord sampleDeployment (VStr "job-1")
           eq_refl).
Defined.

(** ** What validation can still miss after normalization *)

Lemma effective_truthy (given fallback : value) :
  truthy fallback = true -> truthy (effective given fallback) = true.
Proof. unfold effective. intros T. now destruct (truthy given) eqn:G. Qed.

Lemma truthy_name (name : string) : name <> "" -> truthy (VStr name) = true.
Proof.
  intros N. simpl. apply negb_true_iff. apply String.eqb_neq. exact N.
Qed.

Lemma normalized_mandatory (props : list (string * value)) (jd : jobDetails)
    (jid pd' : value) :
  normalizeJob (VObj props) jd jid = Ok pd' ->
  pipelineName jd <> "" ->
  truthy (field pd' "eventType") = true
  /\ (loose_eq_str (field pd' "eventType") "CUSTOM_ANNOTATION" = Ok true ->
      truthy (field pd' "annotationType") = true)
  /\ (loose_eq_str (field pd' "eventType") "CUSTOM_DEPLOYMENT" = Ok true ->
      truthy (field pd' "deploymentName") = true).
Proof.
  intros N Name.
  pose proof (normalizeJob_needs_convertible _ _ _ _ N) as C.
  destruct (normalizeJob_stages props jd jid C)
    as [p1 [p2 [p3 [p4 [p5 [p6 [S1 [S2 [S3 [S4 [S5 [S6 N']]]]]]]]]]]].
  rewrite N in N'. injection N' as ->.
  destruct (stage_eventType _ _ _ S1) as [Ge _].
  assert (Te : truthy (eventTypeOf props jd) = true).
  { unfold eventTypeOf. destruct (truthy (own props "eventType")) eqn:T;
      [exact T | now destruct (codedeploy jd)]. }
  assert (Fe : field (VObj p6) "eventType" = eventTypeOf props jd)
    by (unfold field; now rewrite (normalizeJob_eventType _ _ _ _ N)).
  rewrite Fe.
  assert (G2 : get (VObj p2) "eventType" = Ok (eventTypeOf props jd)).
  { apply (annotationDefaults_keeps _ _ _ _ _ S2); auto.
    simpl. now rewrite Ge. }
  assert (Later : forall k y,
             ("customProperties" =? k) = false ->
             get (VObj p3) k = Ok y -> truthy y = true ->
             truthy (field (VObj p6) k) = true).
  { intros k y D G3 T.
    pose proof (setIfFalsy_keeps _ _ _ _ _ _ S4 G3 (or_intror T)) as G4.
    pose proof (codedeployProperties_keeps _ _ _ _ _ S5 G4 D) as G5.
    pose proof (setIfFalsy_keeps _ _ _ _ _ _ S6 G5 (or_intror T)) as G6.
    unfold field. now rewrite G6. }
  split; [exact Te|]. split.
  - intros A. unfold annotationDefaults in S2.
    cbn [get bind result_monad] in S2. rewrite Ge, A in S2.
    cbn [bind result_monad] in S2. bind_ok S2.
    destruct (setIfFalsy_shape _ _ _ _ E) as [q [-> [Q K]]].
    assert (T : truthy (own q "annotationType") = true)
      by (rewrite Q; apply effective_truthy; now apply truthy_name).
    assert (G : get (VObj p2) "annotationType"
                = Ok (own q "annotationType")).
    { cbn [get bind result_monad] in S2.
      destruct (truthy (own q "userComment")).
      - now apply (set_keeps _ _ _ _ _ _ S2).
      - now injection S2 as <-. }
    apply (Later "annotationType" _ eq_refl
             (deploymentDefaults_keeps _ _ _ _ _ _ S3 G (or_introl T)) T).
  - intros D. simpl in G2. injection G2 as G2.
    unfold deploymentDefaults in S3.
    cbn [get bind result_monad] in S3. rewrite G2, D in S3.
    cbn [bind result_monad] in S3. bind_ok S3. bind_ok S3.
    destruct (setIfFalsy_shape _ _ _ _ E) as [q [-> [Q K]]].
    assert (T : truthy (own q "deploymentName") = true).
    { rewrite Q. apply effective_truthy.
      destruct (truthy (own p2 "userComment")) eqn:U; [exact U|].
      now apply truthy_name. }
    assert (G : get (VObj q) "deploymentName" = Ok (own q "deploymentName"))
      by reflexivity.
    pose proof (setIfFalsy_keeps _ _ _ _ _ _ E0 G (or_intror T)) as G'.
    pose proof (setIfFalsy_keeps _ _ _ _ _ _ S3 G' (or_intror T)) as G''.
    exact (Later "deploymentName" _ eq_refl G'' T).
Qed.

(** X11.  After the normalization of a job whose pipeline has a name, the
    checks of [postToApi] can only miss the token, the tenant URL or the
    attach rules: the event type and the field that the event type makes
    mandatory are set by lines 85-95. *)
Theorem pipeline_job_validation (w : world) (props : list (string * value))
    (jd : jobDetails) (jid pd' r : value) (k : string) :
  normalizeJob (VObj props) jd jid = Ok pd' ->
  pipelineName jd <> "" ->
  globalConfiguration w pd' = Ok r ->
  firstMissing r = Ok (Some k) ->
  In k ["dtApiToken"; "dtTenantURL"; "attachRules"].
Proof.
  intros N Name Hc Hm.
  destruct (normalized_mandatory _ _ _ _ N Name) as [Te [Ta Td]].
  rewrite <- (globalConfiguration_field w pd' r "eventType" Hc
                eq_refl eq_refl) in Te, Ta, Td.
  rewrite <- (globalConfiguration_field w pd' r "annotationType" Hc
                eq_refl eq_refl) in Ta.
  rewrite <- (globalConfiguration_field w pd' r "deploymentName" Hc
                eq_refl eq_refl) in Td.
  unfold firstMissing, unconditional, find, missing in Hm.
  destruct (truthy (field r "dtApiToken"));
    [ | injection Hm as <-; simpl; tauto ].
  destruct (truthy (field r "dtTenantURL"));
    [ | injection Hm as <-; simpl; tauto ].
  destruct (truthy (field r "attachRules"));
    [ | injection Hm as <-; simpl; tauto ].
  rewrite Te in Hm. cbn [negb] in Hm.
  unfold conditional in Hm. cbn [bind result_monad] in Hm.
  destruct (loose_eq_str (field r "eventType") "CUSTOM_ANNOTATION")
    as [[|]|] eqn:A; [ | | discriminate ];
    destruct (loose_eq_str (field r "eventType") "CUSTOM_DEPLOYMENT")
      as [[|]|] eqn:D; try discriminate;
    cbn [app find] in Hm; unfold missing in Hm;
    rewrite ?(Ta eq_refl), ?(Td eq_refl) in Hm; cbn [negb] in Hm;
    discriminate.
Qed.

Lemma pipeline_job_validation_witness :
  normalizeJob (VObj commentedRecord) sampleDetails (VStr "job-1")
  = Ok (VObj annotatedRecord)
  /\ pipelineName sampleDetails <> ""
  /\ globalConfiguration unconfigured (VObj annotatedRecord)
     = Ok (VObj (annotatedRecord ++ [("dtApiToken", VUndefined);
                                     ("dtTenantURL", VUndefined)]))
  /\ firstMissing (VObj (annotatedRecord ++ [("dtApiToken", VUndefined);
                                             ("dtTenantURL", VUndefined)]))
     = Ok (Some "dtApiToken")
  /\ In "dtApiToken" ["dtApiToken"; "dtTenantURL"; "attachRules"].
Proof.
  assert (N : pipelineName sampleDetails <> "") by discriminate.
  split; [reflexivity|]. split; [exact N|]. split; [reflexivity|].
  split; [reflexivity|].
  exact (pipeline_job_validation unconfigured commentedRecord sampleDetails
           (VStr "job-1") (VObj annotatedRecord) _ "dtApiToken"
           eq_refl N eq_refl eq_refl).
Defined.

(** ** Counting the actions of a run *)

Lemma count_app (p : effect -> bool) (tr tr' : list effect) :
  count p (tr ++ tr') = (count p tr + count p tr')%nat.
Proof. unfold count. now rewrite filter_app, length_app. Qed.

Lemma count_cons (p : effect -> bool) (a : effect) (tr : list effect) :
  count p (a :: tr) = ((if p a then 1 else 0) + count p tr)%nat.
Proof. unfold count. simpl. now destruct (p a). Qed.

Lemma count_nil (p : effect -> bool) : count p [] = 0%nat.
Proof. reflexivity. Qed.

Lemma count_none (p q : effect -> bool) (tr : list effect) :
  (forall a, q a = true -> p a = false) ->
  forallb q tr = true -> count p tr = 0%nat.
Proof.
  intros I. induction tr as [|a tr IH]; [reflexivity|].
  simpl. intros H. apply andb_prop in H. destruct H as [Ha Ht].
  rewrite count_cons, (I a Ha), (IH Ht). reflexivity.
Qed.

Ltac tally :=
  rewrite ?count_app, ?count_cons, ?count_nil; cbn [isPost isReport];
  try lia.

Lemma quiet_no_post (tr : list effect) :
  forallb quiet tr = true -> count isPost tr = 0%nat.
Proof.
  apply count_none. intros a. unfold quiet.
  now destruct a.
Qed.

Local Opaque count.

Lemma postToApi_one_post (w : world) (pd jid : value) (ctx : ctxarg)
    (s : locals) :
  sat (postToApi w pd jid ctx) s (fun tr _ _ => (count isPost tr <= 1)%nat).
Proof.
  unfold postToApi. walk; try (tally; fail).
  all: call onPosted_quiet;
    match goal with H : forallb quiet _ = true |- _ =>
      apply quiet_no_post in H end; tally.
Qed.

Local Opaque postToApi.

(** What follows the return of a procedure. *)
Ltac after :=
  match goal with r : completion unit |- _ => destruct r end; walk.

Lemma handler_one_post (w : world) (event : value) (s : locals) :
  sat (handler w event) s (fun tr _ _ => (count isPost tr <= 1)%nat).
Proof.
  unfold handler. walk; try (tally; fail).
  - unfold onJobDetails. walk; try (tally; fail).
    + unfold onDownloaded. walk; try (tally; fail).
      call postToApi_one_post. after; tally.
    + call postToApi_one_post. after; tally.
    + call postToApi_one_post. after; tally.
  - call postToApi_one_post. after; tally.
Qed.

Local Transparent postToApi.

(** X12.  No run of the handler calls the Dynatrace API more than
    once. *)
Theorem posts_at_most_once (w : world) (event : value) (s : locals) :
  (count isPost (trace (handler w event s)) <= 1)%nat.
Proof. exact (sat_run _ _ _ (handler_one_post w event s)). Qed.

(** ** Answers to the caller *)

Lemma onPosted_reports (w : world) (pd jid : value) (ctx : ctxarg)
    (statuscode : Z) (response : string) (s : locals) :
  sat (onPosted w pd jid ctx statuscode response) s
    (fun tr _ r =>
       count isReport tr = match r with Normal _ => 1 | _ => 0 end%nat).
Proof. unfold onPosted, reportSuccess, reportError. walk; tally. Qed.

Lemma postToApi_reports (w : world) (pd jid : value) (ctx : ctxarg)
    (s : locals) :
  sat (postToApi w pd jid ctx) s
    (fun tr _ r =>
       count isReport tr = match r with Normal _ => 1 | _ => 0 end%nat).
Proof.
  unfold postToApi, reportError. walk; try (tally; fail).
  all: call onPosted_reports;
    match goal with r : completion unit |- _ => destruct r end; tally.
Qed.

Local Opaque postToApi.

Lemma handler_reports (w : world) (event : value) (s : locals) :
  sat (handler w event) s
    (fun tr _ r =>
       match r with
       | Normal _ =>
           (count isReport tr <= 1)%nat
           /\ ((forall record, classify event <> Ok (AsyncNotification record))
               -> count isReport tr = 1%nat)
       | Throw _ => False
       | Escaped _ => count isReport tr = 0%nat
       end).
Proof.
  unfold handler, reportError, fromSns. walk.
  all: try (tally; fail).
  all: try (split; [ tally | intros _; tally ]; fail).
  all: try (split; [ tally | ];
            match goal with
            | H : classify _ = Ok (AsyncNotification ?r) |- _ =>
                intros N; now elim (N r)
            end).
  - unfold onJobDetails. walk; try (tally; fail);
      try (split; [ tally | intros _; tally ]; fail).
    + unfold onDownloaded. walk; try (tally; fail);
        try (split; [ tally | intros _; tally ]; fail).
      call postToApi_reports. after; try (tally; fail);
        try (split; [ tally | intros _; tally ]; fail).
    + call postToApi_reports. after; try (tally; fail);
        try (split; [ tally | intros _; tally ]; fail).
    + call postToApi_reports. after; try (tally; fail);
        try (split; [ tally | intros _; tally ]; fail).
  - call postToApi_reports. after; try (tally; fail);
      try (split; [ tally | intros _; tally ]; fail).
Qed.

Local Transparent postToApi.

(** X13.  No run of the handler answers its caller more than once, be it
    through the Lambda callback, as a verdict on the CodePipeline job, or
    through the context; and a run that ends in an exception that nothing
    catches has not answered at all. *)
Theorem reports_at_most_once (w : world) (event : value) (s : locals) :
  (count isReport (trace (handler w event s)) <= 1)%nat
  /\ forall e, outcome (handler w event s) = Escaped e ->
       count isReport (trace (handler w event s)) = 0%nat.
Proof.
  pose proof (sat_run _ _ _ (handler_reports w event s)) as H.
  cbv beta in H. destruct (outcome (handler w event s)) as [u|e|e].
  - split; [tauto | discriminate].
  - contradiction.
  - split; [lia | auto].
Qed.

(** X14.  A run of the handler that comes to its end without an uncaught
    exception, on an event that is no SNS notification, has answered its
    caller exactly once. *)
Theorem completed_run_reports_once (w : world) (event : value) (s : locals) :
  outcome (handler w event s) = Normal tt ->
  (forall record, classify event <> Ok (AsyncNotification record)) ->
  count isReport (trace (handler w event s)) = 1%nat.
Proof.
  intros O N.
  pose proof (sat_run _ _ _ (handler_reports w event s)) as H.
  cbv beta in H. rewrite O in H. now apply H.
Qed.

Lemma completed_run_reports_once_witness :
  outcome (handler deliveringWorld emptyRules start) = Normal tt
  /\ (forall record,
        classify emptyRules <> Ok (AsyncNotification record))
  /\ count isReport (trace (handler deliveringWorld emptyRules start))
     = 1%nat.
Proof.
  assert (N : forall record,
             classify emptyRules <> Ok (AsyncNotification record))
    by (intros record; discriminate).
  split; [reflexivity|]. split; [exact N|].
  exact (completed_run_reports_once deliveringWorld emptyRules start
           eq_refl N).
Defined.

(** ** Success *)

Lemma onPosted_success_200 (w : world) (pd jid : value) (ctx : ctxarg)
    (statuscode : Z) (response : string) (s : locals) :
  sat (onPosted w pd jid ctx statuscode response) s
    (fun tr _ _ =>
       existsb isSuccessReport tr = true -> statuscode = 200%Z).
Proof.
  unfold onPosted, reportSuccess, reportError.
  walk; try (simpl; discriminate); intros _; now apply Z.eqb_eq.
Qed.

(** Spread a test over the pieces of a trace. *)
Ltac spread :=
  repeat (rewrite ?existsb_app, ?forallb_app in *; simpl in *);
  rewrite ?orb_false_r, ?andb_true_r in *.

Lemma postToApi_success (w : world) (pd jid : value) (ctx : ctxarg)
    (s : locals) :
  sat (postToApi w pd jid ctx) s
    (fun tr _ _ =>
       existsb isSuccessReport tr = true -> existsb (accepted w) tr = true).
Proof.
  unfold postToApi, reportError. walk; try (simpl; discriminate).
  all: call onPosted_success_200; intros S; spread.
  all: match goal with
       | H : _ -> _ = 200%Z, E : dtApiPost _ _ _ _ = _ |- _ =>
           rewrite E; simpl; rewrite (H S); reflexivity
       end.
Qed.

Local Opaque postToApi.

Lemma handler_success (w : world) (event : value) (s : locals) :
  sat (handler w event) s
    (fun tr _ _ =>
       existsb isSuccessReport tr = true -> existsb (accepted w) tr = true).
Proof.
  unfold handler, reportError, fromSns. walk; try (simpl; discriminate).
  - unfold onJobDetails. walk; try (simpl; discriminate).
    + unfold onDownloaded. walk; try (simpl; discriminate).
      call postToApi_success. after; intros S; spread; auto.
    + call postToApi_success. after; intros S; spread; auto.
    + call postToApi_success. after; intros S; spread; auto.
  - call postToApi_success. after; intros S; spread; auto.
Qed.

Local Transparent postToApi.

(** X15.  A run of the handler reports success, to CodePipeline or
    through the context, only if it called the Dynatrace API and the API
    answered with status 200. *)
Theorem success_needs_200 (w : world) (event : value) (s : locals) :
  existsb isSuccessReport (trace (handler w event s)) = true ->
  existsb (accepted w) (trace (handler w event s)) = true.
Proof. exact (sat_run _ _ _ (handler_success w event s)). Qed.

Lemma success_needs_200_witness :
  existsb isSuccessReport (trace (handler deliveringWorld emptyRules start))
  = true
  /\ existsb (accepted deliveringWorld)
       (trace (handler deliveringWorld emptyRules start)) = true.
Proof.
  split; [reflexivity|].
  exact (success_needs_200 deliveringWorld emptyRules start eq_refl).
Defined.

(** ** Who is answered *)

Lemma sat_and {A : Type} (m : M A) (s : locals)
    (Q Q' : list effect -> locals -> completion A -> Prop) :
  sat m s Q -> sat m s Q' -> sat m s (fun tr s' r => Q tr s' r /\ Q' tr s' r).
Proof. unfold sat. destruct (m s) as [[tr s'] r]. auto. Qed.

Lemma onPosted_effects (w : world) (pd jid : value) (ctx : ctxarg)
    (statuscode : Z) (response : string) (s : locals) :
  sat (onPosted w pd jid ctx statuscode response) s
    (fun tr s' _ => forallb (postEffect jid) tr = true /\ s' = s).
Proof.
  unfold onPosted, reportSuccess, reportError.
  walk; simpl;
    repeat match goal with H : truthy jid = _ |- _ => rewrite H end;
    auto.
Qed.

Lemma postToApi_effects (w : world) (pd jid : value) (ctx : ctxarg)
    (s : locals) :
  sat (postToApi w pd jid ctx) s
    (fun tr s' _ => forallb (postEffect jid) tr = true /\ s' = s).
Proof.
  unfold postToApi, reportError.
  walk; simpl;
    repeat match goal with H : truthy jid = _ |- _ => rewrite H end;
    auto.
  all: call onPosted_effects; spread; tauto.
Qed.

Lemma forallb_impl (p q : effect -> bool) (tr : list effect) :
  (forall a, p a = true -> q a = true) ->
  forallb p tr = true -> forallb q tr = true.
Proof.
  intros I H. apply forallb_forall. intros a Ia.
  rewrite forallb_forall in H. auto.
Qed.

Lemma postEffect_context (jid : value) (tr : list effect) :
  truthy jid = false ->
  forallb (postEffect jid) tr = true ->
  forallb (fun a => negb (touchesCodePipeline a || isCallback a)) tr = true.
Proof.
  intros T. apply forallb_impl. intros a. unfold postEffect. rewrite T.
  now destruct a.
Qed.

Lemma postEffect_codepipeline (jid : value) (tr : list effect) :
  truthy jid = true ->
  forallb (postEffect jid) tr = true ->
  forallb (fun a => negb (usesContext a)) tr = true.
Proof.
  intros T. apply forallb_impl. intros a. unfold postEffect. rewrite T.
  now destruct a.
Qed.

Local Opaque postToApi.

Lemma handler_direct (w : world) (event body : value) (s : locals) :
  classify event = Ok (DirectCall body) ->
  sat (handler w event) s
    (fun tr _ _ =>
       forallb (fun a => negb (touchesCodePipeline a || isCallback a)) tr
       = true).
Proof.
  intros D. unfold handler, reportError. walk; try congruence.
  all: try reflexivity.
  call postToApi_effects.
  match goal with H : _ /\ _ |- _ => destruct H as [F ->] end.
  simpl in F. apply (postEffect_context VNull _ eq_refl) in F.
  after; simpl in *; try discriminate; spread; auto.
Qed.

Local Transparent postToApi.

(** X16.  A direct call never touches CodePipeline and never calls the
    Lambda callback: no job details are asked for, nothing is downloaded, no
    verdict on a job is given, and whatever is reported goes through the
    context. *)
Theorem direct_call_stays_with_context (w : world) (event body : value)
    (s : locals) :
  classify event = Ok (DirectCall body) ->
  forallb (fun a => negb (touchesCodePipeline a || isCallback a))
    (trace (handler w event s)) = true.
Proof. intros D. exact (sat_run _ _ _ (handler_direct w event body s D)). Qed.

Lemma direct_call_stays_with_context_witness :
  classify emptyRules = Ok (DirectCall emptyRules)
  /\ forallb (fun a => negb (touchesCodePipeline a || isCallback a))
       (trace (handler deliveringWorld emptyRules start)) = true.
Proof.
  split; [reflexivity|].
  exact (direct_call_stays_with_context deliveringWorld emptyRules emptyRules
           start eq_refl).
Defined.

Local Opaque postToApi.

Lemma onDownloaded_codepipeline (w : world) (job : value)
    (err : option string) (content : string) (s : locals) :
  truthy (codePipelineJobId s) = true ->
  sat (onDownloaded w job err content) s
    (fun tr _ _ => forallb (fun a => negb (usesContext a)) tr = true).
Proof.
  intros T. unfold onDownloaded. destruct err as [e|]; walk;
    try reflexivity.
  call postToApi_effects.
  match goal with H : _ /\ _ |- _ => destruct H as [F _] end.
  simpl in F. apply (postEffect_codepipeline _ _ T) in F.
  spread; auto.
Qed.

Lemma onJobDetails_codepipeline (w : world) (job url : value)
    (err : option string) (jd : jobDetails) (s : locals) :
  truthy (codePipelineJobId s) = true ->
  sat (onJobDetails w job url err jd) s
    (fun tr _ _ => forallb (fun a => negb (usesContext a)) tr = true).
Proof.
  intros T. unfold onJobDetails. destruct err as [e|]; walk;
    try reflexivity.
  - call onDownloaded_codepipeline. spread; auto.
  - call postToApi_effects.
    match goal with H : _ /\ _ |- _ => destruct H as [F _] end.
    apply (postEffect_codepipeline _ _ T) in F. spread; auto.
  - call postToApi_effects.
    match goal with H : _ /\ _ |- _ => destruct H as [F _] end.
    apply (postEffect_codepipeline _ _ T) in F. spread; auto.
Qed.

Lemma handler_pipeline (w : world) (event job : value) (s : locals) :
  classify event = Ok (PipelineJob job) ->
  truthy (field job "id") = true ->
  sat (handler w event) s
    (fun tr _ _ => forallb (fun a => negb (usesContext a)) tr = true).
Proof.
  intros D T.
  assert (G : get job "id" = Ok (field job "id"))
    by (destruct job; simpl in *; try discriminate; reflexivity).
  unfold handler, reportError. walk; try congruence.
  all: try reflexivity.
  all: match goal with
       | H : classify _ = Ok (PipelineJob ?j),
         D : classify _ = Ok (PipelineJob ?j') |- _ =>
           tryif constr_eq j j' then fail
           else (assert (j = j') by congruence; subst j)
       end.
  all: try congruence.
  all: fields.
  all: simpl in * |-; try congruence.
  call onJobDetails_codepipeline.
  after; simpl in *; try congruence; spread; auto.
Qed.

Local Transparent postToApi.

(** X17.  An invocation from CodePipeline whose job has an id (a truthy
    one) is never answered through the context: neither [context.fail] nor
    [context.succeed] is called, whatever happens in the run. *)
Theorem pipeline_job_answers_codepipeline (w : world) (event job : value)
    (s : locals) :
  classify event = Ok (PipelineJob job) ->
  truthy (field job "id") = true ->
  forallb (fun a => negb (usesContext a)) (trace (handler w event s)) = true.
Proof.
  intros D T. exact (sat_run _ _ _ (handler_pipeline w event job s D T)).
Qed.

Lemma pipeline_job_answers_codepipeline_witness :
  classify (pipelineEvent "Production,Deployed successfully" [artifact])
  = Ok (PipelineJob
          (field (pipelineEvent "Production,Deployed successfully" [artifact])
             "CodePipeline.job"))
  /\ truthy (field (field (pipelineEvent "Production,Deployed successfully"
                             [artifact]) "CodePipeline.job") "id") = true
  /\ forallb (fun a => negb (usesContext a))
       (trace (handler deliveringWorld
                 (pipelineEvent "Production,Deployed successfully"
                    [artifact]) start)) = true.
Proof.
  split; [reflexivity|]. split; [reflexivity|].
  exact (pipeline_job_answers_codepipeline deliveringWorld
           (pipelineEvent "Production,Deployed successfully" [artifact])
           _ start eq_refl eq_refl).
Defined.

(** ** Notifications *)

Local Opaque postToApi.

Lemma handler_notification (w : world) (event record : value) (s : locals) :
  dtApiInit w = None ->
  classify event = Ok (AsyncNotification record) ->
  sat (handler w event) s
    (fun tr _ r =>
       match r with
       | Normal _ =>
           forallb (fun a => isLog a || isContextFail a) tr = true
       | _ => False
       end).
Proof.
  intros I D. unfold handler, reportError, fromSns.
  walk.
  all: try congruence.
  all: try reflexivity.
  all: simpl in * |-; try discriminate.
Qed.

Local Transparent postToApi.

(** X18.  An SNS notification leads to nothing but log lines and, when
    reading it throws, to one call of [context.fail]: the Dynatrace API is
    not called, CodePipeline is not asked, no success is reported, and the
    run always comes to its end. *)
Theorem notification_only_logged (w : world) (event record : value)
    (s : locals) :
  dtApiInit w = None ->
  classify event = Ok (AsyncNotification record) ->
  forallb (fun a => isLog a || isContextFail a) (trace (handler w event s))
  = true
  /\ outcome (handler w event s) = Normal tt.
Proof.
  intros I D.
  pose proof (sat_run _ _ _ (handler_notification w event record s I D)) as H.
  cbv beta in H.
  destruct (outcome (handler w event s)) as [[]|e|e]; try contradiction.
  now split.
Qed.

Lemma notification_only_logged_witness :
  dtApiInit sampleWorld = None
  /\ classify notificationEvent
     = Ok (AsyncNotification (VObj [("Sns", VObj [("Message", VStr "{}")])]))
  /\ (forallb (fun a => isLog a || isContextFail a)
        (trace (handler sampleWorld notificationEvent start)) = true
      /\ outcome (handler sampleWorld notificationEvent start) = Normal tt).
Proof.
  split; [reflexivity|]. split; [reflexivity|].
  exact (notification_only_logged sampleWorld notificationEvent _ start
           eq_refl eq_refl).
Defined.

(** ** The Lambda callback *)

Lemma postEffect_no_callback (jid : value) (tr : list effect) (m : text) :
  forallb (postEffect jid) tr = true -> ~ In (LambdaCallback m) tr.
Proof.
  intros F I. rewrite forallb_forall in F. specialize (F _ I).
  discriminate F.
Qed.

(** No callback among the actions listed. *)
Ltac absent m I :=
  simpl in I; repeat (rewrite in_app_iff in I; simpl in I);
  repeat match goal with
         | H : forallb (postEffect _) _ = true |- _ =>
             apply (postEffect_no_callback _ _ m) in H
         | H : forall m, ~ In (LambdaCallback m) _ |- _ =>
             specialize (H m)
         end;
  repeat match type of I with
         | _ \/ _ => destruct I as [I|I]
         end;
  try discriminate I; try contradiction.

Local Opaque postToApi.

Lemma onJobDetails_no_callback (w : world) (job url : value)
    (jd : jobDetails) (s : locals) :
  sat (onJobDetails w job url None jd) s
    (fun tr _ _ => forall m, ~ In (LambdaCallback m) tr).
Proof.
  unfold onJobDetails, onDownloaded.
  walk.
  all: try (intros m I; absent m I; fail).
  all: call postToApi_effects;
    match goal with H : _ /\ _ |- _ => destruct H as [F _] end;
    intros m I; absent m I.
Qed.

Lemma handler_callback (w : world) (event : value) (s : locals) :
  sat (handler w event) s
    (fun tr _ _ => forall m, In (LambdaCallback m) tr -> refusal w tr m).
Proof.
  unfold handler, reportError, fromSns.
  walk.
  all: try (intros m I; exfalso; absent m I; fail).
  - match goal with
    | H : getJobDetails _ _ = (?o, _) |- _ => destruct o as [e|]
    end.
    + unfold onJobDetails. walk.
      intros m I. simpl in I.
      repeat destruct I as [I|I]; try discriminate I; try contradiction.
      injection I as <-.
      match goal with
      | H : getJobDetails _ ?id = _ |- _ =>
          exists id, e; split;
          [ simpl; tauto | split; [ now rewrite H | reflexivity ] ]
      end.
    + call onJobDetails_no_callback.
      after; intros m I; exfalso; absent m I.
  - call postToApi_effects.
    match goal with H : _ /\ _ |- _ => destruct H as [F _] end.
    after; intros m I; exfalso; absent m I.
Qed.

Local Transparent postToApi.

(** X19.  The Lambda callback is called in one case only: the run asked
    CodePipeline for the details of the job and was refused; the callback
    then gets the text of line 82 with the error.  In particular it is
    never called with a result. *)
Theorem callback_only_for_refused_job_details (w : world) (event : value)
    (s : locals) (m : text) :
  In (LambdaCallback m) (trace (handler w event s)) ->
  exists jobId e,
    In (GetJobDetails jobId) (trace (handler w event s))
    /\ fst (getJobDetails w jobId) = Some e
    /\ m = [PLit ("Cant retrieve job details from CodePipeline: " ++ e)].
Proof. exact (sat_run _ _ _ (handler_callback w event s) m). Qed.

Lemma callback_only_for_refused_job_details_witness :
  In (LambdaCallback
        [PLit ("Cant retrieve job details from CodePipeline: "
               ++ "AccessDeniedException")])
     (trace (handler failingLookup
               (pipelineEvent "Production,Deployed successfully" []) start))
  /\ exists jobId e,
       In (GetJobDetails jobId)
          (trace (handler failingLookup
                    (pipelineEvent "Production,Deployed successfully" [])
                    start))
       /\ fst (getJobDetails failingLookup jobId) = Some e
       /\ [PLit ("Cant retrieve job details from CodePipeline: "
                 ++ "AccessDeniedException")]
          = [PLit ("Cant retrieve job details from CodePipeline: " ++ e)].
Proof.
  assert (I : In (LambdaCallback
                    [PLit ("Cant retrieve job details from CodePipeline: "
                           ++ "AccessDeniedException")])
                 (trace (handler failingLookup
                           (pipelineEvent "Production,Deployed successfully"
                              []) start)))
    by (vm_compute; tauto).
  split; [exact I|].
  exact (callback_only_for_refused_job_details failingLookup
           (pipelineEvent "Production,Deployed successfully" []) start _ I).
Defined.

(** ** Where the monspec file is taken from *)

Lemma parseUserParameters_location (w : world) (p : value)
    (parsed : value * value) :
  parseUserParameters w p = Ok parsed -> monspecLocation (snd parsed) = true.
Proof.
  unfold parseUserParameters. intros H. bind_ok H.
  destruct (String.prefix "{" a).
  - bind_ok H. now injection H as <-.
  - destruct ((1 <? length (split "," a))%nat
              && String.prefix "http" (nth 1 (split "," a) "")) eqn:U.
    + injection H as <-. apply andb_prop in U. now destruct U.
    + now injection H as <-.
Qed.

Lemma postEffect_proper (jid : value) (tr : list effect) :
  forallb (postEffect jid) tr = true -> forallb properDownload tr = true.
Proof. apply forallb_impl. intros a. now destruct a. Qed.

Local Opaque postToApi.

Lemma handler_download (w : world) (event : value) (s : locals) :
  sat (handler w event) s (fun tr _ _ => forallb properDownload tr = true).
Proof.
  unfold handler, reportError, fromSns.
  walk. all: try reflexivity.
  - unfold onJobDetails. walk; try reflexivity.
    + unfold onDownloaded. walk.
      all: match goal with
           | H : parseUserParameters _ _ = Ok ?p |- _ =>
               pose proof (parseUserParameters_location _ _ _ H) as L
           end.
      all: repeat match goal with
                  | H : get_index ?v 0 = Ok ?x, H' : get_index ?v 0 = Ok ?y
                    |- _ =>
                      assert (x = y) by congruence; subst x; clear H
                  end.
      all: try (simpl; rewrite L;
                match goal with H : truthy _ = true |- _ => rewrite H end;
                reflexivity).
      call postToApi_effects.
      match goal with H : _ /\ _ |- _ => destruct H as [F _] end.
      apply postEffect_proper in F. after; spread; rewrite ?L;
        repeat match goal with H : truthy _ = true |- _ => rewrite H end;
        auto.
    + call postToApi_effects.
      match goal with H : _ /\ _ |- _ => destruct H as [F _] end.
      apply postEffect_proper in F. after; spread; auto.
    + call postToApi_effects.
      match goal with H : _ /\ _ |- _ => destruct H as [F _] end.
      apply postEffect_proper in F. after; spread; auto.
  - call postToApi_effects.
    match goal with H : _ /\ _ |- _ => destruct H as [F _] end.
    apply postEffect_proper in F. after; spread; auto.
Qed.

Local Transparent postToApi.

(** X20.  Whenever the handler asks for a download, the artifact it
    names is there (the first input artifact of the job, truthy), and the
    monspec location it passes is either null or a text that starts with
    [http]. *)
Theorem download_of_present_artifact (w : world) (event : value) (s : locals)
    (artifact credentials url : value) :
  In (DownloadFile artifact credentials url) (trace (handler w event s)) ->
  truthy artifact = true /\ monspecLocation url = true.
Proof.
  intros I.
  pose proof (sat_run _ _ _ (handler_download w event s)) as F.
  cbv beta in F. rewrite forallb_forall in F. specialize (F _ I).
  now apply andb_prop in F.
Qed.

Lemma download_of_present_artifact_witness :
  In (DownloadFile artifact (VObj [])
        (VStr "http://example.com/monspec.json"))
     (trace (handler deliveringWorld
               (pipelineEvent "Production,http://example.com/monspec.json"
                  [artifact]) start))
  /\ (truthy artifact = true
      /\ monspecLocation (VStr "http://example.com/monspec.json") = true).
Proof.
  assert (I : In (DownloadFile artifact (VObj [])
                    (VStr "http://example.com/monspec.json"))
                 (trace (handler deliveringWorld
                           (pipelineEvent
                              "Production,http://example.com/monspec.json"
                              [artifact]) start)))
    by (vm_compute; tauto).
  split; [exact I|].
  exact (download_of_present_artifact deliveringWorld
           (pipelineEvent "Production,http://example.com/monspec.json"
              [artifact]) start _ _ _ I).
Defined.

(** ** Exceptions that nothing catches *)

Lemma onPosted_throws (w : world) (pd jid : value) (ctx : ctxarg)
    (statuscode : Z) (response : string) (s : locals) :
  sat (onPosted w pd jid ctx statuscode response) s
    (fun _ _ r => match r with Escaped _ => False | _ => True end).
Proof. unfold onPosted, reportSuccess, reportError. walk; exact I. Qed.

Lemma postToApi_escape (w : world) (pd jid : value) (ctx : ctxarg)
    (s : locals) :
  sat (postToApi w pd jid ctx) s
    (fun tr _ r =>
       match r with Escaped _ => existsb isPost tr = true | _ => True end).
Proof.
  unfold postToApi, reportError. walk; try exact I.
  all: call onPosted_throws;
    match goal with r : completion unit |- _ => destruct r end;
    try exact I; spread; auto.
Qed.

Lemma isPost_isRequest (tr : list effect) :
  existsb isPost tr = true -> existsb isRequest tr = true.
Proof.
  rewrite !existsb_exists. intros [a [I P]]. exists a. split; [exact I|].
  unfold isRequest. rewrite P. now rewrite orb_true_r.
Qed.

Local Opaque postToApi.

Lemma handler_escape (w : world) (event : value) (s : locals) :
  dtApiInit w = None ->
  sat (handler w event) s
    (fun tr _ r =>
       match r with
       | Escaped _ => existsb isRequest tr = true
       | _ => True
       end).
Proof.
  intros N. unfold handler, reportError, fromSns.
  walk. all: try congruence. all: try exact I.
  - match goal with |- sat _ _ ?Q =>
      apply (sat_consequence _ _ (fun _ _ _ => True) Q)
    end.
    + unfold sat. now destruct (onJobDetails _ _ _ _ _ _) as [[? ?] ?].
    + intros tr s' r _.
      destruct r; try exact I; walk; try exact I; spread;
        rewrite ?orb_true_r; reflexivity.
  - call postToApi_escape.
    match goal with r : completion unit |- _ => destruct r end;
      walk; try exact I.
    match goal with H : existsb isPost _ = true |- _ =>
      apply isPost_isRequest in H end.
    spread. rewrite ?orb_true_r. auto.
Qed.

Local Transparent postToApi.

(** X21.  Once the API client is set up, an exception goes uncaught only
    inside a callback: a run that ends in one has asked CodePipeline for
    something or has called the Dynatrace API before.  Whatever is thrown
    earlier is caught on line 159 and reported. *)
Theorem escape_only_from_callback (w : world) (event : value) (s : locals)
    (e : jserror) :
  dtApiInit w = None ->
  outcome (handler w event s) = Escaped e ->
  existsb isRequest (trace (handler w event s)) = true.
Proof.
  intros N O.
  pose proof (sat_run _ _ _ (handler_escape w event s N)) as H.
  cbv beta in H. now rewrite O in H.
Qed.

Lemma escape_only_from_callback_witness :
  dtApiInit sampleWorld = None
  /\ outcome (handler sampleWorld emptyRules start)
     = Escaped (SyntaxError "Unexpected end of JSON input")
  /\ existsb isRequest (trace (handler sampleWorld emptyRules start)) = true.
Proof.
  split; [reflexivity|]. split; [reflexivity|].
  exact (escape_only_from_callback sampleWorld emptyRules start _
           eq_refl eq_refl).
Defined.

(** ** A job that cannot be read *)

Local Opaque postToApi.

Lemma handler_unreadable_job (w : world) (event job : value) (shown : string)
    (e : jserror) (s : locals) :
  dtApiInit w = None ->
  classify event = Ok (PipelineJob job) ->
  truthy (field job "id") = true ->
  ToString (field job "id") = Ok shown ->
  (p <- userParameters job ;; parseUserParameters w p) = Err e ->
  sat (handler w event) s
    (fun tr _ r =>
       match r with
       | Normal _ =>
           calls tr = [PutJobFailure [PErr e] (field job "id") CtxGiven]
       | _ => False
       end).
Proof.
  intros N D T S X.
  assert (G : get job "id" = Ok (field job "id"))
    by (destruct job; simpl in *; try discriminate; reflexivity).
  unfold handler, reportError.
  walk. all: try congruence.
  all: match goal with
       | H : classify _ = Ok (PipelineJob ?j),
         D : classify _ = Ok (PipelineJob ?j') |- _ =>
           tryif constr_eq j j' then fail
           else (assert (j = j') by congruence; subst j)
       end.
  all: try congruence.
  all: fields.
  all: try congruence.
  all: repeat match goal with
              | H : userParameters _ = _ |- _ =>
                  rewrite H in X; cbn [bind result_monad] in X
              | H : parseUserParameters _ _ = _ |- _ =>
                  rewrite H in X; cbn [bind result_monad] in X
              end.
  all: try discriminate X.
  all: try (injection X as ->).
  all: cbn [codePipelineJobId] in *; try congruence.
  all: try reflexivity.
Qed.

Local Transparent postToApi.

(** X22.  A CodePipeline job with an id whose user parameters cannot be
    read (no action configuration, user parameters that are no string, JSON
    that does not parse): the exception is caught on line 159, the job is
    failed with it, and that is all the run does besides logging; neither
    CodePipeline is asked for anything nor the Dynatrace API called. *)
Theorem unreadable_job_fails_before_lookup (w : world) (event job : value)
    (shown : string) (e : jserror) (s : locals) :
  dtApiInit w = None ->
  classify event = Ok (PipelineJob job) ->
  truthy (field job "id") = true ->
  ToString (field job "id") = Ok shown ->
  (p <- userParameters job ;; parseUserParameters w p) = Err e ->
  calls (trace (handler w event s))
  = [PutJobFailure [PErr e] (field job "id") CtxGiven]
  /\ outcome (handler w event s) = Normal tt.
Proof.
  intros N D T S X.
  pose proof (sat_run _ _ _
                (handler_unreadable_job w event job shown e s N D T S X))
    as H.
  cbv beta in H.
  destruct (outcome (handler w event s)) as [[]|x|x]; try contradiction.
  now split.
Qed.

Lemma unreadable_job_fails_before_lookup_witness :
  dtApiInit sampleWorld = None
  /\ classify bareJobEvent = Ok (PipelineJob (VObj [("id", VStr "job-1")]))
  /\ truthy (field (VObj [("id", VStr "job-1")]) "id") = true
  /\ ToString (field (VObj [("id", VStr "job-1")]) "id") = Ok "job-1"
  /\ (p <- userParameters (VObj [("id", VStr "job-1")]) ;;
      parseUserParameters sampleWorld p)
     = Err (TypeError
              "Cannot read property actionConfiguration of undefined or null")
  /\ (calls (trace (handler sampleWorld bareJobEvent start))
      = [PutJobFailure
           [PErr (TypeError
                    "Cannot read property actionConfiguration of undefined or null")]
           (field (VObj [("id", VStr "job-1")]) "id") CtxGiven]
      /\ outcome (handler sampleWorld bareJobEvent start) = Normal tt).
Proof.
  split; [reflexivity|]. split; [reflexivity|]. split; [reflexivity|].
  split; [reflexivity|]. split; [reflexivity|].
  exact (unreadable_job_fails_before_lookup sampleWorld bareJobEvent
           (VObj [("id", VStr "job-1")]) "job-1" _ start
           eq_refl eq_refl eq_refl eq_refl eq_refl).
Defined.

Local Transparent count.
